(** * Bronze-to-Silver ETL (tally): a shallow embedding of
    [infrastructure/lambda/bronze_to_silver/handler.py]

    The handler reads one raw JSON batch, normalizes every show, runs the
    data-quality checks, enforces the Silver schema, derives the partition
    from the object key, writes the result and publishes quality metrics.

    Modelling conventions.
    - A Python value is a [value]; a [dict] is an association list whose
      lookup returns the first binding of a key.
    - A Python [str] is a Rocq [string]; a character [c] stands for the code
      point [N_of_ascii c], so the strings of the model are the Python strings
      whose code points are below 256.
    - A Python [float] is a binary64 number, a [spec_float] of the Standard
      Library with [prec = 53] and [emax = 1024].
    - An exception is a value of [exn]; a computation that may raise, log,
      read the clock, write an object or publish metrics lives in the monad
      [M] over the [World]. *)

From Stdlib Require Import ZArith List Bool String Ascii Lia.
From Stdlib Require Import Floats.SpecFloat.
Import ListNotations.

Set Warnings "-register-all".
Open Scope string_scope.
Open Scope Z_scope.

(** ** Python values *)

Inductive value : Type :=
| VNone
| VBool (b : bool)
| VInt (z : Z)
| VFloat (f : spec_float)
| VStr (s : string)
| VList (l : list value)
| VDict (d : list (string * value)).

Definition dict := list (string * value).

(** [d.get(k)] and [d.get(k, default)]. *)
Fixpoint dict_lookup (d : dict) (k : string) : option value :=
  match d with
  | [] => None
  | (k', v) :: d' => if String.eqb k' k then Some v else dict_lookup d' k
  end.

Definition dict_get (d : dict) (k : string) : value :=
  match dict_lookup d k with Some v => v | None => VNone end.

Definition dict_get_default (d : dict) (k : string) (dflt : value) : value :=
  match dict_lookup d k with Some v => v | None => dflt end.

(** ** Exceptions and results *)

Inductive exn : Type :=
| AttributeError | TypeError | ValueError | KeyError | OverflowError
| JSONDecodeError | ClientError
| ZeroDivisionError.

Inductive result (A : Type) : Type :=
| Ok (a : A)
| Raise (e : exn).
Arguments Ok {A} a.
Arguments Raise {A} e.

(** ** binary64 floats *)

Module F64.
Definition prec : Z := 53.
Definition emax : Z := 1024.

Definition zero : spec_float := S754_zero false.
Definition one : spec_float := S754_finite false 4503599627370496 (-52).
Definition hundred : spec_float := S754_finite false 7036874417766400 (-46).

Definition ltb : spec_float -> spec_float -> bool := SFltb.
Definition leb : spec_float -> spec_float -> bool := SFleb.
Definition eqb : spec_float -> spec_float -> bool := SFeqb.
Definition mul : spec_float -> spec_float -> spec_float := SFmul prec emax.

Definition is_nan (f : spec_float) : bool :=
  match f with S754_nan => true | _ => false end.

Definition is_inf (f : spec_float) : bool :=
  match f with S754_infinity _ => true | _ => false end.

(** The quotient [a / b] of two integers rounded once to the nearest
    binary64 number, ties to even ([b] is not zero). *)
Definition div_Z (a b : Z) : spec_float :=
  match a, b with
  | Z0, _ => S754_zero false
  | _, Z0 => S754_nan
  | Zpos m, Zpos n =>
      SFdiv prec emax (S754_finite false m 0) (S754_finite false n 0)
  | Zneg m, Zpos n =>
      SFdiv prec emax (S754_finite true m 0) (S754_finite false n 0)
  | Zpos m, Zneg n =>
      SFdiv prec emax (S754_finite false m 0) (S754_finite true n 0)
  | Zneg m, Zneg n =>
      SFdiv prec emax (S754_finite true m 0) (S754_finite true n 0)
  end.

(** The integer [z] rounded to the nearest binary64 number. *)
Definition of_Z (z : Z) : spec_float := binary_normalize prec emax z 0 false.

(** The decimal literal [num / 10^digits], e.g. [0.4] is [decimal 4 1]. *)
Definition decimal (num : Z) (digits : nat) : spec_float :=
  div_Z num (10 ^ Z.of_nat digits).
End F64.

(** [float(x)]: the builtin on a number; [float] of a string is the
    parameter [float_of_str] of the sections below. *)
Definition int_to_float (z : Z) : result spec_float :=
  let f := F64.of_Z z in
  if F64.is_inf f then Raise OverflowError else Ok f.

(** [a / b] on Python ints. *)
Definition py_truediv (a b : Z) : result spec_float :=
  if b =? 0 then Raise ZeroDivisionError
  else
    let f := F64.div_Z a b in
    if F64.is_inf f then Raise OverflowError else Ok f.

(** Truth value of an object, as [bool(x)], [not x] and [x or y] test it. *)
Definition truthy (v : value) : bool :=
  match v with
  | VNone => false
  | VBool b => b
  | VInt z => negb (z =? 0)
  | VFloat f => match f with S754_zero _ => false | _ => true end
  | VStr s => negb (String.eqb s "")
  | VList l => match l with [] => false | _ => true end
  | VDict d => match d with [] => false | _ => true end
  end.

(** [x or y]. *)
Definition py_or (x y : value) : value := if truthy x then x else y.

(** ** Data frames

    A data frame has named columns, in order, and rows; a row binds every
    column of the frame to a cell. A null cell ([None], [NaN], [NA]) is
    [VNone] or a float that is not a number. The NumPy dtype of a column is
    not represented: a cell keeps the Python value it was built from. *)

Definition row := list (string * value).

Record DataFrame : Type := mkDF { columns : list string; rows : list row }.

Definition mem_str (c : string) (l : list string) : bool :=
  existsb (String.eqb c) l.

(** The cell of a row under a column. *)
Definition cell (r : row) (c : string) : value := dict_get r c.

(** [len(df)]. *)
Definition df_len (df : DataFrame) : Z := Z.of_nat (List.length (rows df)).

(** Column labels in order of first appearance over the records. *)
Fixpoint add_new (seen : list string) (ks : list string) : list string :=
  match ks with
  | [] => seen
  | k :: ks' => if mem_str k seen then add_new seen ks' else add_new (seen ++ [k])%list ks'
  end.

Definition union_keys (recs : list dict) : list string :=
  fold_left (fun seen r => add_new seen (map fst r)) recs [].

(** A row restricted and reordered to the given labels; a label the row
    does not bind gets a null cell. *)
Definition project (cols : list string) (r : row) : row :=
  map (fun c => (c, cell r c)) cols.

(** [pd.DataFrame(records)] for a list of dicts: the labels in order of
    first appearance, a null where a record binds no value. A cell is the
    value the record holds: the dtype pandas infers for a column, and what
    the inference does to its cells, is not part of the model. *)
Definition from_records (recs : list dict) : DataFrame :=
  let cols := union_keys recs in
  mkDF cols (map (project cols) recs).

(** [pd.isna] and [pd.notna] on a cell. *)
Definition isna (v : value) : bool :=
  match v with
  | VNone => true
  | VFloat f => F64.is_nan f
  | _ => false
  end.

Definition notna (v : value) : bool := negb (isna v).

(** [df[col]]: the column as a series, [KeyError] when there is none. *)
Definition getitem (df : DataFrame) (c : string) : result (list value) :=
  if mem_str c (columns df) then Ok (map (fun r => cell r c) (rows df))
  else Raise KeyError.

(** [series.sum()] of a boolean series. *)
Definition count_true (m : list bool) : Z :=
  Z.of_nat (List.length (filter (fun b => b) m)).

(** [df[mask]]: the rows whose mask entry is true, in order. *)
Fixpoint select {A : Type} (l : list A) (m : list bool) : list A :=
  match l, m with
  | x :: l', b :: m' => if b then x :: select l' m' else select l' m'
  | _, _ => []
  end.

Definition filter_rows (df : DataFrame) (m : list bool) : DataFrame :=
  mkDF (columns df) (select (rows df) m).

(** [series < 0] and [series >= 0], cell by cell: a null compares false
    both ways, a number compares by value, anything else cannot be ordered
    against an int. *)
Definition lt_zero (v : value) : result bool :=
  match v with
  | VNone => Ok false
  | VBool _ => Ok false
  | VInt z => Ok (z <? 0)
  | VFloat f => Ok (F64.ltb f F64.zero)
  | VStr _ | VList _ | VDict _ => Raise TypeError
  end.

Definition ge_zero (v : value) : result bool :=
  match v with
  | VNone => Ok false
  | VBool _ => Ok true
  | VInt z => Ok (0 <=? z)
  | VFloat f => Ok (F64.leb F64.zero f)
  | VStr _ | VList _ | VDict _ => Raise TypeError
  end.

Fixpoint map_result {A B : Type} (f : A -> result B) (l : list A) : result (list B) :=
  match l with
  | [] => Ok []
  | x :: l' =>
      match f x with
      | Raise e => Raise e
      | Ok y =>
          match map_result f l' with
          | Raise e => Raise e
          | Ok ys => Ok (y :: ys)
          end
      end
  end.

(** Equality of two hashable cells, as Python's [==] on numbers and strings
    decides it: [True == 1 == 1.0]. *)
Definition float_eq_Z (f : spec_float) (z : Z) : bool :=
  match f with
  | S754_zero _ => z =? 0
  | S754_finite s m e =>
      let n := if s then Zneg m else Zpos m in
      match e with
      | Zneg p => n =? z * Zpos (Pos.pow 2 p)
      | _ => n * 2 ^ e =? z
      end
  | _ => false
  end.

Definition as_number (v : value) : option (Z + spec_float) :=
  match v with
  | VBool b => Some (inl (if b then 1 else 0))
  | VInt z => Some (inl z)
  | VFloat f => Some (inr f)
  | _ => None
  end.

Definition key_eqb (a b : value) : bool :=
  match as_number a, as_number b with
  | Some (inl x), Some (inl y) => x =? y
  | Some (inl x), Some (inr g) => float_eq_Z g x
  | Some (inr f), Some (inl y) => float_eq_Z f y
  | Some (inr f), Some (inr g) => F64.eqb f g
  | _, _ =>
      match a, b with
      | VStr s, VStr t => String.eqb s t
      | VNone, VNone => true
      | _, _ => false
      end
  end.

Definition hashable (v : value) : bool :=
  match v with
  | VList _ | VDict _ => false
  | _ => true
  end.

(** The mask of [duplicated(keep='first')] negated: an entry is true when no
    earlier key equals it. *)
Fixpoint first_mask (seen : list value) (ks : list value) : list bool :=
  match ks with
  | [] => []
  | k :: ks' =>
      if existsb (key_eqb k) seen then false :: first_mask seen ks'
      else true :: first_mask (k :: seen) ks'
  end.

(** [df.drop_duplicates(subset=[col], keep='first')]. *)
Definition drop_duplicates (df : DataFrame) (c : string) : result DataFrame :=
  match getitem df c with
  | Raise e => Raise e
  | Ok ks =>
      if forallb hashable ks then Ok (filter_rows df (first_mask [] ks))
      else Raise TypeError
  end.

(** [df[col] = value]: every row gets the cell; a new column is appended,
    an existing one keeps its place. *)
Fixpoint set_cell (r : row) (c : string) (v : value) : row :=
  match r with
  | [] => [(c, v)]
  | (k, x) :: r' => if String.eqb k c then (k, v) :: r' else (k, x) :: set_cell r' c v
  end.

Definition set_scalar (df : DataFrame) (c : string) (v : value) : DataFrame :=
  mkDF (if mem_str c (columns df) then columns df else (columns df ++ [c])%list)
       (map (fun r => set_cell r c v) (rows df)).

(** [df[col] = series], the series aligned with the rows. *)
Fixpoint set_cells (rs : list row) (c : string) (vs : list value) : list row :=
  match rs, vs with
  | r :: rs', v :: vs' => set_cell r c v :: set_cells rs' c vs'
  | _, _ => rs
  end.

Definition set_series (df : DataFrame) (c : string) (vs : list value) : DataFrame :=
  mkDF (if mem_str c (columns df) then columns df else (columns df ++ [c])%list)
       (set_cells (rows df) c vs).

(** [df[labels]]: the listed columns in the listed order. *)
Definition reindex (df : DataFrame) (labels : list string) : result DataFrame :=
  if forallb (fun c => mem_str c (columns df)) labels
  then Ok (mkDF labels (map (project labels) (rows df)))
  else Raise KeyError.

(** ** Regular expressions

    The two patterns of the handler use literals, a character class, a
    greedy [+] over a class, bounded repetition of a class and one capture
    group. [search] is [re.search]: the leftmost start at which the pattern
    matches, backtracking over the greedy repetition, and it returns
    [group(1)]. *)

Module Re.
Inductive atom : Type :=
| Lit (c : ascii)                 (* a literal character *)
| Cls (p : ascii -> bool)         (* one character of a class *)
| ClsPlus (p : ascii -> bool)     (* [class+], greedy *)
| Open                            (* [(] *)
| Close.                          (* [)] *)

Definition regex := list atom.

(** The capture group while matching: not yet opened, open with the
    characters read so far (latest first), or closed. *)
Inductive capture : Type :=
| Before
| Inside (acc : list ascii)
| Done (g : list ascii).

Definition push (cap : capture) (c : ascii) : capture :=
  match cap with
  | Inside acc => Inside (c :: acc)
  | _ => cap
  end.

Definition close (cap : capture) : capture :=
  match cap with
  | Inside acc => Done (rev acc)
  | _ => cap
  end.

Definition group1 (cap : capture) : list ascii :=
  match cap with
  | Done g => g
  | _ => []
  end.

(** Match the pattern at the head of [s]. *)
Fixpoint match_here (r : regex) (s : list ascii) (cap : capture)
  : option (list ascii) :=
  match r with
  | [] => Some (group1 cap)
  | Lit c :: r' =>
      match s with
      | x :: s' => if Ascii.eqb x c then match_here r' s' (push cap x) else None
      | [] => None
      end
  | Cls p :: r' =>
      match s with
      | x :: s' => if p x then match_here r' s' (push cap x) else None
      | [] => None
      end
  | ClsPlus p :: r' =>
      (fix plus (s : list ascii) (cap : capture) {struct s} :=
         match s with
         | x :: s' =>
             if p x then
               match plus s' (push cap x) with
               | Some g => Some g
               | None => match_here r' s' (push cap x)
               end
             else None
         | [] => None
         end) s cap
  | Open :: r' => match_here r' s (Inside [])
  | Close :: r' => match_here r' s (close cap)
  end.

Fixpoint search_list (r : regex) (s : list ascii) : option (list ascii) :=
  match match_here r s Before with
  | Some g => Some g
  | None =>
      match s with
      | [] => None
      | _ :: s' => search_list r s'
      end
  end.

Definition search (r : regex) (s : string) : option string :=
  option_map string_of_list_ascii (search_list r (list_ascii_of_string s)).

Definition lits (s : string) : regex := map Lit (list_ascii_of_string s).

(** [\d] and [\w] on the code points below 256, as Python 3 reads them in
    a [str] pattern: decimal digits; alphanumerics and the underscore. *)
Definition between (lo hi : N) (c : ascii) : bool :=
  let n := N_of_ascii c in (N.leb lo n && N.leb n hi)%bool.

Definition digit (c : ascii) : bool := between 48 57 c.

Definition word (c : ascii) : bool :=
  (between 48 57 c || between 65 90 c || between 95 95 c || between 97 122 c
   || between 170 170 c || between 178 179 c || between 181 181 c
   || between 185 186 c || between 188 190 c || between 192 214 c
   || between 216 246 c || between 248 255 c)%bool.
End Re.

(** [r'dt=(\d{4}-\d{2}-\d{2})'] *)
Definition date_pattern : Re.regex :=
  (Re.lits "dt=" ++ [Re.Open]
    ++ repeat (Re.Cls Re.digit) 4 ++ Re.lits "-"
    ++ repeat (Re.Cls Re.digit) 2 ++ Re.lits "-"
    ++ repeat (Re.Cls Re.digit) 2 ++ [Re.Close])%list.

(** [r'shows/(\w+)/'] *)
Definition data_type_pattern : Re.regex :=
  (Re.lits "shows/" ++ [Re.Open; Re.ClsPlus Re.word; Re.Close] ++ Re.lits "/")%list.

(** ** The world of one invocation *)

(** [datetime.now()]: what [isoformat()] and [strftime('%Y-%m-%d')] print. *)
Record instant : Type := mkInstant { isoformat : string; ymd : string }.

(** A dtype label of [SILVER_SCHEMA]. *)
Inductive dtype : Type := Int64 | float64 | string_dtype | object_dtype.

(** One call of the logger, by message. *)
Inductive log_entry : Type :=
| WarnNoShows (key : string)
| InfoFound (initial_count : Z)
| WarnNormalizeFailed (show_id : value) (e : exn)
| InfoDataQuality (final_count initial_count : Z) (pass_rate : spec_float)
| WarnCouldNotCast (col : string) (d : dtype) (e : exn)
| InfoWroteSilver (bucket key : string)
| WarnNoDate (key : string)
| WarnNoDataType (key : string)
| InfoPublished (n : Z).

Definition is_warning (l : log_entry) : bool :=
  match l with
  | WarnNoShows _ | WarnNormalizeFailed _ _ | WarnCouldNotCast _ _ _
  | WarnNoDate _ | WarnNoDataType _ => true
  | _ => false
  end.

(** An S3 object: a JSON document as [json.loads] reads it, or a Parquet
    file holding a frame. *)
Inductive s3_body : Type :=
| Json (v : value)
| Parquet (df : DataFrame).

Record metric_datum : Type := mkMetric {
  MetricName : string;
  Value : value;
  Unit : string;
  Timestamp : instant;
  Dimensions : list (string * string)
}.

Record World : Type := mkWorld {
  now_calls : nat;                                   (* calls of datetime.now() so far *)
  log : list log_entry;                              (* logger calls, latest first *)
  s3_objects : list (string * string * s3_body);     (* bucket, key, body; latest first *)
  cloudwatch_puts : list (string * list metric_datum) (* namespace, data; latest first *)
}.

(** The object stored under a bucket and a key: the latest upload. *)
Definition s3_lookup (w : World) (bucket key : string) : option s3_body :=
  option_map snd
    (find (fun o => String.eqb (fst (fst o)) bucket && String.eqb (snd (fst o)) key)%bool
          (s3_objects w)).

(** ** The monad of the handler: state and exceptions *)

Definition M (A : Type) : Type := World -> result A * World.

Definition ret {A : Type} (a : A) : M A := fun w => (Ok a, w).

Definition bind {A B : Type} (m : M A) (k : A -> M B) : M B :=
  fun w =>
    match m w with
    | (Ok a, w') => k a w'
    | (Raise e, w') => (Raise e, w')
    end.

Definition raise {A : Type} (e : exn) : M A := fun w => (Raise e, w).

Definition lift {A : Type} (r : result A) : M A := fun w => (r, w).

(** [try: m except Exception as e: h e]. *)
Definition try_except {A : Type} (m : M A) (h : exn -> M A) : M A :=
  fun w =>
    match m w with
    | (Ok a, w') => (Ok a, w')
    | (Raise e, w') => h e w'
    end.

Declare Scope monad_scope.
Delimit Scope monad_scope with monad.
Notation "x <- m ;; k" := (bind m (fun x => k))
  (at level 61, m at next level, right associativity) : monad_scope.
Notation "' pat <- m ;; k" := (bind m (fun x => match x with pat => k end))
  (at level 61, pat pattern, m at next level, right associativity) : monad_scope.
Notation "m ;;; k" := (bind m (fun _ => k))
  (at level 61, right associativity) : monad_scope.
Open Scope monad_scope.

Definition logger (l : log_entry) : M unit :=
  fun w => (Ok tt, mkWorld (now_calls w) (l :: log w) (s3_objects w) (cloudwatch_puts w)).

(** The calls on AWS that write, [s3.upload_file] and
    [cloudwatch.put_metric_data]: the world records them, and they are
    taken to succeed. *)
Definition upload_file (bucket key : string) (body : s3_body) : M unit :=
  fun w => (Ok tt, mkWorld (now_calls w) (log w) ((bucket, key, body) :: s3_objects w)
                           (cloudwatch_puts w)).

Definition put_metric_data (namespace : string) (data : list metric_datum) : M unit :=
  fun w => (Ok tt, mkWorld (now_calls w) (log w) (s3_objects w)
                           ((namespace, data) :: cloudwatch_puts w)).

(** The result and the final world of a run. *)
Definition outcome {A : Type} (m : M A) (w : World) : result A := fst (m w).
Definition final {A : Type} (m : M A) (w : World) : World := snd (m w).

(** ** The handler *)

(** [SILVER_SCHEMA], a dict in insertion order. *)
Definition SILVER_SCHEMA : list (string * dtype) :=
  [ ("show_id", Int64);
    ("title", string_dtype);
    ("original_title", string_dtype);
    ("popularity", float64);
    ("vote_average", float64);
    ("vote_count", Int64);
    ("first_air_date", string_dtype);
    ("genre_ids", object_dtype);
    ("origin_country", object_dtype);
    ("poster_path", string_dtype);
    ("backdrop_path", string_dtype);
    ("overview", string_dtype);
    ("original_language", string_dtype);
    ("ingestion_date", string_dtype);
    ("data_type", string_dtype) ].

(** The counters of [apply_data_quality_checks]. *)
Record checks : Type := mkChecks {
  initial_count : Z;
  missing_show_id : Z;
  missing_title : Z;
  invalid_popularity : Z;
  duplicates : Z;
  final_count : Z;
  failed_count : Z;
  pass_rate : spec_float
}.

(** What [process_bronze_file] returns; the short-circuit result has no
    ['silver_key']. *)
Record summary : Type := mkSummary {
  records_processed : Z;
  quality_pass_rate : spec_float;
  silver_key : option string
}.

(** [x.get(k)] on an arbitrary object: only a dict has the method. *)
Definition py_get (x : value) (k : string) : result value :=
  match x with
  | VDict d => Ok (dict_get d k)
  | _ => Raise AttributeError
  end.

(** [len(x)]. *)
Definition py_len (x : value) : result Z :=
  match x with
  | VList l => Ok (Z.of_nat (List.length l))
  | VStr s => Ok (Z.of_nat (String.length s))
  | VDict d => Ok (Z.of_nat (List.length d))
  | _ => Raise TypeError
  end.

(** The items [for show in x] visits. *)
Definition py_iter (x : value) : result (list value) :=
  match x with
  | VList l => Ok l
  | VStr s => Ok (map (fun c => VStr (String c EmptyString)) (list_ascii_of_string s))
  | VDict d => Ok (map (fun kv => VStr (fst kv)) d)
  | _ => Raise TypeError
  end.

Section Handler.

(** The clock: what the [n]-th call of [datetime.now()] returns. *)
Variable clock : nat -> instant.

(** [os.environ.get('ENVIRONMENT', 'dev')]. *)
Variable ENVIRONMENT : string.

(** [float(s)] on a string: the number it spells, if any. *)
Variable float_of_str : string -> option spec_float.

(** [series.astype(dtype)] of pandas on the cells of a column. *)
Variable astype : dtype -> list value -> result (list value).

Definition datetime_now : M instant :=
  fun w => (Ok (clock (now_calls w)),
            mkWorld (S (now_calls w)) (log w) (s3_objects w) (cloudwatch_puts w)).

(** [float(x)]. *)
Definition py_float (x : value) : result spec_float :=
  match x with
  | VFloat f => Ok f
  | VInt z => int_to_float z
  | VBool b => Ok (if b then F64.one else F64.zero)
  | VStr s =>
      match float_of_str s with
      | Some f => Ok f
      | None => Raise ValueError
      end
  | VNone | VList _ | VDict _ => Raise TypeError
  end.

(** [normalize_show(raw_show)] *)
Definition normalize_show (raw_show : value) : M dict :=
  match raw_show with
  | VDict d =>
      vote_average <- lift (py_float (dict_get_default d "vote_average" (VFloat F64.zero))) ;;
      now <- datetime_now ;;
      ret [ ("show_id", dict_get d "id");
            ("title", py_or (dict_get d "name") (dict_get d "original_name"));
            ("original_title", dict_get d "original_name");
            ("vote_average", VFloat vote_average);
            ("vote_count", dict_get_default d "vote_count" (VInt 0));
            ("first_air_date", dict_get d "first_air_date");
            ("genre_ids", dict_get_default d "genre_ids" (VList []));
            ("origin_country", dict_get_default d "origin_country" (VList []));
            ("poster_path", dict_get d "poster_path");
            ("backdrop_path", dict_get d "backdrop_path");
            ("overview", dict_get d "overview");
            ("original_language", dict_get d "original_language");
            ("popularity", dict_get_default d "popularity" (VFloat F64.zero));
            ("ingestion_date", VStr (isoformat now));
            ("data_type", VNone) ]
  | _ => raise AttributeError
  end.

(** [apply_data_quality_checks(df, initial_count)] *)
Definition apply_data_quality_checks (df : DataFrame) (initial_count : Z)
  : M (DataFrame * checks) :=
  (* Check for missing show_id *)
  ids <- lift (getitem df "show_id") ;;
  let missing_show_id := count_true (map isna ids) in
  let df := filter_rows df (map notna ids) in
  (* Check for missing title *)
  titles <- lift (getitem df "title") ;;
  let missing_title := count_true (map isna titles) in
  let df := filter_rows df (map notna titles) in
  (* Check for invalid popularity *)
  pops <- lift (getitem df "popularity") ;;
  negative <- lift (map_result lt_zero pops) ;;
  let invalid_popularity := count_true negative in
  nonnegative <- lift (map_result ge_zero pops) ;;
  let df := filter_rows df nonnegative in
  (* Remove duplicates (keep first occurrence) *)
  let pre_dedup_count := df_len df in
  df <- lift (drop_duplicates df "show_id") ;;
  let duplicates := pre_dedup_count - df_len df in
  (* Calculate pass rate *)
  let final_count := df_len df in
  let failed_count := initial_count - final_count in
  pass_rate <- lift (if initial_count >? 0 then py_truediv final_count initial_count
                     else Ok F64.zero) ;;
  logger (InfoDataQuality final_count initial_count pass_rate) ;;;
  ret (df, mkChecks initial_count missing_show_id missing_title invalid_popularity
                    duplicates final_count failed_count pass_rate).

(** [series.astype(dtype, errors='ignore')]: a [ValueError] or a
    [TypeError] of the cast leaves the series as it was. *)
Definition astype_ignore (d : dtype) (col : list value) : result (list value) :=
  match astype d col with
  | Ok col' => Ok col'
  | Raise TypeError | Raise ValueError => Ok col
  | Raise e => Raise e
  end.

Definition castable (d : dtype) : bool :=
  match d with
  | Int64 | float64 | string_dtype => true
  | object_dtype => false
  end.

(** One turn of the cast loop of [enforce_schema]. *)
Definition cast_column (df : DataFrame) (col : string) (d : dtype) : M DataFrame :=
  try_except
    (if castable d then
       series <- lift (getitem df col) ;;
       series <- lift (astype_ignore d series) ;;
       ret (set_series df col series)
     else ret df)
    (fun e => logger (WarnCouldNotCast col d e) ;;; ret df).

Fixpoint cast_columns (df : DataFrame) (schema : list (string * dtype)) : M DataFrame :=
  match schema with
  | [] => ret df
  | (col, d) :: schema' =>
      df <- cast_column df col d ;;
      cast_columns df schema'
  end.

(** [enforce_schema(df, schema)] *)
Definition enforce_schema (df : DataFrame) (schema : list (string * dtype)) : M DataFrame :=
  (* Add missing columns with None *)
  let df := fold_left (fun df col =>
              if mem_str col (columns df) then df else set_scalar df col VNone)
              (map fst schema) df in
  (* Reorder columns to match schema *)
  df <- lift (reindex df (map fst schema)) ;;
  (* Cast to appropriate types *)
  cast_columns df schema.

(** [write_to_silver(df, bucket, key)]; the bytes [df.to_parquet] writes
    are represented by the frame they encode. *)
Definition write_to_silver (df : DataFrame) (bucket key : string) : M unit :=
  upload_file bucket key (Parquet df) ;;;
  logger (InfoWroteSilver bucket key).

(** [extract_partition_date(key)] *)
Definition extract_partition_date (key : string) : M string :=
  match Re.search date_pattern key with
  | Some group1 => ret group1
  | None =>
      logger (WarnNoDate key) ;;;
      now <- datetime_now ;;
      ret (ymd now)
  end.

(** [extract_data_type(key)] *)
Definition extract_data_type (key : string) : M string :=
  match Re.search data_type_pattern key with
  | Some group1 => ret group1
  | None =>
      logger (WarnNoDataType key) ;;;
      ret "unknown"
  end.

(** [publish_quality_metrics(metrics, data_type, date)] *)
Definition publish_quality_metrics (metrics : checks) (data_type date : string) : M unit :=
  let dims := [("Environment", ENVIRONMENT); ("DataType", data_type)] in
  t1 <- datetime_now ;;
  t2 <- datetime_now ;;
  t3 <- datetime_now ;;
  let metric_data :=
    [ mkMetric "DataQualityPassRate" (VFloat (F64.mul (pass_rate metrics) F64.hundred))
               "Percent" t1 dims;
      mkMetric "RecordsProcessed" (VInt (final_count metrics)) "Count" t2 dims;
      mkMetric "RecordsFailed" (VInt (failed_count metrics)) "Count" t3 dims ] in
  put_metric_data "Tally/DataQuality" metric_data ;;;
  logger (InfoPublished (Z.of_nat (List.length metric_data))).

(** The loop of [process_bronze_file] over the shows: a show that fails
    to normalize is logged with [show.get('id')] and skipped. *)
Fixpoint normalize_loop (shows : list value) (normalized_shows : list dict)
  : M (list dict) :=
  match shows with
  | [] => ret normalized_shows
  | show :: rest =>
      normalized_shows <-
        try_except
          (normalized <- normalize_show show ;;
           ret (normalized_shows ++ [normalized])%list)
          (fun e =>
             show_id <- lift (py_get show "id") ;;
             logger (WarnNormalizeFailed show_id e) ;;;
             ret normalized_shows) ;;
      normalize_loop rest normalized_shows
  end.

(** [s3.get_object] followed by [json.loads]. *)
Definition get_json (bucket key : string) : M value :=
fun w =>
  match s3_lookup w bucket key with
  | Some (Json v) => (Ok v, w)
  | Some (Parquet _) => (Raise JSONDecodeError, w)
  | None => (Raise ClientError, w)
  end.

(** [process_bronze_file(bucket, key)] *)
Definition process_bronze_file (bucket key : string) : M summary :=
  raw_data <- get_json bucket key ;;
  shows <- lift (match raw_data with
                 | VDict d => Ok (dict_get_default d "results" (VList []))
                 | _ => Raise AttributeError
                 end) ;;
  if negb (truthy shows) then
    logger (WarnNoShows key) ;;;
    ret (mkSummary 0 F64.zero None)
  else
    initial_count <- lift (py_len shows) ;;
    logger (InfoFound initial_count) ;;;
    (* Normalize each show to Silver schema *)
    items <- lift (py_iter shows) ;;
    normalized_shows <- normalize_loop items [] ;;
    (* Convert to DataFrame *)
    let df := from_records normalized_shows in
    (* Apply data quality checks *)
    '(df, quality_metrics) <- apply_data_quality_checks df initial_count ;;
    (* Enforce schema *)
    df <- enforce_schema df SILVER_SCHEMA ;;
    (* Extract metadata from key *)
    partition_date <- extract_partition_date key ;;
    data_type <- extract_data_type key ;;
    (* Write to Silver layer *)
    let silver_key := "silver/shows/" ++ data_type ++ "/dt=" ++ partition_date
                      ++ "/data.parquet" in
    write_to_silver df bucket silver_key ;;;
    (* Publish quality metrics *)
    publish_quality_metrics quality_metrics data_type partition_date ;;;
    ret (mkSummary (df_len df) (pass_rate quality_metrics) (Some silver_key)).

End Handler.

(** ** One concrete environment

    A clock that always shows the same instant, a reader of plain decimal
    numerals for [float(s)] and a cell-wise cast for [astype]: an instance
    of the section's parameters on which the handler can be run. *)

Module Sample.
Definition clock (n : nat) : instant :=
  mkInstant "2024-03-02T06:00:00" "2024-03-02".

Definition ENVIRONMENT : string := "dev".

(** Digits of a numeral, most significant first, as a number. *)
Fixpoint digits_value (acc : Z) (s : list ascii) : option Z :=
  match s with
  | [] => Some acc
  | c :: s' =>
      if Re.digit c
      then digits_value (10 * acc + Z.of_N (N_of_ascii c) - 48) s'
      else None
  end.

Fixpoint split_dot (s : list ascii) : list ascii * option (list ascii) :=
  match s with
  | [] => ([], None)
  | c :: s' =>
      if Ascii.eqb c "."%char then ([], Some s')
      else let '(a, b) := split_dot s' in (c :: a, b)
  end.

Definition unsigned_decimal (s : list ascii) : option spec_float :=
  match split_dot s with
  | ([], _) => None
  | (int_part, None) =>
      option_map F64.of_Z (digits_value 0 int_part)
  | (_, Some []) => None
  | (int_part, Some frac) =>
      option_map (fun n => F64.decimal n (List.length frac))
                 (digits_value 0 (int_part ++ frac))
  end.

(** Numerals of the shape [-?digits(.digits)?]. *)
Definition float_of_str (s : string) : option spec_float :=
  match list_ascii_of_string s with
  | "-"%char :: s' => option_map (SFopp) (unsigned_decimal s')
  | s' => unsigned_decimal s'
  end.

Definition is_integral (f : spec_float) : option Z :=
  match f with
  | S754_zero _ => Some 0
  | S754_finite s m e =>
      let n := if s then Zneg m else Zpos m in
      match e with
      | Zneg p => if (n mod Zpos (Pos.pow 2 p) =? 0) then Some (n / Zpos (Pos.pow 2 p)) else None
      | _ => Some (n * 2 ^ e)
      end
  | _ => None
  end.

Definition cast_cell (d : dtype) (v : value) : result value :=
match d, v with
| object_dtype, v => Ok v
| float64, VNone => Ok (VFloat S754_nan)
| float64, VInt z =>
    match int_to_float z with Ok f => Ok (VFloat f) | Raise e => Raise e end
| float64, VBool b => Ok (VFloat (if b then F64.one else F64.zero))
| float64, VFloat f => Ok (VFloat f)
| float64, VStr s =>
    match float_of_str s with
    | Some f => Ok (VFloat f)
    | None => Raise ValueError
    end
| _, VNone => Ok VNone
| _, VFloat S754_nan => Ok VNone
| Int64, VInt z => Ok (VInt z)
| Int64, VBool b => Ok (VInt (if b then 1 else 0))
| Int64, VFloat f =>
    match is_integral f with
    | Some z => Ok (VInt z)
    | None => Raise TypeError
    end
| string_dtype, VStr s => Ok (VStr s)
| _, _ => Raise TypeError
end.

Definition astype (d : dtype) (col : list value) : result (list value) :=
  map_result (cast_cell d) col.

(** An empty world, and one holding a single Bronze document. *)
Definition empty_world : World := mkWorld 0 [] [] [].

Definition bronze_world (bucket key : string) (doc : value) : World :=
  mkWorld 0 [] [(bucket, key, Json doc)] [].

Definition normalize_show := normalize_show clock float_of_str.
Definition enforce_schema := enforce_schema astype.
Definition process_bronze_file := process_bronze_file clock ENVIRONMENT float_of_str astype.
End Sample.

(** ** Vocabulary of the statements *)

(** [s] without its prefix [p], when it starts with [p]. *)
Fixpoint strip_prefix (p s : list ascii) : option (list ascii) :=
  match p, s with
  | [], _ => Some s
  | c :: p', x :: s' => if Ascii.eqb x c then strip_prefix p' s' else None
  | _ :: _, [] => None
  end.

(** [p in s] on strings. *)
Fixpoint occurs_list (p s : list ascii) : bool :=
  match strip_prefix p s with
  | Some _ => true
  | None =>
      match s with
      | [] => false
      | _ :: s' => occurs_list p s'
      end
  end.

Definition occurs (p s : string) : bool :=
  occurs_list (list_ascii_of_string p) (list_ascii_of_string s).

(** A non-empty run of word characters. *)
Definition word_segment (seg : string) : bool :=
  match list_ascii_of_string seg with
  | [] => false
  | l => forallb Re.word l
  end.

(** A run without [/] that holds a character [\w] does not match. *)
Definition nonword_segment (seg : string) : bool :=
  let l := list_ascii_of_string seg in
  (negb (existsb (Ascii.eqb "/"%char) l) && negb (forallb Re.word l))%bool.

(** The class [[A-Za-z0-9_]]. *)
Definition ascii_word (c : ascii) : bool :=
  (Re.between 48 57 c || Re.between 65 90 c || Re.between 95 95 c
   || Re.between 97 122 c)%bool.

(** A date token [YYYY-MM-DD]: digits and hyphens in their places. *)
Definition is_date (d : string) : bool :=
  match list_ascii_of_string d with
  | [y1; y2; y3; y4; h1; m1; m2; h2; d1; d2] =>
      (Re.digit y1 && Re.digit y2 && Re.digit y3 && Re.digit y4
       && Ascii.eqb h1 "-"%char && Re.digit m1 && Re.digit m2
       && Ascii.eqb h2 "-"%char && Re.digit d1 && Re.digit d2)%bool
  | _ => false
  end.

(** A raw record that is a map. *)
Definition is_dict (v : value) : bool :=
  match v with
  | VDict _ => true
  | _ => false
  end.

(** The identity key of a row, and the three row tests of the gate. *)
Definition show_id_of (r : row) : value := cell r "show_id".

Definition has_show_id (r : row) : bool := notna (cell r "show_id").

Definition has_title (r : row) : bool := notna (cell r "title").

Definition popularity_negative (r : row) : bool :=
  match lt_zero (cell r "popularity") with
  | Ok b => b
  | Raise _ => false
  end.

Definition popularity_valid (r : row) : bool :=
  match ge_zero (cell r "popularity") with
  | Ok b => b
  | Raise _ => false
  end.

(** The keys seen once [ks] has been scanned from [seen]. *)
Fixpoint seen_after (seen : list value) (ks : list value) : list value :=
  match ks with
  | [] => seen
  | k :: ks' =>
      if existsb (key_eqb k) seen then seen_after seen ks'
      else seen_after (k :: seen) ks'
  end.

(** The rows kept by the deduplication, scanning from the keys [seen]. *)
Definition dedup_from (seen : list value) (rs : list row) : list row :=
  select rs (first_mask seen (map show_id_of rs)).

Definition dedup_first (rs : list row) : list row := dedup_from [] rs.

(** The batch of section 8 of the specification: five raw records, one
    without [id], one with [popularity = -1], two sharing an [id]. *)
Definition scenario_shows : list value :=
  [ VDict [("name", VStr "No id"); ("popularity", VFloat F64.one)];
    VDict [("id", VInt 2); ("name", VStr "Negative"); ("popularity", VInt (-1))];
    VDict [("id", VInt 7); ("name", VStr "First"); ("popularity", VInt 3)];
    VDict [("id", VInt 7); ("name", VStr "Second"); ("popularity", VInt 4)];
    VDict [("id", VInt 9); ("name", VStr "Other"); ("popularity", VFloat F64.one)] ].

Definition scenario_key : string := "bronze/shows/trending/dt=2024-03-01/x.json".

Definition scenario_world : World :=
  Sample.bronze_world "tally" scenario_key (VDict [("results", VList scenario_shows)]).

(** The scenario's records as the normalizer of the sample environment
    leaves them. *)
Definition scenario_normalized : list dict :=
  match outcome (normalize_loop Sample.clock Sample.float_of_str scenario_shows [])
                Sample.empty_world with
  | Ok l => l
  | Raise _ => []
  end.

(** A normalized record whose popularity is null: the raw record held
    ["popularity": null]. *)
Definition null_popularity_shows : list value :=
  [ VDict [("id", VInt 1); ("name", VStr "A"); ("popularity", VNone)] ].

Definition null_popularity_normalized : list dict :=
  match outcome (normalize_loop Sample.clock Sample.float_of_str null_popularity_shows [])
                Sample.empty_world with
  | Ok l => l
  | Raise _ => []
  end.

(** The test of a null popularity: the rows on which neither [< 0] nor
    [>= 0] holds. *)
Definition popularity_null (r : row) : bool := isna (cell r "popularity").

(** A cell that [< 0] and [>= 0] accept: a null or a number. *)
Definition orderable (v : value) : bool :=
  match v with
  | VNone | VBool _ | VInt _ | VFloat _ => true
  | VStr _ | VList _ | VDict _ => false
  end.

(** The rows that reach the third and the fourth rule of the gate. *)
Definition identified (rs : list row) : list row :=
  filter has_title (filter has_show_id rs).

Definition eligible (rs : list row) : list row :=
  filter popularity_valid (identified rs).

(** The batch of the scenario with a sixth record, whose popularity is
    null. *)
Definition unrated_shows : list value :=
  (scenario_shows
   ++ [ VDict [("id", VInt 11); ("name", VStr "Unrated"); ("popularity", VNone)] ])%list.

Definition unrated_normalized : list dict :=
  match outcome (normalize_loop Sample.clock Sample.float_of_str unrated_shows [])
                Sample.empty_world with
  | Ok l => l
  | Raise _ => []
  end.

(** The five counters a report adds up. *)
Definition accounted (c : checks) : Z :=
  missing_show_id c + missing_title c + invalid_popularity c + duplicates c
  + final_count c.

(** The titles of the rows of a frame, in order. *)
Definition titles (df : DataFrame) : list value := map (fun r => cell r "title") (rows df).

(** The cells of a column, row by row. *)
Definition column_of (c : string) (rs : list row) : list value :=
  map (fun r => cell r c) rs.

(** A frame of the given shape: these columns, and every row binds
    exactly them, in order. *)
Definition shaped (labels : list string) (df : DataFrame) : Prop :=
  columns df = labels /\ Forall (fun r => map fst r = labels) (rows df).

(** The first loop of [enforce_schema]. *)
Definition add_missing (df : DataFrame) (labels : list string) : DataFrame :=
  fold_left (fun df col => if mem_str col (columns df) then df else set_scalar df col VNone)
            labels df.

(** The frame one turn of the cast loop leaves, whatever it logs. *)
Definition cast_pure (astype : dtype -> list value -> result (list value))
           (df : DataFrame) (cd : string * dtype) : DataFrame :=
  if castable (snd cd) then
    match getitem df (fst cd) with
    | Ok series =>
        match astype_ignore astype (snd cd) series with
        | Ok series' => set_series df (fst cd) series'
        | Raise _ => df
        end
    | Raise _ => df
    end
  else df.

(** The frame [enforce_schema] returns, whatever it logs. *)
Definition enforce_pure (astype : dtype -> list value -> result (list value))
           (df : DataFrame) (schema : list (string * dtype)) : DataFrame :=
  let labels := map fst schema in
  fold_left (cast_pure astype) schema
            (mkDF labels (map (project labels) (rows (add_missing df labels)))).

(** Two worlds with the same store and the same published metrics. *)
Definition same_stores (w w' : World) : Prop :=
  s3_objects w' = s3_objects w /\ cloudwatch_puts w' = cloudwatch_puts w.

(** A series a cast to [d] leaves as it is. *)
Definition settled (astype : dtype -> list value -> result (list value))
           (d : dtype) (series : list value) : Prop :=
  forall series', astype d series = Ok series' -> series' = series.

(** A series of nulls. *)
Definition all_null (series : list value) : Prop :=
  Forall (fun v => isna v = true) series.

(** The world once the logger has been called with [l]. *)
Definition logged (l : log_entry) (w : World) : World :=
  mkWorld (now_calls w) (l :: log w) (s3_objects w) (cloudwatch_puts w).

(** Where the Silver object of a partition goes. *)
Definition silver_path (category date : string) : string :=
  "silver/shows/" ++ category ++ "/dt=" ++ date ++ "/data.parquet".

(** The names of the canonical schema. *)
Definition SILVER_COLUMNS : list string := map fst SILVER_SCHEMA.

(** ** The Lambda entry point

    [lambda_handler] runs [process_bronze_file] on every record of an S3
    event. It logs through the same logger as the pipeline; its own lines
    are kept apart, each with the number of lines the pipeline had logged
    before it, so that the order of the whole log can be read off. *)

(** [x[k]] for a string [k]: only a dict can be indexed by a string. *)
Definition py_subscript (x : value) (k : string) : result value :=
  match x with
  | VDict d =>
      match dict_lookup d k with
      | Some v => Ok v
      | None => Raise KeyError
      end
  | _ => Raise TypeError
  end.

(** An exception as [lambda_handler] sees it. *)
Inductive handler_exn : Type :=
| Raised (e : exn).

Inductive handler_result (A : Type) : Type :=
| Returned (a : A)
| Failed (e : handler_exn).
Arguments Returned {A} a.
Arguments Failed {A} e.

(** The log calls of [lambda_handler] itself, by message. *)
Inductive handler_log_entry : Type :=
| InfoStarting
| InfoProcessing (bucket : value) (key : string)
| InfoProcessed (records_processed : Z) (quality_pass_rate : spec_float)
| ErrorEtl (e : handler_exn).

Record Invocation : Type := mkInvocation {
  world : World;
  handler_log : list (nat * handler_log_entry)  (* position, entry; latest first *)
}.

(** The text [json.dumps] returns, represented by the document it
    encodes; every [value] can be encoded. *)
Inductive json_text : Type :=
| Dumps (v : value).

(** The dict [lambda_handler] returns. *)
Record response : Type := mkResponse { statusCode : Z; body : json_text }.

(** The dict [process_bronze_file] returns, as [json.dumps] sees it. *)
Definition summary_dict (s : summary) : value :=
  VDict ([ ("records_processed", VInt (records_processed s));
           ("quality_pass_rate", VFloat (quality_pass_rate s)) ]
         ++ match silver_key s with
            | Some k => [("silver_key", VStr k)]
            | None => []
            end)%list.

Definition Entry (A : Type) : Type := Invocation -> handler_result A * Invocation.

Definition entry_ret {A : Type} (a : A) : Entry A := fun i => (Returned a, i).

Definition entry_bind {A B : Type} (m : Entry A) (k : A -> Entry B) : Entry B :=
  fun i =>
    match m i with
    | (Returned a, i') => k a i'
    | (Failed e, i') => (Failed e, i')
    end.

Definition entry_lift {A : Type} (r : result A) : Entry A :=
  fun i => (match r with Ok a => Returned a | Raise e => Failed (Raised e) end, i).

Definition entry_raise {A : Type} (e : handler_exn) : Entry A := fun i => (Failed e, i).

(** A computation of the pipeline, run on the world of the invocation. *)
Definition in_pipeline {A : Type} (m : M A) : Entry A :=
  fun i =>
    match m (world i) with
    | (Ok a, w') => (Returned a, mkInvocation w' (handler_log i))
    | (Raise e, w') => (Failed (Raised e), mkInvocation w' (handler_log i))
    end.

Definition handler_logger (l : handler_log_entry) : Entry unit :=
  fun i => (Returned tt,
            mkInvocation (world i) ((List.length (log (world i)), l) :: handler_log i)).

(** [try: m except Exception as e: logger.error(...); raise]. *)
Definition try_log_raise {A : Type} (m : Entry A) : Entry A :=
  fun i =>
    match m i with
    | (Returned a, i') => (Returned a, i')
    | (Failed e, i') =>
        (Failed e,
         mkInvocation (world i')
                      ((List.length (log (world i')), ErrorEtl e) :: handler_log i'))
    end.

Declare Scope entry_scope.
Delimit Scope entry_scope with entry.
Notation "x <- m ;; k" := (entry_bind m (fun x => k))
  (at level 61, m at next level, right associativity) : entry_scope.
Notation "m ;;; k" := (entry_bind m (fun _ => k))
  (at level 61, right associativity) : entry_scope.

Section EntryPoint.

Variable clock : nat -> instant.
Variable ENVIRONMENT : string.
Variable float_of_str : string -> option spec_float.
Variable astype : dtype -> list value -> result (list value).

(** [urllib.parse.unquote_plus] on a string. *)
Variable unquote_plus : string -> string.

(** [unquote_plus(x)]: it starts with [x.replace('+', ' ')], a method of
    strings only. *)
Definition py_unquote_plus (x : value) : result string :=
  match x with
  | VStr s => Ok (unquote_plus s)
  | _ => Raise AttributeError
  end.

(** [process_bronze_file(bucket, key)] on whatever the event holds as
    bucket: the first thing it does is [s3.get_object(Bucket=bucket, ...)],
    and botocore checks the bucket name against a regular expression
    before any request is made, a [TypeError] on anything but a string. *)
Definition call_process_bronze_file (bucket : value) (key : string) : Entry summary :=
  match bucket with
  | VStr b => in_pipeline (process_bronze_file clock ENVIRONMENT float_of_str astype b key)
  | _ => entry_raise (Raised TypeError)
  end.

(** One turn of the loop of [lambda_handler]. *)
Definition process_record (record : value) (processed_results : list summary)
  : Entry (list summary) :=
  (s3_part <- entry_lift (py_subscript record "s3") ;;
   bucket_part <- entry_lift (py_subscript s3_part "bucket") ;;
   bucket <- entry_lift (py_subscript bucket_part "name") ;;
   s3_part <- entry_lift (py_subscript record "s3") ;;
   object_part <- entry_lift (py_subscript s3_part "object") ;;
   raw_key <- entry_lift (py_subscript object_part "key") ;;
   key <- entry_lift (py_unquote_plus raw_key) ;;
   handler_logger (InfoProcessing bucket key) ;;;
   result <- call_process_bronze_file bucket key ;;
   let processed_results := (processed_results ++ [result])%list in
   handler_logger (InfoProcessed (records_processed result) (quality_pass_rate result)) ;;;
   entry_ret processed_results)%entry.

Fixpoint records_loop (records : list value) (processed_results : list summary)
  : Entry (list summary) :=
  match records with
  | [] => entry_ret processed_results
  | record :: rest =>
      (processed_results <- process_record record processed_results ;;
       records_loop rest processed_results)%entry
  end.

(** [lambda_handler(event, context)] *)
Definition lambda_handler (event context : value) : Entry response :=
  (handler_logger InfoStarting ;;;
   try_log_raise
     (records <- entry_lift (py_subscript event "Records") ;;
      records <- entry_lift (py_iter records) ;;
      processed_results <- records_loop records [] ;;
      entry_ret
        (mkResponse 200
           (Dumps (VDict [ ("message", VStr "ETL completed successfully");
                           ("files_processed",
                            VInt (Z.of_nat (List.length processed_results)));
                           ("results", VList (map summary_dict processed_results)) ])))))%entry.

End EntryPoint.

(** A decoder for keys whose escapes are ASCII characters: [+] is a space,
    [%XX] the character of code [XX] below 128. *)
Module SampleEntry.
Definition hex_value (c : ascii) : option N :=
  let n := N_of_ascii c in
  if (N.leb 48 n && N.leb n 57)%bool then Some (n - 48)%N
  else if (N.leb 65 n && N.leb n 70)%bool then Some (n - 55)%N
  else if (N.leb 97 n && N.leb n 102)%bool then Some (n - 87)%N
  else None.

Fixpoint unquote_list (s : list ascii) : list ascii :=
  match s with
  | [] => []
  | c :: s' =>
      if Ascii.eqb c "+"%char then " "%char :: unquote_list s'
      else if Ascii.eqb c "%"%char then
        match s' with
        | h :: l :: s'' =>
            match hex_value h, hex_value l with
            | Some a, Some b =>
                if N.ltb (16 * a + b) 128
                then ascii_of_N (16 * a + b) :: unquote_list s''
                else c :: unquote_list s'
            | _, _ => c :: unquote_list s'
            end
        | _ => c :: unquote_list s'
        end
      else c :: unquote_list s'
  end.

Definition unquote_plus (s : string) : string :=
  string_of_list_ascii (unquote_list (list_ascii_of_string s)).

Definition lambda_handler :=
  lambda_handler Sample.clock Sample.ENVIRONMENT Sample.float_of_str Sample.astype
                 unquote_plus.

Definition start (w : World) : Invocation := mkInvocation w [].
End SampleEntry.

(** An S3 event, as the notification of object creation delivers it: one
    record per object, with the bucket name and the URL-encoded key. *)
Definition s3_record (object : string * string) : value :=
  VDict [ ("s3", VDict [ ("bucket", VDict [("name", VStr (fst object))]);
                         ("object", VDict [("key", VStr (snd object))]) ]) ].

Definition s3_event (objects : list (string * string)) : value :=
  VDict [("Records", VList (map s3_record objects))].

(** ** The Bronze writer of the daily sync

    [store_to_bronze] of [infrastructure/lambda/tmdb_daily_sync/handler.py]
    writes the documents [process_bronze_file] reads. The data type, the
    date partition and the execution id are strings. *)

(** [s3.put_object(Bucket=..., Key=..., Body=json.dumps(doc, indent=2),
    ContentType=..., Metadata=...)]: the store keeps the body, as the
    document [json.loads] reads back from it. *)
Definition put_object (bucket key : string) (doc : value) (content_type : string)
           (metadata : list (string * string)) : M unit :=
  upload_file bucket key (Json doc).

Section DailySync.

Variable clock : nat -> instant.

(** [os.environ['S3_BUCKET']] and [os.environ.get('ENVIRONMENT', 'dev')]. *)
Variable S3_BUCKET : string.
Variable ENVIRONMENT : string.

(** [store_to_bronze(data, data_type, date_partition, execution_id)]; the
    dict display unpacks [**data] before it builds the metadata. *)
Definition store_to_bronze (data : value) (data_type date_partition execution_id : string)
  : M string :=
  (* Add ingestion metadata *)
  items <- lift (match data with
                 | VDict d => Ok d
                 | _ => Raise TypeError
                 end) ;;
  now <- datetime_now clock ;;
  let enriched_data :=
    VDict (set_cell items "_metadata"
             (VDict [ ("ingestion_timestamp", VStr (isoformat now));
                      ("execution_id", VStr execution_id);
                      ("data_type", VStr data_type);
                      ("environment", VStr ENVIRONMENT);
                      ("api_version", VStr "3");
                      ("source", VStr "tmdb") ])) in
  (* Bronze layer path: bronze/tmdb/shows/{data_type}/dt={date}/{execution_id}.json *)
  let s3_key := "bronze/tmdb/shows/" ++ data_type ++ "/dt=" ++ date_partition ++ "/"
                ++ execution_id ++ ".json" in
  put_object S3_BUCKET s3_key enriched_data "application/json"
             [ ("data-type", data_type);
               ("ingestion-date", date_partition);
               ("execution-id", execution_id) ] ;;;
  ret s3_key.

End DailySync.

(** ** Vocabulary of the further properties *)

(** The invocation after a log call of the handler. *)
Definition noted (l : handler_log_entry) (i : Invocation) : Invocation :=
  mkInvocation (world i) ((List.length (log (world i)), l) :: handler_log i).


(** The keys of the dict [normalize_show] builds, in the order of its
    literal. *)
Definition NORMALIZED_KEYS : list string :=
  [ "show_id"; "title"; "original_title"; "vote_average"; "vote_count";
    "first_air_date"; "genre_ids"; "origin_country"; "poster_path";
    "backdrop_path"; "overview"; "original_language"; "popularity";
    "ingestion_date"; "data_type" ].

(** [raw_show.get('id')] as the failure handler of the loop reads it. *)
Definition raw_id (show : value) : value :=
  match py_get show "id" with
  | Ok i => i
  | Raise _ => VNone
  end.

(** [float(raw_show.get('vote_average', 0.0))], the one step of
    [normalize_show] that can raise on a map. *)
Definition vote_average_of (float_of_str : string -> option spec_float) (show : value)
  : result spec_float :=
  match show with
  | VDict d => py_float float_of_str (dict_get_default d "vote_average" (VFloat F64.zero))
  | _ => Raise AttributeError
  end.

Definition normalizes (float_of_str : string -> option spec_float) (show : value) : bool :=
  match vote_average_of float_of_str show with
  | Ok _ => true
  | Raise _ => false
  end.

(** The warning the loop logs for a record that fails with [e]. *)
Definition failure_logged (float_of_str : string -> option spec_float)
           (l : log_entry) (show : value) : Prop :=
  exists e, vote_average_of float_of_str show = Raise e
            /\ l = WarnNormalizeFailed (raw_id show) e.

(** A row the gate lets through. *)
Definition clean (r : row) : Prop :=
  has_show_id r = true /\ has_title r = true /\ popularity_valid r = true.

(** No row repeats the [show_id] of a row before it. *)
Definition unique_show_ids (rs : list row) : Prop :=
  ForallOrdPairs (fun a b => key_eqb (show_id_of b) (show_id_of a) = false) rs.

(** The column [enforce_schema] casts: the input's, or one of nulls when
    the input has no such column. *)
Definition column_before (df : DataFrame) (c : string) : list value :=
  if mem_str c (columns df) then column_of c (rows df)
  else repeat VNone (List.length (rows df)).

(** * Properties *)

Open Scope list_scope.

(** ** Regular expressions *)

Lemma list_ascii_app (a b : string) :
  list_ascii_of_string (a ++ b)%string = list_ascii_of_string a ++ list_ascii_of_string b.
Proof.
  induction a as [|c a IH]; simpl; [reflexivity | now rewrite IH].
Qed.

(** Literals at the head of a pattern consume exactly that prefix. *)
Lemma match_here_lits (p : list ascii) (r : Re.regex) (s : list ascii) :
  Re.match_here (map Re.Lit p ++ r) s Re.Before =
  match strip_prefix p s with
  | Some s' => Re.match_here r s' Re.Before
  | None => None
  end.
Proof.
  revert s; induction p as [|c p IH]; intros s; simpl.
  - reflexivity.
  - destruct s as [|x s]; [reflexivity|].
    destruct (Ascii.eqb x c); [apply IH | reflexivity].
Qed.

Lemma strip_prefix_app (p s : list ascii) : strip_prefix p (p ++ s) = Some s.
Proof.
  induction p as [|c p IH]; simpl; [reflexivity|].
  now rewrite Ascii.eqb_refl.
Qed.

Lemma strip_prefix_None_app (p l t : list ascii) :
  strip_prefix p l = None -> (List.length p <= List.length l)%nat ->
  strip_prefix p (l ++ t) = None.
Proof.
  revert l; induction p as [|c p IH]; intros l H Hlen; [discriminate|].
  destruct l as [|x l]; simpl in *; [lia|].
  destruct (Ascii.eqb x c); [apply IH; [exact H | lia] | reflexivity].
Qed.

(** Where the literal prefix of a pattern does not occur, nothing matches. *)
Lemma search_list_no_prefix (p : list ascii) (r : Re.regex) (s : list ascii) :
  occurs_list p s = false -> Re.search_list (map Re.Lit p ++ r) s = None.
Proof.
  induction s as [|x s IH]; intros H.
  - cbn [Re.search_list]. rewrite match_here_lits.
    cbn [occurs_list] in H.
    destruct (strip_prefix p []); [discriminate | reflexivity].
  - cbn [Re.search_list]. rewrite match_here_lits.
    cbn [occurs_list] in H.
    destruct (strip_prefix p (x :: s)); [discriminate|].
    now apply IH.
Qed.

(** A search skips a prefix in which the literal head [q ++ [z]] of the
    pattern does not start. *)
Lemma search_list_skip (q : list ascii) (z : ascii) (r : Re.regex) (pre s : list ascii) :
  occurs_list (q ++ [z]) (pre ++ q) = false ->
  Re.search_list (map Re.Lit (q ++ [z]) ++ r) (pre ++ (q ++ [z]) ++ s) =
  Re.search_list (map Re.Lit (q ++ [z]) ++ r) ((q ++ [z]) ++ s).
Proof.
  induction pre as [|x pre IH]; intros H; [reflexivity|].
  cbn [app Re.search_list]. rewrite match_here_lits.
  cbn [app occurs_list] in H.
  destruct (strip_prefix (q ++ [z]) (x :: pre ++ q)) eqn:E1; [discriminate|].
  replace (x :: pre ++ (q ++ [z]) ++ s) with ((x :: pre ++ q) ++ (z :: s)).
  - rewrite (strip_prefix_None_app _ _ _ E1).
    + apply IH, H.
    + cbn [List.length]. rewrite !length_app. cbn [List.length]. lia.
  - cbn [app]. now rewrite <- !app_assoc.
Qed.

Lemma match_here_plus_cons (p : ascii -> bool) (r : Re.regex) (x : ascii)
      (s : list ascii) (cap : Re.capture) :
  Re.match_here (Re.ClsPlus p :: r) (x :: s) cap =
  if p x then
    match Re.match_here (Re.ClsPlus p :: r) s (Re.push cap x) with
    | Some g => Some g
    | None => Re.match_here r s (Re.push cap x)
    end
  else None.
Proof. reflexivity. Qed.

Lemma match_here_plus_nil (p : ascii -> bool) (r : Re.regex) (cap : Re.capture) :
  Re.match_here (Re.ClsPlus p :: r) [] cap = None.
Proof. reflexivity. Qed.

Lemma class_excludes (p : ascii -> bool) (x c : ascii) :
  p x = true -> p c = false -> Ascii.eqb x c = false.
Proof.
  intros Hx Hc. destruct (Ascii.eqb x c) eqn:E; [|reflexivity].
  apply Ascii.eqb_eq in E. congruence.
Qed.

(** The greedy class repetition, then the end of the group and a literal
    the class excludes: the group is the whole run of the class. *)
Lemma match_plus_run (p : ascii -> bool) (c : ascii) (r : Re.regex)
      (run s acc : list ascii) :
  run <> [] -> forallb p run = true -> p c = false ->
  Re.match_here (Re.ClsPlus p :: Re.Close :: Re.Lit c :: r) (run ++ c :: s) (Re.Inside acc) =
  Re.match_here r s (Re.Done (rev acc ++ run)).
Proof.
  intros Hne Hall Hc. revert acc.
  induction run as [|x run IH]; intros acc; [congruence|].
  cbn [forallb] in Hall. apply andb_prop in Hall as [Hx Hrun].
  cbn [app]. rewrite match_here_plus_cons, Hx. cbn [Re.push].
  destruct run as [|y run].
  - cbn [app]. rewrite match_here_plus_cons, Hc.
    cbn [Re.match_here Re.close Re.push rev]. now rewrite Ascii.eqb_refl.
  - rewrite IH by (congruence || assumption).
    cbn [rev]. rewrite <- app_assoc. cbn [app].
    destruct (Re.match_here r s (Re.Done (rev acc ++ x :: y :: run))); [reflexivity|].
    cbn [app Re.match_here Re.close].
    cbn [forallb] in Hrun. apply andb_prop in Hrun as [Hy _].
    now rewrite (class_excludes p y c Hy Hc).
Qed.

(** The greedy class repetition fails when the run of the class ends at a
    character that is neither in the class nor the literal that follows. *)
Lemma match_plus_stuck (p : ascii -> bool) (c : ascii) (r : Re.regex)
      (run : list ascii) (x : ascii) (s : list ascii) (cap : Re.capture) :
  forallb p run = true -> p c = false -> p x = false -> Ascii.eqb x c = false ->
  Re.match_here (Re.ClsPlus p :: Re.Close :: Re.Lit c :: r) (run ++ x :: s) cap = None.
Proof.
  intros Hall Hc Hx Hxc. revert cap.
  induction run as [|y run IH]; intros cap.
  - cbn [app]. now rewrite match_here_plus_cons, Hx.
  - cbn [forallb] in Hall. apply andb_prop in Hall as [Hy Hrun].
    cbn [app]. rewrite match_here_plus_cons, Hy, (IH Hrun).
    destruct run as [|y' run]; cbn [app Re.match_here].
    + now rewrite Hxc.
    + cbn [forallb] in Hrun. apply andb_prop in Hrun as [Hy' _].
      now rewrite (class_excludes p y' c Hy' Hc).
Qed.

(** The same when the text ends inside the run. *)
Lemma match_plus_end (p : ascii -> bool) (c : ascii) (r : Re.regex)
      (run : list ascii) (cap : Re.capture) :
  forallb p run = true -> p c = false ->
  Re.match_here (Re.ClsPlus p :: Re.Close :: Re.Lit c :: r) run cap = None.
Proof.
  intros Hall Hc. revert cap.
  induction run as [|y run IH]; intros cap; [reflexivity|].
  cbn [forallb] in Hall. apply andb_prop in Hall as [Hy Hrun].
  rewrite match_here_plus_cons, Hy, (IH Hrun).
  destruct run as [|y' run]; cbn [Re.match_here]; [reflexivity|].
  cbn [forallb] in Hrun. apply andb_prop in Hrun as [Hy' _].
  now rewrite (class_excludes p y' c Hy' Hc).
Qed.

Lemma search_list_unfold (r : Re.regex) (s : list ascii) :
  Re.search_list r s =
  match Re.match_here r s Re.Before with
  | Some g => Some g
  | None =>
      match s with
      | [] => None
      | _ :: s' => Re.search_list r s'
      end
  end.
Proof. destruct s; reflexivity. Qed.

Lemma match_here_open (r : Re.regex) (s : list ascii) (cap : Re.capture) :
  Re.match_here (Re.Open :: r) s cap = Re.match_here r s (Re.Inside []).
Proof. reflexivity. Qed.

(** ** Partition resolver *)

Lemma data_type_pattern_shape :
  data_type_pattern =
  map Re.Lit (list_ascii_of_string "shows" ++ ["/"%char])
    ++ [Re.Open; Re.ClsPlus Re.word; Re.Close; Re.Lit "/"%char].
Proof. reflexivity. Qed.

Lemma date_pattern_shape :
  date_pattern =
  map Re.Lit (list_ascii_of_string "dt" ++ ["="%char])
    ++ [Re.Open; Re.Cls Re.digit; Re.Cls Re.digit; Re.Cls Re.digit; Re.Cls Re.digit;
        Re.Lit "-"%char; Re.Cls Re.digit; Re.Cls Re.digit;
        Re.Lit "-"%char; Re.Cls Re.digit; Re.Cls Re.digit; Re.Close].
Proof. reflexivity. Qed.

Lemma slash_not_word : Re.word "/"%char = false.
Proof. reflexivity. Qed.

(** The first marker followed by a run of word characters and a slash:
    the search captures the run. *)
Lemma search_data_type_word (pre seg post : string) :
  occurs "shows/" (pre ++ "shows")%string = false ->
  word_segment seg = true ->
  Re.search data_type_pattern (pre ++ "shows/" ++ seg ++ "/" ++ post)%string = Some seg.
Proof.
  intros Hpre Hseg. unfold Re.search, occurs in *.
  rewrite !list_ascii_app in *. rewrite data_type_pattern_shape.
  change (list_ascii_of_string "shows/") with (list_ascii_of_string "shows" ++ ["/"%char]) in *.
  rewrite search_list_skip by exact Hpre.
  rewrite search_list_unfold, match_here_lits, strip_prefix_app.
  change (list_ascii_of_string "/") with ["/"%char]. cbn [app].
  rewrite match_here_open.
  unfold word_segment in Hseg.
  rewrite match_plus_run.
  - cbn. now rewrite string_of_list_ascii_of_string.
  - intros E. now rewrite E in Hseg.
  - destruct (list_ascii_of_string seg); [discriminate | exact Hseg].
  - exact slash_not_word.
Qed.

(** No marker, no category. *)
Lemma search_data_type_absent (key : string) :
  occurs "shows/" key = false -> Re.search data_type_pattern key = None.
Proof.
  intros H. unfold Re.search, occurs in *.
  rewrite data_type_pattern_shape.
  change (list_ascii_of_string "shows" ++ ["/"%char]) with (list_ascii_of_string "shows/").
  now rewrite search_list_no_prefix.
Qed.

(** The first [dt=] followed by a date token: the search captures it. *)
Lemma search_date_token (pre date post : string) :
  occurs "dt=" (pre ++ "dt")%string = false ->
  is_date date = true ->
  Re.search date_pattern (pre ++ "dt=" ++ date ++ post)%string = Some date.
Proof.
  intros Hpre Hdate. unfold Re.search, occurs in *.
  rewrite !list_ascii_app in *. rewrite date_pattern_shape.
  change (list_ascii_of_string "dt=") with (list_ascii_of_string "dt" ++ ["="%char]) in *.
  rewrite search_list_skip by exact Hpre.
  rewrite search_list_unfold, match_here_lits, strip_prefix_app.
  unfold is_date in Hdate.
  rewrite <- (string_of_list_ascii_of_string date) at 2.
  destruct (list_ascii_of_string date) as [|y1 [|y2 [|y3 [|y4 [|h1 [|m1 [|m2 [|h2 [|d1 [|d2 [|x l]]]]]]]]]]];
    try discriminate.
  do 9 (apply andb_prop in Hdate; destruct Hdate as [Hdate ?]).
  cbn [app Re.match_here Re.push Re.close].
  repeat match goal with H : _ = true |- _ => rewrite H; clear H end.
  reflexivity.
Qed.

Lemma search_date_absent (key : string) :
  occurs "dt=" key = false -> Re.search date_pattern key = None.
Proof.
  intros H. unfold Re.search, occurs in *.
  rewrite date_pattern_shape.
  change (list_ascii_of_string "dt" ++ ["="%char]) with (list_ascii_of_string "dt=").
  now rewrite search_list_no_prefix.
Qed.

Lemma split_at_nonmember (p : ascii -> bool) (l : list ascii) :
  forallb p l = false ->
  exists run c t, l = run ++ c :: t /\ forallb p run = true /\ p c = false.
Proof.
  induction l as [|x l IH]; intros H; [discriminate|].
  cbn [forallb] in H. destruct (p x) eqn:Hx.
  - destruct (IH H) as (run & c & t & -> & Hrun & Hc).
    exists (x :: run), c, t. cbn [app forallb]. now rewrite Hx, Hrun.
  - exists [], x, l. now repeat split.
Qed.

(** A marker followed by a slash-free run that holds a character outside
    [\w], and no marker after it: nothing matches from the marker on. *)
Lemma search_data_type_nonword (seg rest : list ascii) :
  existsb (Ascii.eqb "/"%char) seg = false ->
  forallb Re.word seg = false ->
  occurs_list (list_ascii_of_string "shows/") (seg ++ rest) = false ->
  Re.search_list data_type_pattern (list_ascii_of_string "shows/" ++ seg ++ rest) = None.
Proof.
  intros Hslash Hword Hlater.
  destruct (split_at_nonmember _ _ Hword) as (run & c & t & -> & Hrun & Hc).
  assert (Hcs : Ascii.eqb c "/"%char = false).
  { rewrite existsb_app in Hslash. apply orb_false_elim in Hslash as [_ Hslash].
    cbn [existsb] in Hslash. apply orb_false_elim in Hslash as [Hslash _].
    now rewrite Ascii.eqb_sym. }
  rewrite search_list_unfold.
  rewrite data_type_pattern_shape at 1.
  change (list_ascii_of_string "shows" ++ ["/"%char]) with (list_ascii_of_string "shows/").
  rewrite match_here_lits, strip_prefix_app, match_here_open.
  rewrite <- app_assoc. cbn [app].
  rewrite match_plus_stuck by (assumption || exact slash_not_word).
  cbn [list_ascii_of_string app].
  rewrite data_type_pattern_shape.
  change (list_ascii_of_string "shows" ++ ["/"%char]) with (list_ascii_of_string "shows/").
  apply search_list_no_prefix.
  rewrite <- app_assoc in Hlater. cbn [app] in Hlater.
  cbn. exact Hlater.
Qed.

(** *** What a match reads, and where a search matched *)

Lemma strip_prefix_Some (p s s' : list ascii) :
  strip_prefix p s = Some s' -> s = p ++ s'.
Proof.
  revert s; induction p as [|c p IH]; intros s H.
  - cbn in H. destruct s; now injection H as <-.
  - destruct s as [|x s]; [discriminate|]. cbn [strip_prefix] in H.
    destruct (Ascii.eqb x c) eqn:E; [|discriminate].
    apply Ascii.eqb_eq in E. subst. cbn [app]. f_equal. now apply IH.
Qed.

(** A search that succeeds matched at some position of the text. *)
Lemma search_list_Some (r : Re.regex) (s g : list ascii) :
  Re.search_list r s = Some g ->
  exists pre t, s = pre ++ t /\ Re.match_here r t Re.Before = Some g.
Proof.
  induction s as [|x s IH]; rewrite search_list_unfold.
  - destruct (Re.match_here r [] Re.Before) eqn:E; [|discriminate].
    intros [= <-]. now exists [], [].
  - destruct (Re.match_here r (x :: s) Re.Before) eqn:E.
    + intros [= <-]. now exists [], (x :: s).
    + intros H. destruct (IH H) as (pre & t & -> & Ht). now exists (x :: pre), t.
Qed.

(** A search that fails matched at no position of the text. *)
Lemma search_list_None (r : Re.regex) (pre t : list ascii) :
  Re.search_list r (pre ++ t) = None -> Re.match_here r t Re.Before = None.
Proof.
  induction pre as [|x pre IH]; rewrite search_list_unfold.
  - cbn [app]. destruct (Re.match_here r t Re.Before); [discriminate | reflexivity].
  - cbn [app]. destruct (Re.match_here r (x :: pre ++ t) Re.Before); [discriminate|].
    exact IH.
Qed.

Lemma string_of_list_ascii_app (a b : list ascii) :
  string_of_list_ascii (a ++ b) = (string_of_list_ascii a ++ string_of_list_ascii b)%string.
Proof. induction a as [|c a IH]; cbn; [reflexivity | now rewrite IH]. Qed.

(** The date pattern at the head of a text reads [dt=] and a date token. *)
Lemma match_here_date (t g : list ascii) :
  Re.match_here date_pattern t Re.Before = Some g ->
  exists rest, t = list_ascii_of_string "dt=" ++ g ++ rest
               /\ is_date (string_of_list_ascii g) = true.
Proof.
  rewrite date_pattern_shape.
  change (list_ascii_of_string "dt" ++ ["="%char]) with (list_ascii_of_string "dt=").
  rewrite match_here_lits.
  destruct (strip_prefix (list_ascii_of_string "dt=") t) as [s|] eqn:E; [|discriminate].
  apply strip_prefix_Some in E. subst t. rewrite match_here_open.
  destruct s as [|y1 [|y2 [|y3 [|y4 [|h1 [|m1 [|m2 [|h2 [|d1 [|d2 rest]]]]]]]]]];
    cbn [Re.match_here Re.push Re.close Re.group1];
    repeat match goal with
           | |- (if ?b then _ else _) = Some _ -> _ =>
               let Hb := fresh "Hb" in destruct b eqn:Hb; [|discriminate]
           | |- None = Some _ -> _ => discriminate
           end.
  cbn [rev app]. intros [= <-]. exists rest. split; [reflexivity|].
  unfold is_date. rewrite list_ascii_of_string_of_list_ascii.
  repeat match goal with H : _ = true |- _ => rewrite H; clear H end.
  reflexivity.
Qed.

(** A date token after [dt=] is matched where it stands. *)
Lemma match_here_date_token (d : string) (post : list ascii) :
  is_date d = true ->
  Re.match_here date_pattern
    (list_ascii_of_string "dt=" ++ list_ascii_of_string d ++ post) Re.Before
  = Some (list_ascii_of_string d).
Proof.
  intros Hdate. rewrite date_pattern_shape.
  change (list_ascii_of_string "dt" ++ ["="%char]) with (list_ascii_of_string "dt=").
  rewrite match_here_lits, strip_prefix_app.
  unfold is_date in Hdate.
  destruct (list_ascii_of_string d)
    as [|y1 [|y2 [|y3 [|y4 [|h1 [|m1 [|m2 [|h2 [|d1 [|d2 [|x l]]]]]]]]]]]; try discriminate.
  do 9 (apply andb_prop in Hdate; destruct Hdate as [Hdate ?]).
  cbn [app Re.match_here Re.push Re.close].
  repeat match goal with H : _ = true |- _ => rewrite H; clear H end.
  reflexivity.
Qed.

(** The greedy class repetition closed by a literal: whatever it matched
    is a non-empty run of the class followed by the literal. *)
Lemma match_plus_inv (p : ascii -> bool) (c : ascii) (s acc g : list ascii) :
  Re.match_here [Re.ClsPlus p; Re.Close; Re.Lit c] s (Re.Inside acc) = Some g ->
  exists run rest, s = run ++ c :: rest /\ run <> [] /\ forallb p run = true
                   /\ g = rev acc ++ run.
Proof.
  revert acc; induction s as [|x s IH]; intros acc; [discriminate|].
  rewrite match_here_plus_cons. destruct (p x) eqn:Hx; [|discriminate].
  cbn [Re.push].
  destruct (Re.match_here [Re.ClsPlus p; Re.Close; Re.Lit c] s (Re.Inside (x :: acc)))
    as [g'|] eqn:E.
  - intros [= <-]. destruct (IH _ E) as (run & rest & -> & _ & Hrun & ->).
    exists (x :: run), rest. cbn [app forallb rev]. rewrite Hx, Hrun, <- app_assoc.
    split; [reflexivity|]. split; [discriminate|]. split; reflexivity.
  - cbn [Re.match_here Re.close]. destruct s as [|y s]; [discriminate|].
    destruct (Ascii.eqb y c) eqn:Hy; [|discriminate].
    apply Ascii.eqb_eq in Hy. subst y. cbn [Re.push Re.group1]. intros [= <-].
    exists [x], s. cbn [app forallb rev]. rewrite Hx.
    split; [reflexivity|]. split; [discriminate|]. split; reflexivity.
Qed.

(** The category pattern at the head of a text reads [shows/], a run of
    word characters and a slash. *)
Lemma match_here_data_type (t g : list ascii) :
  Re.match_here data_type_pattern t Re.Before = Some g ->
  exists rest, t = list_ascii_of_string "shows/" ++ g ++ "/"%char :: rest
               /\ word_segment (string_of_list_ascii g) = true.
Proof.
  rewrite data_type_pattern_shape.
  change (list_ascii_of_string "shows" ++ ["/"%char]) with (list_ascii_of_string "shows/").
  rewrite match_here_lits.
  destruct (strip_prefix (list_ascii_of_string "shows/") t) as [s|] eqn:E; [|discriminate].
  apply strip_prefix_Some in E. subst t. rewrite match_here_open.
  intros H. apply match_plus_inv in H as (run & rest & -> & Hne & Hrun & ->).
  exists rest. cbn [rev app]. split; [reflexivity|].
  unfold word_segment. rewrite list_ascii_of_string_of_list_ascii.
  destruct run; [congruence | exact Hrun].
Qed.

(** A run of word characters between [shows/] and a slash is matched where
    it stands. *)
Lemma match_here_data_type_word (seg : string) (post : list ascii) :
  word_segment seg = true ->
  Re.match_here data_type_pattern
    (list_ascii_of_string "shows/" ++ list_ascii_of_string seg ++ "/"%char :: post) Re.Before
  = Some (list_ascii_of_string seg).
Proof.
  intros Hseg. rewrite data_type_pattern_shape.
  change (list_ascii_of_string "shows" ++ ["/"%char]) with (list_ascii_of_string "shows/").
  rewrite match_here_lits, strip_prefix_app, match_here_open.
  unfold word_segment in Hseg.
  rewrite match_plus_run.
  - reflexivity.
  - intros E. now rewrite E in Hseg.
  - destruct (list_ascii_of_string seg); [discriminate | exact Hseg].
  - exact slash_not_word.
Qed.

(** A key cut at a position of its text. *)
Lemma key_of_parts (key : string) (pre mid post : list ascii) (m : string) :
  list_ascii_of_string key = pre ++ list_ascii_of_string m ++ mid ++ post ->
  key = (string_of_list_ascii pre ++ m ++ string_of_list_ascii mid
         ++ string_of_list_ascii post)%string.
Proof.
  intros H. rewrite <- (string_of_list_ascii_of_string key), H.
  now rewrite !string_of_list_ascii_app, string_of_list_ascii_of_string.
Qed.

(** C5. The partition resolver never raises and returns a pair of strings.
    The category is a non-empty run of word characters that stands in the
    key between a [shows/] marker and a slash, and it is ["unknown"] exactly
    when the key holds no such segment (no marker, a marker that no slash
    closes, a segment with another character); when the first marker is
    followed by such a segment, that segment is the category. The date is a
    token [YYYY-MM-DD] that stands in the key after a [dt=], and it is the
    current date exactly when the key holds no such token; when the first
    [dt=] is followed by such a token, that token is the date. The key
    [".../shows/trending/dt=2024-03-01/x.json"] gives ["trending"] and
    ["2024-03-01"]. *)
Theorem partition_resolver_never_fails :
  forall (clock : nat -> instant) (key : string) (w : World),
    (exists category date,
        outcome (extract_data_type key) w = Ok category /\
        outcome (extract_partition_date clock key) w = Ok date) /\
    (forall pre seg post,
        key = (pre ++ "shows/" ++ seg ++ "/" ++ post)%string ->
        occurs "shows/" (pre ++ "shows")%string = false ->
        word_segment seg = true ->
        outcome (extract_data_type key) w = Ok seg) /\
    (occurs "shows/" key = false ->
     outcome (extract_data_type key) w = Ok "unknown") /\
    (forall pre date post,
        key = (pre ++ "dt=" ++ date ++ post)%string ->
        occurs "dt=" (pre ++ "dt")%string = false ->
        is_date date = true ->
        outcome (extract_partition_date clock key) w = Ok date) /\
    (occurs "dt=" key = false ->
     outcome (extract_partition_date clock key) w = Ok (ymd (clock (now_calls w)))) /\
    outcome (extract_data_type ".../shows/trending/dt=2024-03-01/x.json") w
    = Ok "trending" /\
    outcome (extract_partition_date clock ".../shows/trending/dt=2024-03-01/x.json") w
    = Ok "2024-03-01" /\
    ((exists pre seg post,
         key = (pre ++ "shows/" ++ seg ++ "/" ++ post)%string
         /\ word_segment seg = true
         /\ outcome (extract_data_type key) w = Ok seg)
     \/
     ((forall pre seg post,
          word_segment seg = true -> key <> (pre ++ "shows/" ++ seg ++ "/" ++ post)%string)
      /\ outcome (extract_data_type key) w = Ok "unknown")) /\
    ((exists pre date post,
         key = (pre ++ "dt=" ++ date ++ post)%string
         /\ is_date date = true
         /\ outcome (extract_partition_date clock key) w = Ok date)
     \/
     ((forall pre date post,
          is_date date = true -> key <> (pre ++ "dt=" ++ date ++ post)%string)
      /\ outcome (extract_partition_date clock key) w = Ok (ymd (clock (now_calls w))))).
Proof.
  intros clock key w.
  split; [|split; [|split; [|split; [|split; [|split; [|split; [|split]]]]]]].
  - unfold extract_data_type, extract_partition_date.
    destruct (Re.search data_type_pattern key) as [c|];
      destruct (Re.search date_pattern key) as [d|]; eexists; eexists; split; reflexivity.
  - intros pre seg post -> Hpre Hseg. unfold extract_data_type.
    now rewrite search_data_type_word.
  - intros H. unfold extract_data_type. now rewrite search_data_type_absent.
  - intros pre date post -> Hpre Hdate. unfold extract_partition_date.
    now rewrite search_date_token.
  - intros H. unfold extract_partition_date. now rewrite search_date_absent.
  - reflexivity.
  - reflexivity.
  - unfold extract_data_type, Re.search.
    destruct (Re.search_list data_type_pattern (list_ascii_of_string key)) as [g|] eqn:E.
    + left. apply search_list_Some in E as (pre & t & Hkey & Ht).
      apply match_here_data_type in Ht as (rest & -> & Hseg).
      exists (string_of_list_ascii pre), (string_of_list_ascii g), (string_of_list_ascii rest).
      split; [|split; [exact Hseg | reflexivity]].
      rewrite <- (string_of_list_ascii_of_string key), Hkey.
      now rewrite !string_of_list_ascii_app.
    + right. split; [|reflexivity].
      intros pre seg post Hseg ->. rewrite !list_ascii_app in E.
      apply search_list_None in E.
      change (list_ascii_of_string "/") with ["/"%char] in E. cbn [app] in E.
      now rewrite match_here_data_type_word in E.
  - unfold extract_partition_date, Re.search.
    destruct (Re.search_list date_pattern (list_ascii_of_string key)) as [g|] eqn:E.
    + left. apply search_list_Some in E as (pre & t & Hkey & Ht).
      apply match_here_date in Ht as (rest & -> & Hdate).
      exists (string_of_list_ascii pre), (string_of_list_ascii g), (string_of_list_ascii rest).
      split; [|split; [exact Hdate | reflexivity]].
      now apply key_of_parts.
    + right. split; [|reflexivity].
      intros pre d post Hdate ->. rewrite !list_ascii_app in E.
      apply search_list_None in E. now rewrite match_here_date_token in E.
Qed.

(** Keys resolved through the theorem: one of the documented shape; one
    whose marker no slash closes, one whose segment holds a hyphen and one
    whose date is not zero-padded, which fall back to ["unknown"] and to
    the reading of the clock. *)
Lemma partition_resolver_trending :
  (outcome (extract_data_type "bronze/shows/trending/dt=2024-03-01/x.json")
           Sample.empty_world = Ok "trending" /\
   outcome (extract_partition_date Sample.clock "bronze/shows/trending/dt=2024-03-01/x.json")
           Sample.empty_world = Ok "2024-03-01") /\
  outcome (extract_data_type "bronze/shows/trending") Sample.empty_world = Ok "unknown" /\
  outcome (extract_data_type "shows/airing-today/") Sample.empty_world = Ok "unknown" /\
  outcome (extract_partition_date Sample.clock "dt=2024-3-1") Sample.empty_world
  = Ok (ymd (Sample.clock 0)).
Proof.
  split; [|split; [|split]].
  - destruct (partition_resolver_never_fails Sample.clock
                "bronze/shows/trending/dt=2024-03-01/x.json" Sample.empty_world)
      as (_ & Hcat & _ & Hdate & _).
    split.
    + apply (Hcat "bronze/" "trending" "dt=2024-03-01/x.json"); reflexivity.
    + apply (Hdate "bronze/shows/trending/" "2024-03-01" "/x.json"); reflexivity.
  - destruct (partition_resolver_never_fails Sample.clock "bronze/shows/trending"
                Sample.empty_world) as (_ & _ & _ & _ & _ & _ & _ & [H|[_ H]] & _).
    + destruct H as (pre & seg & post & _ & _ & H). rewrite H. vm_compute in H.
      now injection H as <-.
    + exact H.
  - destruct (partition_resolver_never_fails Sample.clock "shows/airing-today/"
                Sample.empty_world) as (_ & _ & _ & _ & _ & _ & _ & [H|[_ H]] & _).
    + destruct H as (pre & seg & post & _ & _ & H). rewrite H. vm_compute in H.
      now injection H as <-.
    + exact H.
  - destruct (partition_resolver_never_fails Sample.clock "dt=2024-3-1"
                Sample.empty_world) as (_ & _ & _ & _ & _ & _ & _ & _ & [H|[_ H]]).
    + destruct H as (pre & d & post & _ & _ & H). rewrite H. vm_compute in H.
      now injection H as <-.
    + exact H.
Defined.

(** C10, as stated, fails: the segment after the first marker holds a
    hyphen, yet a later marker is followed by a word segment and the
    resolver returns that one. *)
Lemma data_type_later_marker_wins :
  occurs "shows/" ("bronze/" ++ "shows")%string = false /\
  forallb ascii_word (list_ascii_of_string "airing-today") = false /\
  outcome (extract_data_type
             ("bronze/" ++ "shows/" ++ "airing-today" ++ "/shows/trending/x.json")%string)
          Sample.empty_world = Ok "trending".
Proof. repeat split. Qed.

(** A segment of word characters outside [[A-Za-z0-9_]] is a category:
    [\w] in a [str] pattern is Unicode-aware. The segment is [caf] followed
    by the code point 233. *)
Lemma data_type_accepts_latin1_letter :
  let seg := ("caf" ++ String (ascii_of_nat 233) "")%string in
  forallb ascii_word (list_ascii_of_string seg) = false /\
  outcome (extract_data_type ("bronze/shows/" ++ seg ++ "/x.json")%string)
          Sample.empty_world = Ok seg.
Proof. split; reflexivity. Qed.

(** C10, amended. When the first [shows/] marker is followed by a slash-free
    run that holds a character outside [\w], and no marker occurs after it,
    the resolver returns ["unknown"]. *)
Theorem data_type_unknown_for_nonword_segment :
  forall (pre seg rest : string) (w : World),
    occurs "shows/" (pre ++ "shows")%string = false ->
    occurs "shows/" (seg ++ rest)%string = false ->
    nonword_segment seg = true ->
    outcome (extract_data_type (pre ++ "shows/" ++ seg ++ rest)%string) w = Ok "unknown".
Proof.
  intros pre seg rest w Hpre Hlater Hseg.
  unfold extract_data_type, Re.search, occurs, nonword_segment in *.
  rewrite !list_ascii_app in *.
  apply andb_prop in Hseg as [Hslash Hword].
  apply negb_true_iff in Hslash, Hword.
  rewrite data_type_pattern_shape at 1.
  change (list_ascii_of_string "shows/") with (list_ascii_of_string "shows" ++ ["/"%char]) in *.
  rewrite search_list_skip by exact Hpre.
  rewrite <- data_type_pattern_shape.
  change (list_ascii_of_string "shows" ++ ["/"%char]) with (list_ascii_of_string "shows/") in *.
  now rewrite search_data_type_nonword.
Qed.

(** The hyphenated category of the claim. *)
Lemma data_type_unknown_airing_today :
  outcome (extract_data_type "bronze/shows/airing-today/dt=2024-03-01/x.json")
          Sample.empty_world = Ok "unknown".
Proof.
  apply (data_type_unknown_for_nonword_segment
           "bronze/" "airing-today" "/dt=2024-03-01/x.json"); reflexivity.
Defined.


(** ** The batch orchestrator *)

Section Orchestrator.

Variable clock : nat -> instant.
Variable ENVIRONMENT : string.
Variable float_of_str : string -> option spec_float.
Variable astype : dtype -> list value -> result (list value).

Let normalize := normalize_show clock float_of_str.
Let loop := normalize_loop clock float_of_str.
Let process := process_bronze_file clock ENVIRONMENT float_of_str astype.

(** Normalizing a map either yields a record or raises, and touches
    neither the store nor the metrics. *)
Lemma normalize_show_dict (d : dict) (w : World) :
  (exists r w', normalize (VDict d) w = (Ok r, w')
                /\ s3_objects w' = s3_objects w
                /\ cloudwatch_puts w' = cloudwatch_puts w
                /\ log w' = log w) \/
  (exists e, normalize (VDict d) w = (Raise e, w)).
Proof.
  unfold normalize, normalize_show, bind, lift.
  destruct (py_float float_of_str _) as [f|e].
  - left. eexists; eexists. repeat split.
  - right. now exists e.
Qed.

Lemma normalize_show_non_map (x : value) (w : World) :
  is_dict x = false -> normalize x w = (Raise AttributeError, w).
Proof. destruct x; (discriminate || reflexivity). Qed.

(** The loop stops at the first record that is not a map: the handler of
    the failure itself calls [show.get('id')]. *)
Lemma normalize_loop_stops_at_non_map (pre : list value) (x : value) (post : list value) :
  Forall (fun v => is_dict v = true) pre -> is_dict x = false ->
  forall (acc : list dict) (w : World),
  exists w', loop (pre ++ x :: post) acc w = (Raise AttributeError, w')
             /\ s3_objects w' = s3_objects w
             /\ cloudwatch_puts w' = cloudwatch_puts w.
Proof.
  intros Hpre Hx. induction Hpre as [|v pre Hv _ IH]; intros acc w.
  - cbn [app]. unfold loop. cbn [normalize_loop].
    unfold bind at 1. unfold try_except. unfold bind at 1.
    fold normalize. rewrite (normalize_show_non_map x w Hx).
    destruct x; try discriminate; cbn; eauto.
  - destruct v as [| | | | | |d]; try discriminate.
    cbn [app]. unfold loop. cbn [normalize_loop].
    unfold bind at 1. unfold try_except. unfold bind at 1.
    fold normalize. fold loop.
    destruct (normalize_show_dict d w) as [(r & w' & -> & Hs & Hc & _) | (e & ->)].
    + cbn [ret]. destruct (IH (acc ++ [r]) w') as (w'' & -> & Hs' & Hc').
      exists w''. repeat split; congruence.
    + cbn. destruct (IH acc (mkWorld (now_calls w)
                      (WarnNormalizeFailed (dict_get d "id") e :: log w)
                      (s3_objects w) (cloudwatch_puts w))) as (w'' & -> & Hs' & Hc').
      exists w''. repeat split; assumption.
Qed.

(** C8. When the input document is a JSON object whose [results] array is
    absent or empty, the orchestrator returns [records_processed = 0] and
    [quality_pass_rate = 0.0] without raising; it writes no object and
    publishes no metric, and logs one warning. *)
Theorem empty_batch_short_circuits :
  forall (bucket key : string) (d : dict) (w : World),
    s3_lookup w bucket key = Some (Json (VDict d)) ->
    dict_lookup d "results" = None \/ dict_lookup d "results" = Some (VList []) ->
    outcome (process bucket key) w = Ok (mkSummary 0 F64.zero None)
    /\ s3_objects (final (process bucket key) w) = s3_objects w
    /\ cloudwatch_puts (final (process bucket key) w) = cloudwatch_puts w
    /\ log (final (process bucket key) w) = WarnNoShows key :: log w.
Proof.
  intros bucket key d w Hobj Hres.
  unfold outcome, final, process, process_bronze_file.
  unfold bind, get_json. rewrite Hobj.
  unfold lift, dict_get_default.
  destruct Hres as [-> | ->]; cbn [truthy negb logger ret fst snd log s3_objects cloudwatch_puts];
    repeat split.
Qed.

(** C7, on the code: a raw record that is not a map aborts the batch. Every
    record before it is a map; the failure handler raises [AttributeError]
    on the record, and nothing is written or published. *)
Theorem non_map_record_aborts_batch :
  forall (bucket key : string) (d : dict) (pre : list value) (x : value)
         (post : list value) (w : World),
    s3_lookup w bucket key = Some (Json (VDict d)) ->
    dict_lookup d "results" = Some (VList (pre ++ x :: post)) ->
    Forall (fun v => is_dict v = true) pre ->
    is_dict x = false ->
    outcome (process bucket key) w = Raise AttributeError
    /\ s3_objects (final (process bucket key) w) = s3_objects w
    /\ cloudwatch_puts (final (process bucket key) w) = cloudwatch_puts w.
Proof.
  intros bucket key d pre x post w Hobj Hres Hpre Hx.
  unfold outcome, final, process, process_bronze_file.
  unfold bind, get_json. rewrite Hobj.
  unfold lift, dict_get_default. rewrite Hres.
  assert (Ht : truthy (VList (pre ++ x :: post)) = true) by (destruct pre; reflexivity).
  rewrite Ht. cbn [negb py_len py_iter logger].
  fold loop.
  match goal with |- context [loop _ _ ?w0] =>
    destruct (normalize_loop_stops_at_non_map pre x post Hpre Hx [] w0)
      as (w' & -> & Hs & Hc) end.
  cbn in *. repeat split; assumption.
Qed.

End Orchestrator.

(** A document with an empty [results] array, run through the theorem. *)
Lemma empty_batch_example :
  let run := Sample.process_bronze_file "tally" "bronze/shows/trending/dt=2024-03-01/x.json" in
  let w := Sample.bronze_world "tally" "bronze/shows/trending/dt=2024-03-01/x.json"
                               (VDict [("results", VList [])]) in
  outcome run w = Ok (mkSummary 0 F64.zero None)
  /\ s3_objects (final run w) = s3_objects w
  /\ cloudwatch_puts (final run w) = cloudwatch_puts w
  /\ log (final run w) = [WarnNoShows "bronze/shows/trending/dt=2024-03-01/x.json"].
Proof.
  apply (empty_batch_short_circuits Sample.clock Sample.ENVIRONMENT Sample.float_of_str
           Sample.astype "tally" "bronze/shows/trending/dt=2024-03-01/x.json"
           [("results", VList [])]).
  - reflexivity.
  - right. reflexivity.
Defined.

(** A batch of a good show, the number 42 and another good show. *)
Lemma non_map_record_example :
  let good := VDict [("id", VInt 1); ("name", VStr "A"); ("popularity", VInt 3)] in
  let good' := VDict [("id", VInt 2); ("name", VStr "B"); ("popularity", VInt 4)] in
  let run := Sample.process_bronze_file "tally" "bronze/shows/trending/dt=2024-03-01/x.json" in
  let w := Sample.bronze_world "tally" "bronze/shows/trending/dt=2024-03-01/x.json"
                               (VDict [("results", VList [good; VInt 42; good'])]) in
  outcome run w = Raise AttributeError
  /\ s3_objects (final run w) = s3_objects w
  /\ cloudwatch_puts (final run w) = cloudwatch_puts w.
Proof.
  cbv zeta.
  apply (non_map_record_aborts_batch Sample.clock Sample.ENVIRONMENT Sample.float_of_str
           Sample.astype "tally" "bronze/shows/trending/dt=2024-03-01/x.json"
           [("results", VList [VDict [("id", VInt 1); ("name", VStr "A"); ("popularity", VInt 3)];
                               VInt 42;
                               VDict [("id", VInt 2); ("name", VStr "B"); ("popularity", VInt 4)]])]
           [VDict [("id", VInt 1); ("name", VStr "A"); ("popularity", VInt 3)]]
           (VInt 42)
           [VDict [("id", VInt 2); ("name", VStr "B"); ("popularity", VInt 4)]]).
  - reflexivity.
  - reflexivity.
  - repeat constructor.
  - reflexivity.
Defined.

(** ** The record normalizer *)

(** C2, as stated, fails. A [vote_average] that is a list makes the
    normalizer raise [TypeError] instead of defaulting to [0.0]; a
    [popularity] that is a string, or an int, is passed through as it is,
    neither defaulted nor coerced to a float. *)
Lemma normalizer_non_numeric_fields :
  outcome (Sample.normalize_show
             (VDict [("id", VInt 1); ("name", VStr "A"); ("vote_average", VList [])]))
          Sample.empty_world = Raise TypeError
  /\ option_map (fun r => cell r "popularity")
       (match outcome (Sample.normalize_show
                         (VDict [("id", VInt 1); ("name", VStr "A");
                                 ("popularity", VStr "high")]))
                      Sample.empty_world with
        | Ok r => Some r
        | Raise _ => None
        end) = Some (VStr "high")
  /\ option_map (fun r => cell r "popularity")
       (match outcome (Sample.normalize_show
                         (VDict [("id", VInt 1); ("name", VStr "A");
                                 ("popularity", VInt 7)]))
                      Sample.empty_world with
        | Ok r => Some r
        | Raise _ => None
        end) = Some (VInt 7).
Proof. repeat split. Qed.

Section Normalizer.

Variable clock : nat -> instant.
Variable float_of_str : string -> option spec_float.

Let normalize := normalize_show clock float_of_str.
Let to_float := py_float float_of_str.

(** [float] of an object that is neither a number nor a string. *)
Lemma py_float_non_numeric (v : value) :
  match v with VNone | VList _ | VDict _ => True | _ => False end ->
  to_float v = Raise TypeError.
Proof. destruct v; intros H; (reflexivity || contradiction). Qed.

(** C2, amended. On a raw record that is a map, the normalizer sets
    [vote_average] to [float(raw.get('vote_average', 0.0))]: [0.0] when the
    field is absent, the float itself when it holds one, the converted
    value when [float] accepts it; when [float] rejects the value the
    normalizer raises that error and yields no record. [popularity] is
    [0.0] when the field is absent. *)
Theorem normalizer_float_fields :
  forall (d : dict) (w : World),
    (dict_lookup d "vote_average" = None ->
     exists r, outcome (normalize (VDict d)) w = Ok r
               /\ cell r "vote_average" = VFloat F64.zero) /\
    (forall v f, dict_lookup d "vote_average" = Some v -> to_float v = Ok f ->
     exists r, outcome (normalize (VDict d)) w = Ok r
               /\ cell r "vote_average" = VFloat f) /\
    (forall f, dict_lookup d "vote_average" = Some (VFloat f) ->
     exists r, outcome (normalize (VDict d)) w = Ok r
               /\ cell r "vote_average" = VFloat f) /\
    (forall v e, dict_lookup d "vote_average" = Some v -> to_float v = Raise e ->
     outcome (normalize (VDict d)) w = Raise e) /\
    (forall r, dict_lookup d "popularity" = None ->
     outcome (normalize (VDict d)) w = Ok r ->
     cell r "popularity" = VFloat F64.zero).
Proof.
  intros d w.
  unfold outcome, normalize, normalize_show, bind, lift, dict_get_default.
  fold to_float.
  repeat split.
  - intros ->. cbn. eexists. split; reflexivity.
  - intros v f -> ->. cbn. eexists. split; reflexivity.
  - intros f ->. cbn. eexists. split; reflexivity.
  - intros v e -> ->. reflexivity.
  - intros r ->. destruct (to_float _); cbn; intros [= <-]; reflexivity.
Qed.

End Normalizer.

(** A show rated 8, one without a rating and one rated by a list. *)
Lemma normalizer_float_fields_example :
  (exists r, outcome (Sample.normalize_show (VDict [("id", VInt 1); ("vote_average", VInt 8)]))
                     Sample.empty_world = Ok r
             /\ cell r "vote_average" = VFloat (S754_finite false 4503599627370496 (-49)))
  /\ (exists r, outcome (Sample.normalize_show (VDict [("id", VInt 1)]))
                        Sample.empty_world = Ok r
                /\ cell r "vote_average" = VFloat F64.zero
                /\ cell r "popularity" = VFloat F64.zero)
  /\ outcome (Sample.normalize_show (VDict [("id", VInt 1); ("vote_average", VList [])]))
             Sample.empty_world = Raise TypeError.
Proof.
  pose proof (normalizer_float_fields Sample.clock Sample.float_of_str) as H.
  split; [|split].
  - destruct (H [("id", VInt 1); ("vote_average", VInt 8)] Sample.empty_world)
      as (_ & Hnum & _).
    apply (Hnum (VInt 8)); reflexivity.
  - destruct (H [("id", VInt 1)] Sample.empty_world) as (Habs & _ & _ & _ & Hpop).
    destruct (Habs eq_refl) as (r & Hr & Hv).
    exists r. repeat split; try assumption. now apply Hpop.
  - destruct (H [("id", VInt 1); ("vote_average", VList [])] Sample.empty_world)
      as (_ & _ & _ & Hbad & _).
    apply (Hbad (VList [])); reflexivity.
Defined.


(** ** The quality gate *)

Lemma bind_lift {A B : Type} (r : result A) (k : A -> M B) (w : World) :
  bind (lift r) k w = match r with Ok a => k a w | Raise e => (Raise e, w) end.
Proof. destruct r; reflexivity. Qed.

Lemma select_map_filter {A : Type} (f : A -> bool) (l : list A) :
  select l (map f l) = filter f l.
Proof.
  induction l as [|x l IH]; [reflexivity|].
  cbn [map select filter]. now rewrite IH.
Qed.

Lemma length_filter_negb {A : Type} (f : A -> bool) (l : list A) :
  (List.length (filter (fun x => negb (f x)) l) + List.length (filter f l)
   = List.length l)%nat.
Proof.
  induction l as [|x l IH]; [reflexivity|].
  cbn [filter]. destruct (f x); cbn [negb List.length]; lia.
Qed.

Lemma count_true_map {A : Type} (f : A -> bool) (l : list A) :
  count_true (map f l) = Z.of_nat (List.length (filter f l)).
Proof.
  unfold count_true. f_equal.
  induction l as [|x l IH]; [reflexivity|].
  cbn [map filter]. destruct (f x); cbn [List.length]; now rewrite IH.
Qed.

Lemma count_isna (c : string) (l : list row) :
  count_true (map isna (map (fun r => cell r c) l))
  = Z.of_nat (List.length l)
    - Z.of_nat (List.length (filter (fun r => notna (cell r c)) l)).
Proof.
  rewrite map_map, count_true_map.
  pose proof (length_filter_negb (fun r => notna (cell r c)) l) as H.
  unfold notna in *.
  rewrite (filter_ext (fun r => isna (cell r c)) (fun r => negb (negb (isna (cell r c))))).
  - lia.
  - intros r. now rewrite negb_involutive.
Qed.

Lemma map_result_bool {A : Type} (f : A -> result bool) (l : list A) (m : list bool) :
  map_result f l = Ok m ->
  m = map (fun x => match f x with Ok b => b | Raise _ => false end) l.
Proof.
  revert m; induction l as [|x l IH]; intros m H; cbn [map_result map] in *.
  - now injection H as <-.
  - destruct (f x) as [b|e]; [|discriminate].
    destruct (map_result f l) as [bs|e]; [|discriminate].
    injection H as <-. now rewrite <- (IH bs eq_refl).
Qed.

Lemma getitem_Ok (df : DataFrame) (c : string) (col : list value) :
  getitem df c = Ok col -> col = map (fun r => cell r c) (rows df).
Proof.
  unfold getitem. destruct (mem_str c (columns df)); [|discriminate].
  now intros [= <-].
Qed.

Lemma getitem_filter_rows (df : DataFrame) (m : list bool) (c : string) :
  getitem (filter_rows df m) c =
  match getitem df c with
  | Ok _ => Ok (map (fun r => cell r c) (select (rows df) m))
  | Raise e => Raise e
  end.
Proof.
  unfold getitem, filter_rows. cbn [columns rows].
  now destruct (mem_str c (columns df)).
Qed.

(** What the gate returns when it returns: the rows that pass the three
    filters in order, deduplicated; the counters of each rule; the report. *)
Lemma quality_gate_returns (df : DataFrame) (n : Z) (w : World)
      (df' : DataFrame) (c : checks) (w' : World) :
  apply_data_quality_checks df n w = (Ok (df', c), w') ->
  let r1 := filter has_show_id (rows df) in
  let r2 := filter has_title r1 in
  let r3 := filter popularity_valid r2 in
  rows df' = dedup_first r3
  /\ columns df' = columns df
  /\ missing_show_id c = Z.of_nat (List.length (rows df)) - Z.of_nat (List.length r1)
  /\ missing_title c = Z.of_nat (List.length r1) - Z.of_nat (List.length r2)
  /\ invalid_popularity c = Z.of_nat (List.length (filter popularity_negative r2))
  /\ duplicates c = Z.of_nat (List.length r3) - Z.of_nat (List.length (rows df'))
  /\ final_count c = Z.of_nat (List.length (rows df'))
  /\ initial_count c = n
  /\ failed_count c = n - final_count c
  /\ (if n >? 0 then py_truediv (final_count c) n else Ok F64.zero) = Ok (pass_rate c)
  /\ log w' = InfoDataQuality (final_count c) n (pass_rate c) :: log w
  /\ s3_objects w' = s3_objects w
  /\ cloudwatch_puts w' = cloudwatch_puts w.
Proof.
  unfold apply_data_quality_checks, drop_duplicates, df_len, filter_rows, getitem.
  cbn [rows columns].
  destruct (mem_str "show_id" (columns df)); [|discriminate].
  destruct (mem_str "title" (columns df)); [|discriminate].
  destruct (mem_str "popularity" (columns df)); [|discriminate].
  rewrite !bind_lift, !map_map, !select_map_filter.
  change (fun x : row => notna (cell x "show_id")) with has_show_id.
  rewrite ?map_map, ?select_map_filter.
  change (fun x : row => notna (cell x "title")) with has_title.
  set (r1 := filter has_show_id (rows df)).
  set (r2 := filter has_title r1).
  destruct (map_result lt_zero _) as [neg|e] eqn:Hneg; [|discriminate].
  rewrite bind_lift.
  destruct (map_result ge_zero _) as [pos|e] eqn:Hpos; [|discriminate].
  apply map_result_bool in Hneg, Hpos. rewrite map_map in Hneg, Hpos.
  change (fun x : row => match lt_zero (cell x "popularity") with
                         | Ok b => b | Raise _ => false end)
    with popularity_negative in Hneg.
  change (fun x : row => match ge_zero (cell x "popularity") with
                         | Ok b => b | Raise _ => false end)
    with popularity_valid in Hpos.
  subst neg pos. rewrite !select_map_filter.
  set (r3 := filter popularity_valid r2).
  rewrite bind_lift.
  destruct (forallb hashable _); [|discriminate].
  cbn [rows]. rewrite bind_lift.
  destruct (if n >? 0 then _ else _) as [rate|e] eqn:Hrate; [|discriminate].
  unfold bind, logger, ret. intros [= <- <- <-]. cbn [rows columns
    missing_show_id missing_title invalid_popularity duplicates final_count
    initial_count failed_count pass_rate log s3_objects cloudwatch_puts].
  rewrite !count_true_map.
  repeat split; try reflexivity; try exact Hrate.
  - pose proof (count_isna "show_id" (rows df)) as H.
    rewrite map_map, count_true_map in H. exact H.
  - pose proof (count_isna "title" r1) as H.
    rewrite map_map, count_true_map in H. exact H.
Qed.


(** *** Deduplication keeps the first occurrence *)

Lemma first_mask_length (seen ks : list value) :
  List.length (first_mask seen ks) = List.length ks.
Proof.
  revert seen; induction ks as [|k ks IH]; intros seen; [reflexivity|].
  cbn [first_mask]. destruct (existsb (key_eqb k) seen); cbn [List.length]; now rewrite IH.
Qed.

Lemma first_mask_app (seen a b : list value) :
  first_mask seen (a ++ b) = first_mask seen a ++ first_mask (seen_after seen a) b.
Proof.
  revert seen; induction a as [|k a IH]; intros seen; [reflexivity|].
  cbn [app first_mask seen_after].
  destruct (existsb (key_eqb k) seen); cbn [app]; now rewrite IH.
Qed.

Lemma select_app {A : Type} (l1 l2 : list A) (m1 m2 : list bool) :
  List.length l1 = List.length m1 ->
  select (l1 ++ l2) (m1 ++ m2) = select l1 m1 ++ select l2 m2.
Proof.
  revert m1; induction l1 as [|x l1 IH]; intros [|b m1] H; try discriminate.
  - reflexivity.
  - cbn [app select]. injection H as H. rewrite (IH _ H). now destruct b.
Qed.

Lemma dedup_from_app (seen : list value) (l l' : list row) :
  dedup_from seen (l ++ l') =
  dedup_from seen l ++ dedup_from (seen_after seen (map show_id_of l)) l'.
Proof.
  unfold dedup_from. rewrite map_app, first_mask_app, select_app; [reflexivity|].
  now rewrite first_mask_length, length_map.
Qed.

Lemma seen_after_keeps (k : value) (seen ks : list value) :
  existsb (key_eqb k) seen = true -> existsb (key_eqb k) (seen_after seen ks) = true.
Proof.
  revert seen; induction ks as [|x ks IH]; intros seen H; [exact H|].
  cbn [seen_after]. destruct (existsb (key_eqb x) seen); apply IH; [exact H|].
  cbn [existsb]. now rewrite H, orb_true_r.
Qed.

Lemma seen_after_fresh (k : value) (seen ks : list value) :
  existsb (key_eqb k) seen = false ->
  (forall x, In x ks -> key_eqb k x = false) ->
  existsb (key_eqb k) (seen_after seen ks) = false.
Proof.
  revert seen; induction ks as [|x ks IH]; intros seen H Hks; [exact H|].
  cbn [seen_after]. destruct (existsb (key_eqb x) seen).
  - apply IH; [exact H | intros y Hy; apply Hks; now right].
  - apply IH; [|intros y Hy; apply Hks; now right].
    cbn [existsb]. rewrite H, (Hks x (or_introl eq_refl)). reflexivity.
Qed.

Lemma dedup_from_cons_fresh (seen : list value) (a : row) (l : list row) :
  existsb (key_eqb (show_id_of a)) seen = false ->
  dedup_from seen (a :: l) = a :: dedup_from (show_id_of a :: seen) l.
Proof. unfold dedup_from. cbn [map first_mask]. now intros ->. Qed.

Lemma dedup_from_cons_seen (seen : list value) (b : row) (l : list row) :
  existsb (key_eqb (show_id_of b)) seen = true ->
  dedup_from seen (b :: l) = dedup_from seen l.
Proof. unfold dedup_from. cbn [map first_mask]. now intros ->. Qed.

(** Of two rows with the same key, the first of which is the first row
    with that key, the first is kept and the second changes nothing. *)
Lemma dedup_first_stable (l1 : list row) (a : row) (l2 : list row) (b : row)
      (l3 : list row) :
  (forall x, In x l1 -> key_eqb (show_id_of a) (show_id_of x) = false) ->
  key_eqb (show_id_of b) (show_id_of a) = true ->
  dedup_first (l1 ++ a :: l2 ++ b :: l3) = dedup_first (l1 ++ a :: l2 ++ l3)
  /\ In a (dedup_first (l1 ++ a :: l2 ++ b :: l3)).
Proof.
  intros Hfirst Hdup. unfold dedup_first.
  assert (Ha : existsb (key_eqb (show_id_of a)) (seen_after [] (map show_id_of l1)) = false).
  { apply seen_after_fresh; [reflexivity|].
    intros x Hx. apply in_map_iff in Hx as (r & <- & Hr). now apply Hfirst. }
  rewrite !dedup_from_app, !(dedup_from_cons_fresh _ a) by exact Ha.
  rewrite !dedup_from_app.
  rewrite dedup_from_cons_seen.
  - split; [reflexivity|]. apply in_or_app. right. now left.
  - apply seen_after_keeps. cbn [existsb]. now rewrite Hdup.
Qed.

(** When every row that reaches the third rule holds a popularity for
    which [< 0] and [>= 0] are complementary, the counters and the
    survivors add up to the rows passed in. *)
Lemma gate_counters_sum (df : DataFrame) (n : Z) (w : World)
      (df' : DataFrame) (c : checks) (w' : World) :
  apply_data_quality_checks df n w = (Ok (df', c), w') ->
  (forall r, In r (filter has_title (filter has_show_id (rows df))) ->
             popularity_negative r = negb (popularity_valid r)) ->
  accounted c = df_len df.
Proof.
  intros H Hcompl. apply quality_gate_returns in H. cbv zeta in H.
  destruct H as (Hrows & _ & H1 & H2 & H3 & H4 & H5 & _).
  unfold accounted, df_len. rewrite H1, H2, H3, H4, H5.
  rewrite (filter_ext_in _ _ _ Hcompl).
  pose proof (length_filter_negb popularity_valid
                (filter has_title (filter has_show_id (rows df)))) as Hlen.
  lia.
Qed.

(** *** The third rule *)

Lemma map_result_Forall {A B : Type} (f : A -> result B) (l : list A) (m : list B) :
  map_result f l = Ok m -> Forall (fun x => exists b, f x = Ok b) l.
Proof.
  revert m; induction l as [|x l IH]; intros m H; [constructor|].
  cbn [map_result] in H. destruct (f x) as [b|e] eqn:E; [|discriminate].
  destruct (map_result f l) as [bs|e]; [|discriminate].
  constructor; [now exists b | now apply (IH bs)].
Qed.

Lemma lt_zero_Ok_orderable (v : value) (b : bool) : lt_zero v = Ok b -> orderable v = true.
Proof. destruct v; (discriminate || reflexivity). Qed.

(** What a run of the gate that returns says of its input: the three
    columns are there, every popularity that reaches the third rule can be
    compared with zero, every [show_id] that reaches the fourth can be
    hashed. *)
Lemma quality_gate_inputs (df : DataFrame) (n : Z) (w : World)
      (df' : DataFrame) (c : checks) (w' : World) :
  apply_data_quality_checks df n w = (Ok (df', c), w') ->
  mem_str "show_id" (columns df) = true
  /\ mem_str "title" (columns df) = true
  /\ mem_str "popularity" (columns df) = true
  /\ Forall (fun r => orderable (cell r "popularity") = true) (identified (rows df))
  /\ forallb hashable (map show_id_of (eligible (rows df))) = true.
Proof.
  unfold apply_data_quality_checks, drop_duplicates, df_len, filter_rows, getitem, eligible,
    identified.
  cbn [rows columns].
  destruct (mem_str "show_id" (columns df)); [|discriminate].
  destruct (mem_str "title" (columns df)); [|discriminate].
  destruct (mem_str "popularity" (columns df)); [|discriminate].
  rewrite !bind_lift, !map_map, !select_map_filter.
  change (fun x : row => notna (cell x "show_id")) with has_show_id.
  rewrite ?map_map, ?select_map_filter.
  change (fun x : row => notna (cell x "title")) with has_title.
  set (r2 := filter has_title (filter has_show_id (rows df))).
  destruct (map_result lt_zero _) as [neg|e] eqn:Hneg; [|discriminate].
  rewrite bind_lift.
  destruct (map_result ge_zero _) as [pos|e] eqn:Hpos; [|discriminate].
  apply map_result_Forall in Hneg as Hord.
  apply map_result_bool in Hpos. rewrite map_map in Hpos.
  change (fun x : row => match ge_zero (cell x "popularity") with
                         | Ok b => b | Raise _ => false end)
    with popularity_valid in Hpos.
  subst pos. rewrite !select_map_filter.
  rewrite bind_lift.
  destruct (forallb hashable _) eqn:Hhash; [|discriminate].
  intros _. do 3 (split; [reflexivity|]). split; [|reflexivity].
  apply Forall_forall. intros r Hr. rewrite Forall_forall in Hord.
  destruct (Hord (cell r "popularity")) as (b & Hb).
  - apply in_map_iff. now exists r.
  - now apply lt_zero_Ok_orderable in Hb.
Qed.

(** A popularity that can be compared with zero is non-negative, negative
    or null, and only one of the three. *)
Lemma popularity_three_ways (r : row) :
  orderable (cell r "popularity") = true ->
  ((if popularity_valid r then 1 else 0) + (if popularity_negative r then 1 else 0)
   + (if popularity_null r then 1 else 0) = 1)%nat.
Proof.
  unfold popularity_valid, popularity_negative, popularity_null.
  destruct (cell r "popularity") as [| b | z | f | s | l | d]; cbn; try congruence.
  - intros _. destruct (Z.ltb_spec z 0), (Z.leb_spec 0 z); try reflexivity; lia.
  - intros _. destruct f as [[]|[]| |[] m e]; reflexivity.
Qed.

(** The rows the third rule removes are the rows with a negative
    popularity and the rows with a null one. *)
Lemma third_rule_removals (l : list row) :
  Forall (fun r => orderable (cell r "popularity") = true) l ->
  List.length l
  = (List.length (filter popularity_valid l) + List.length (filter popularity_negative l)
     + List.length (filter popularity_null l))%nat.
Proof.
  induction 1 as [|r l Hr _ IH]; [reflexivity|].
  apply popularity_three_ways in Hr. cbn [filter].
  destruct (popularity_valid r), (popularity_negative r), (popularity_null r);
    cbn [List.length] in *; lia.
Qed.

(** C3, on the code. The quality gate applies its rules in a fixed order:
    it keeps the rows with a [show_id], of those the rows with a [title], of
    those the rows whose popularity is [>= 0], and of those the first row of
    every [show_id]; [missing_show_id], [missing_title] and [duplicates]
    count what rules 1, 2 and 4 remove. The third rule does not count what
    it removes: it removes the rows whose popularity is negative and the
    rows whose popularity is null, and [invalid_popularity] counts the
    negative ones only. On the five-record scenario the report is
    [final_count = 2], [missing_show_id = 1], [invalid_popularity = 1],
    [duplicates = 1], [pass_rate = 0.4], and the earlier of the two shows
    sharing an id survives. On the scenario with a sixth record whose
    popularity is null, five rows reach the third rule, three pass it and
    [invalid_popularity] is still 1. Of two eligible rows sharing a
    [show_id], the first of which is the first with that id, the earlier
    one is kept and the later one is dropped. *)
Theorem quality_gate_rules :
  (forall (df : DataFrame) (n : Z) (w : World) (df' : DataFrame) (c : checks) (w' : World),
      apply_data_quality_checks df n w = (Ok (df', c), w') ->
      let r1 := filter has_show_id (rows df) in
      let r2 := filter has_title r1 in
      let r3 := filter popularity_valid r2 in
      rows df' = dedup_first r3
      /\ missing_show_id c = Z.of_nat (List.length (rows df)) - Z.of_nat (List.length r1)
      /\ missing_title c = Z.of_nat (List.length r1) - Z.of_nat (List.length r2)
      /\ invalid_popularity c = Z.of_nat (List.length (filter popularity_negative r2))
      /\ duplicates c = Z.of_nat (List.length r3) - Z.of_nat (List.length (rows df'))
      /\ final_count c = Z.of_nat (List.length (rows df'))
      /\ Z.of_nat (List.length r2) - Z.of_nat (List.length r3)
         = invalid_popularity c + Z.of_nat (List.length (filter popularity_null r2)))
  /\ (exists (df' : DataFrame) (c : checks),
         outcome (apply_data_quality_checks (from_records scenario_normalized) 5)
                 Sample.empty_world = Ok (df', c)
         /\ List.length scenario_normalized = 5%nat
         /\ final_count c = 2
         /\ missing_show_id c = 1
         /\ missing_title c = 0
         /\ invalid_popularity c = 1
         /\ duplicates c = 1
         /\ failed_count c = 3
         /\ pass_rate c = F64.decimal 4 1
         /\ titles df' = [VStr "First"; VStr "Other"])
  /\ outcome (Sample.process_bronze_file "tally" scenario_key) scenario_world
     = Ok (mkSummary 2 (F64.decimal 4 1)
                     (Some "silver/shows/trending/dt=2024-03-01/data.parquet"))
  /\ (forall (l1 : list row) (a : row) (l2 : list row) (b : row) (l3 : list row),
         (forall x, In x l1 -> key_eqb (show_id_of a) (show_id_of x) = false) ->
         key_eqb (show_id_of b) (show_id_of a) = true ->
         dedup_first (l1 ++ a :: l2 ++ b :: l3) = dedup_first (l1 ++ a :: l2 ++ l3)
         /\ In a (dedup_first (l1 ++ a :: l2 ++ b :: l3)))
  /\ (exists (df' : DataFrame) (c : checks),
         outcome (apply_data_quality_checks (from_records unrated_normalized) 6)
                 Sample.empty_world = Ok (df', c)
         /\ List.length unrated_normalized = 6%nat
         /\ List.length (identified (rows (from_records unrated_normalized))) = 5%nat
         /\ List.length (eligible (rows (from_records unrated_normalized))) = 3%nat
         /\ invalid_popularity c = 1
         /\ missing_show_id c = 1
         /\ missing_title c = 0
         /\ duplicates c = 1
         /\ final_count c = 2
         /\ accounted c = 5
         /\ titles df' = [VStr "First"; VStr "Other"]).
Proof.
  split; [|split; [|split; [|split]]].
  - intros df n w df' c w' H. apply quality_gate_inputs in H as Hin.
    destruct Hin as (_ & _ & _ & Hord & _). unfold identified in Hord.
    apply third_rule_removals in Hord.
    apply quality_gate_returns in H. cbv zeta in *.
    destruct H as (H0 & _ & H1 & H2 & H3 & H4 & H5 & _).
    split; [exact H0|]. split; [exact H1|]. split; [exact H2|]. split; [exact H3|].
    split; [exact H4|]. split; [exact H5|].
    rewrite H3. unfold dict, row in *. lia.
  - eexists. eexists. split; [vm_compute; reflexivity|].
    repeat split; vm_compute; reflexivity.
  - vm_compute. reflexivity.
  - exact dedup_first_stable.
  - eexists. eexists. split; [vm_compute; reflexivity|].
    repeat split; vm_compute; reflexivity.
Qed.

(** The six-record batch through the first part of the theorem: the third
    rule removes two of the five rows that reach it, the negative one and
    the null one, and [invalid_popularity] is 1. *)
Lemma quality_gate_rules_unrated :
  exists (df' : DataFrame) (c : checks) (w' : World),
    apply_data_quality_checks (from_records unrated_normalized) 6 Sample.empty_world
    = (Ok (df', c), w')
    /\ Z.of_nat (List.length (identified (rows (from_records unrated_normalized))))
       - Z.of_nat (List.length (eligible (rows (from_records unrated_normalized)))) = 2
    /\ invalid_popularity c = 1
    /\ final_count c = 2.
Proof.
  destruct (apply_data_quality_checks (from_records unrated_normalized) 6 Sample.empty_world)
    as [[[df' c]|e] w'] eqn:E.
  - exists df', c, w'. split; [reflexivity|].
    destruct (proj1 quality_gate_rules _ _ _ _ _ _ E)
      as (Hrows & _ & _ & Hinv & _ & Hfin & Hthird).
    split; [|split].
    + unfold eligible, identified. rewrite Hthird, Hinv. vm_compute. reflexivity.
    + rewrite Hinv. vm_compute. reflexivity.
    + rewrite Hfin, Hrows. vm_compute. reflexivity.
  - exfalso. vm_compute in E. discriminate.
Defined.

(** C9, on the code: a record whose popularity is null is removed by the
    third rule ([>= 0] is false on a null) and counted by none ([< 0] is
    false too). One normalized record goes in, none comes out, and every
    counter is zero. *)
Theorem null_popularity_dropped_uncounted :
  forall (w : World),
    df_len (from_records null_popularity_normalized) = 1
    /\ match outcome (apply_data_quality_checks (from_records null_popularity_normalized) 1) w with
       | Ok (df', c) =>
           missing_show_id c = 0 /\ missing_title c = 0 /\ invalid_popularity c = 0
           /\ duplicates c = 0 /\ final_count c = 0 /\ accounted c = 0
       | Raise _ => False
       end.
Proof.
  intros w. split; [reflexivity|]. vm_compute. repeat split.
Qed.


(** ** The schema enforcer *)

Lemma mem_str_In (c : string) (l : list string) : mem_str c l = true <-> In c l.
Proof.
  unfold mem_str. rewrite existsb_exists. split.
  - intros (x & Hx & E). apply String.eqb_eq in E. now subst.
  - intros H. exists c. split; [exact H | apply String.eqb_refl].
Qed.

Lemma cell_set_cell_same (r : row) (c : string) (v : value) :
  cell (set_cell r c v) c = v.
Proof.
  unfold cell, dict_get.
  induction r as [|[k x] r IH]; cbn [set_cell dict_lookup].
  - now rewrite String.eqb_refl.
  - destruct (String.eqb k c) eqn:E; cbn [dict_lookup]; rewrite E; [reflexivity | exact IH].
Qed.

Lemma cell_set_cell_other (r : row) (c c' : string) (v : value) :
  c' <> c -> cell (set_cell r c v) c' = cell r c'.
Proof.
  intros Hne. unfold cell, dict_get.
  assert (Hc : String.eqb c c' = false) by (apply String.eqb_neq; congruence).
  induction r as [|[k x] r IH]; cbn [set_cell dict_lookup].
  - now rewrite Hc.
  - destruct (String.eqb k c) eqn:E; cbn [dict_lookup].
    + apply String.eqb_eq in E. subst k. now rewrite Hc.
    + destruct (String.eqb k c'); [reflexivity | exact IH].
Qed.

Lemma keys_set_cell (r : row) (c : string) (v : value) :
  In c (map fst r) -> map fst (set_cell r c v) = map fst r.
Proof.
  induction r as [|[k x] r IH]; intros H; [contradiction|].
  cbn [set_cell]. destruct (String.eqb k c) eqn:E; [reflexivity|].
  cbn [map fst]. f_equal. apply IH. destruct H as [H|H]; [|exact H].
  cbn in H. subst k. now rewrite String.eqb_refl in E.
Qed.

Lemma set_cell_same (r : row) (c : string) :
  In c (map fst r) -> set_cell r c (cell r c) = r.
Proof.
  unfold cell, dict_get.
  induction r as [|[k x] r IH]; intros H; [contradiction|].
  cbn [set_cell dict_lookup]. destruct (String.eqb k c) eqn:E; [reflexivity|].
  f_equal. apply IH. destruct H as [H|H]; [|exact H].
  cbn in H. subst k. now rewrite String.eqb_refl in E.
Qed.

Lemma project_keys (labels : list string) (r : row) : map fst (project labels r) = labels.
Proof. unfold project. rewrite map_map. cbn [fst]. apply map_id. Qed.

Lemma cell_project (labels : list string) (r : row) (c : string) :
  In c labels -> cell (project labels r) c = cell r c.
Proof.
  unfold project, cell at 1, dict_get.
  induction labels as [|k labels IH]; intros H; [contradiction|].
  cbn [map dict_lookup]. destruct (String.eqb k c) eqn:E.
  - apply String.eqb_eq in E. now subst.
  - apply IH. destruct H as [H|H]; [|exact H]. subst. now rewrite String.eqb_refl in E.
Qed.

Lemma project_id (r : row) : NoDup (map fst r) -> project (map fst r) r = r.
Proof.
  unfold project.
  induction r as [|[k v] r IH]; intros H; [reflexivity|].
  cbn [map fst] in *. inversion H as [|? ? Hk Hr]; subst.
  f_equal.
  - unfold cell, dict_get. cbn [dict_lookup]. now rewrite String.eqb_refl.
  - rewrite <- (IH Hr) at 2. apply map_ext_in. intros c Hc.
    f_equal. unfold cell, dict_get. cbn [dict_lookup].
    destruct (String.eqb k c) eqn:E; [|reflexivity].
    apply String.eqb_eq in E. subst. contradiction.
Qed.

Lemma set_cells_length (rs : list row) (c : string) (vs : list value) :
  List.length (set_cells rs c vs) = List.length rs.
Proof.
  revert vs; induction rs as [|r rs IH]; intros [|v vs]; cbn [set_cells List.length];
    try reflexivity. now rewrite IH.
Qed.

Lemma column_set_cells_same (rs : list row) (c : string) (vs : list value) :
  List.length vs = List.length rs -> column_of c (set_cells rs c vs) = vs.
Proof.
  unfold column_of.
  revert vs; induction rs as [|r rs IH]; intros [|v vs] H; try discriminate; [reflexivity|].
  cbn [set_cells map]. rewrite cell_set_cell_same. f_equal. apply IH. now injection H.
Qed.

Lemma column_set_cells_other (rs : list row) (c c' : string) (vs : list value) :
  c' <> c -> column_of c' (set_cells rs c vs) = column_of c' rs.
Proof.
  intros Hne. unfold column_of.
  revert vs; induction rs as [|r rs IH]; intros [|v vs]; cbn [set_cells map]; try reflexivity.
  now rewrite cell_set_cell_other, IH.
Qed.

Lemma keys_set_cells (labels : list string) (rs : list row) (c : string) (vs : list value) :
  In c labels ->
  Forall (fun r => map fst r = labels) rs ->
  Forall (fun r => map fst r = labels) (set_cells rs c vs).
Proof.
  intros Hc H. revert vs; induction H as [|r rs Hr Hrs IH]; intros [|v vs];
    cbn [set_cells]; try (constructor; assumption).
  constructor; [|apply IH]. rewrite keys_set_cell; [exact Hr | now rewrite Hr].
Qed.

Lemma set_cells_same (labels : list string) (rs : list row) (c : string) :
  In c labels ->
  Forall (fun r => map fst r = labels) rs ->
  set_cells rs c (column_of c rs) = rs.
Proof.
  intros Hc H. unfold column_of. induction H as [|r rs Hr _ IH]; [reflexivity|].
  cbn [map set_cells]. rewrite IH, set_cell_same; [reflexivity | now rewrite Hr].
Qed.


Lemma add_missing_rows_length (df : DataFrame) (labels : list string) :
  List.length (rows (add_missing df labels)) = List.length (rows df).
Proof.
  unfold add_missing. revert df; induction labels as [|k labels IH]; intros df; [reflexivity|].
  cbn [fold_left]. rewrite IH. destruct (mem_str k (columns df)); [reflexivity|].
  unfold set_scalar. cbn [rows]. apply length_map.
Qed.

Lemma add_missing_columns_mono (df : DataFrame) (labels : list string) (c : string) :
  In c (columns df) -> In c (columns (add_missing df labels)).
Proof.
  unfold add_missing. revert df; induction labels as [|k labels IH]; intros df H; [exact H|].
  cbn [fold_left]. apply IH. destruct (mem_str k (columns df)) eqn:E; [exact H|].
  unfold set_scalar. cbn [columns]. rewrite E. apply in_or_app. now left.
Qed.

Lemma add_missing_has (df : DataFrame) (labels : list string) (c : string) :
  In c labels -> In c (columns (add_missing df labels)).
Proof.
  unfold add_missing. revert df; induction labels as [|k labels IH]; intros df H; [contradiction|].
  cbn [fold_left]. destruct H as [->|H]; [|now apply IH].
  apply (add_missing_columns_mono _ labels).
  destruct (mem_str c (columns df)) eqn:E; [now apply mem_str_In|].
  unfold set_scalar. cbn [columns]. rewrite E. apply in_or_app. right. now left.
Qed.

(** A column the frame lacks is null in every row once it has been added. *)
Lemma add_missing_null (df : DataFrame) (labels : list string) (c : string) :
  (In c (columns df) -> Forall (fun r => cell r c = VNone) (rows df)) ->
  In c (columns (add_missing df labels)) ->
  Forall (fun r => cell r c = VNone) (rows (add_missing df labels)).
Proof.
  unfold add_missing. revert df; induction labels as [|k labels IH]; intros df P; [exact P|].
  cbn [fold_left]. apply IH.
  destruct (mem_str k (columns df)) eqn:E; [exact P|].
  unfold set_scalar. cbn [columns rows]. rewrite E. intros Hc.
  apply Forall_forall. intros r' Hr'. apply in_map_iff in Hr' as (r & <- & Hr).
  destruct (string_dec c k) as [->|Hne].
  - apply cell_set_cell_same.
  - rewrite cell_set_cell_other by exact Hne.
    apply in_app_or in Hc as [Hc|[Hc|[]]]; [|congruence].
    specialize (P Hc). rewrite Forall_forall in P. now apply P.
Qed.

Lemma reindex_add_missing (df : DataFrame) (labels : list string) :
  reindex (add_missing df labels) labels
  = Ok (mkDF labels (map (project labels) (rows (add_missing df labels)))).
Proof.
  unfold reindex.
  replace (forallb _ labels) with true; [reflexivity|].
  symmetry. apply forallb_forall. intros c Hc. apply mem_str_In. now apply add_missing_has.
Qed.

Lemma shaped_reindexed (labels : list string) (rs : list row) :
  shaped labels (mkDF labels (map (project labels) rs)).
Proof.
  split; [reflexivity|]. cbn [rows]. apply Forall_forall.
  intros r' Hr'. apply in_map_iff in Hr' as (r & <- & _). apply project_keys.
Qed.

Section Casts.

Variable astype : dtype -> list value -> result (list value).

Lemma cast_pure_shaped (labels : list string) (df : DataFrame) (cd : string * dtype) :
  In (fst cd) labels -> shaped labels df -> shaped labels (cast_pure astype df cd).
Proof.
  intros Hc [Hcols Hrows]. unfold cast_pure.
  destruct (castable (snd cd)); [|now split].
  destruct (getitem df (fst cd)); [|now split].
  destruct (astype_ignore astype (snd cd) a); [|now split].
  unfold set_series. split; cbn [columns rows].
  - replace (mem_str (fst cd) (columns df)) with true; [exact Hcols|].
    symmetry. apply mem_str_In. now rewrite Hcols.
  - now apply keys_set_cells.
Qed.

Lemma cast_pure_length (df : DataFrame) (cd : string * dtype) :
  List.length (rows (cast_pure astype df cd)) = List.length (rows df).
Proof.
  unfold cast_pure.
  destruct (castable (snd cd)); [|reflexivity].
  destruct (getitem df (fst cd)); [|reflexivity].
  destruct (astype_ignore astype (snd cd) a); [|reflexivity].
  apply set_cells_length.
Qed.

Lemma cast_pure_other_column (df : DataFrame) (cd : string * dtype) (c' : string) :
  c' <> fst cd ->
  column_of c' (rows (cast_pure astype df cd)) = column_of c' (rows df).
Proof.
  intros Hne. unfold cast_pure.
  destruct (castable (snd cd)); [|reflexivity].
  destruct (getitem df (fst cd)); [|reflexivity].
  destruct (astype_ignore astype (snd cd) a); [|reflexivity].
  now apply column_set_cells_other.
Qed.

(** The cast loop returns the fold of the pure step and only logs. *)
Lemma cast_column_pure (df : DataFrame) (col : string) (d : dtype) (w : World) :
  exists w', cast_column astype df col d w = (Ok (cast_pure astype df (col, d)), w')
             /\ same_stores w w'.
Proof.
  unfold cast_column, cast_pure, try_except, same_stores. cbn [fst snd].
  destruct (castable d); [|eexists; split; [reflexivity | split; reflexivity]].
  rewrite bind_lift. destruct (getitem df col) as [series|e].
  - rewrite bind_lift. destruct (astype_ignore astype d series) as [series'|e];
      eexists; (split; [reflexivity | split; reflexivity]).
  - eexists; (split; [reflexivity | split; reflexivity]).
Qed.

Lemma cast_columns_pure (schema : list (string * dtype)) (df : DataFrame) (w : World) :
  exists w', cast_columns astype df schema w = (Ok (fold_left (cast_pure astype) schema df), w')
             /\ same_stores w w'.
Proof.
  revert df w; induction schema as [|[col d] schema IH]; intros df w.
  - exists w. now repeat split.
  - cbn [cast_columns fold_left]. unfold bind.
    destruct (cast_column_pure df col d w) as (w1 & -> & Hs1 & Hc1).
    destruct (IH (cast_pure astype df (col, d)) w1) as (w2 & -> & Hs2 & Hc2).
    exists w2. split; [reflexivity|]. split; congruence.
Qed.

Lemma enforce_schema_pure (df : DataFrame) (schema : list (string * dtype)) (w : World) :
  exists w', enforce_schema astype df schema w = (Ok (enforce_pure astype df schema), w')
             /\ same_stores w w'.
Proof.
  unfold enforce_schema, enforce_pure. fold (add_missing df (map fst schema)).
  rewrite bind_lift, reindex_add_missing. apply cast_columns_pure.
Qed.

End Casts.


Section CastLoop.

Variable astype : dtype -> list value -> result (list value).
Variable labels : list string.

Lemma fold_cast_shaped (schema : list (string * dtype)) (df : DataFrame) :
  incl (map fst schema) labels -> shaped labels df ->
  shaped labels (fold_left (cast_pure astype) schema df).
Proof.
  revert df; induction schema as [|cd schema IH]; intros df Hin Hdf; [exact Hdf|].
  cbn [fold_left]. apply IH.
  - intros c Hc. apply Hin. now right.
  - apply cast_pure_shaped; [|exact Hdf]. apply Hin. now left.
Qed.

Lemma fold_cast_length (schema : list (string * dtype)) (df : DataFrame) :
  List.length (rows (fold_left (cast_pure astype) schema df)) = List.length (rows df).
Proof.
  revert df; induction schema as [|cd schema IH]; intros df; [reflexivity|].
  cbn [fold_left]. now rewrite IH, cast_pure_length.
Qed.

Lemma fold_cast_other_column (schema : list (string * dtype)) (df : DataFrame) (c : string) :
  ~ In c (map fst schema) ->
  column_of c (rows (fold_left (cast_pure astype) schema df)) = column_of c (rows df).
Proof.
  revert df; induction schema as [|cd schema IH]; intros df Hc; [reflexivity|].
  cbn [fold_left]. rewrite IH by (intros H; apply Hc; now right).
  apply cast_pure_other_column. intros ->. apply Hc. now left.
Qed.

Lemma getitem_shaped (df : DataFrame) (c : string) :
  shaped labels df -> In c labels -> getitem df c = Ok (column_of c (rows df)).
Proof.
  intros [Hcols _] Hc. unfold getitem.
  replace (mem_str c (columns df)) with true; [reflexivity|].
  symmetry. apply mem_str_In. now rewrite Hcols.
Qed.

Lemma set_series_same (df : DataFrame) (c : string) :
  shaped labels df -> In c labels -> set_series df c (column_of c (rows df)) = df.
Proof.
  intros [Hcols Hrows] Hc. unfold set_series.
  replace (mem_str c (columns df)) with true
    by (symmetry; apply mem_str_In; now rewrite Hcols).
  rewrite (set_cells_same labels) by assumption. now destruct df.
Qed.

(** A cast of a settled column changes nothing. *)
Lemma cast_pure_settled (df : DataFrame) (c : string) (d : dtype) :
  shaped labels df -> In c labels ->
  settled astype d (column_of c (rows df)) ->
  cast_pure astype df (c, d) = df.
Proof.
  intros Hdf Hc Hset. unfold cast_pure. cbn [fst snd].
  destruct (castable d); [|reflexivity].
  rewrite (getitem_shaped df c Hdf Hc). unfold astype_ignore.
  destruct (astype d (column_of c (rows df))) as [s'|e] eqn:E.
  - rewrite (Hset s' E). now apply set_series_same.
  - destruct e; try reflexivity; now apply set_series_same.
Qed.

Hypothesis astype_length :
  forall d series series', astype d series = Ok series' ->
                           List.length series' = List.length series.
Hypothesis astype_idempotent :
  forall d series series', astype d series = Ok series' -> astype d series' = Ok series'.

(** Once cast, a column is settled. *)
Lemma cast_pure_settles (df : DataFrame) (c : string) (d : dtype) :
  shaped labels df -> In c labels -> castable d = true ->
  settled astype d (column_of c (rows (cast_pure astype df (c, d)))).
Proof.
  intros Hdf Hc Hd. unfold cast_pure. cbn [fst snd]. rewrite Hd.
  rewrite (getitem_shaped df c Hdf Hc). unfold astype_ignore.
  destruct (astype d (column_of c (rows df))) as [s'|e] eqn:E.
  - unfold set_series. cbn [rows]. rewrite column_set_cells_same.
    + intros s'' E'. rewrite (astype_idempotent _ _ _ E) in E'. congruence.
    + rewrite (astype_length _ _ _ E). unfold column_of. apply length_map.
  - assert (Hs : settled astype d (column_of c (rows df))).
    { intros s'' E'. congruence. }
    destruct e; try exact Hs;
      unfold set_series; cbn [rows];
      rewrite (set_cells_same labels) by (assumption || apply Hdf); exact Hs.
Qed.

Lemma fold_cast_settles (schema : list (string * dtype)) (df : DataFrame) :
  incl (map fst schema) labels -> NoDup (map fst schema) -> shaped labels df ->
  forall c d, In (c, d) schema -> castable d = true ->
              settled astype d (column_of c (rows (fold_left (cast_pure astype) schema df))).
Proof.
  revert df; induction schema as [|[c0 d0] schema IH]; intros df Hin Hnd Hdf c d Hcd Hd;
    [contradiction|].
  cbn [map fst] in Hnd. inversion Hnd as [|? ? Hfresh Hnd']; subst.
  assert (Hc0 : In c0 labels) by (apply Hin; now left).
  assert (Hin' : incl (map fst schema) labels) by (intros x Hx; apply Hin; now right).
  cbn [fold_left]. destruct Hcd as [[= -> ->]|Hcd].
  - rewrite fold_cast_other_column by exact Hfresh. now apply cast_pure_settles.
  - apply IH; try assumption. now apply cast_pure_shaped.
Qed.

(** A second pass of the cast loop over a frame it produced is the identity. *)
Lemma fold_cast_fixpoint (schema sub : list (string * dtype)) (df : DataFrame) :
  incl (map fst schema) labels -> NoDup (map fst schema) -> shaped labels df ->
  incl sub schema ->
  fold_left (cast_pure astype) sub (fold_left (cast_pure astype) schema df)
  = fold_left (cast_pure astype) schema df.
Proof.
  intros Hin Hnd Hdf. induction sub as [|[c d] sub IH]; intros Hsub; [reflexivity|].
  cbn [fold_left].
  assert (Hcd : In (c, d) schema) by (apply Hsub; now left).
  assert (Hstep : cast_pure astype (fold_left (cast_pure astype) schema df) (c, d)
                  = fold_left (cast_pure astype) schema df).
  { destruct (castable d) eqn:Hd.
    - apply cast_pure_settled.
      + now apply fold_cast_shaped.
      + apply Hin. apply in_map_iff. now exists (c, d).
      + now apply fold_cast_settles.
    - unfold cast_pure. cbn [snd]. now rewrite Hd. }
  rewrite Hstep. apply IH. intros x Hx. apply Hsub. now right.
Qed.

End CastLoop.

Lemma add_missing_id (df : DataFrame) (labels : list string) :
  (forall c, In c labels -> In c (columns df)) -> add_missing df labels = df.
Proof.
  unfold add_missing. induction labels as [|k labels IH]; intros H; [reflexivity|].
  cbn [fold_left].
  replace (mem_str k (columns df)) with true
    by (symmetry; apply mem_str_In, H; now left).
  apply IH. intros c Hc. apply H. now right.
Qed.

Lemma reindex_shaped_id (labels : list string) (df : DataFrame) :
  NoDup labels -> shaped labels df ->
  mkDF labels (map (project labels) (rows df)) = df.
Proof.
  intros Hnd [Hcols Hrows]. destruct df as [cols rs]. cbn [columns rows] in *. subst cols.
  f_equal. rewrite <- (map_id rs) at 2. apply map_ext_in. intros r Hr.
  rewrite Forall_forall in Hrows. specialize (Hrows r Hr).
  rewrite <- Hrows at 1. apply project_id. now rewrite Hrows.
Qed.

(** [enforce_schema] is idempotent on the frame it returns. *)
Lemma enforce_pure_idempotent (astype : dtype -> list value -> result (list value))
      (schema : list (string * dtype)) (df : DataFrame) :
  (forall d series series', astype d series = Ok series' ->
                            List.length series' = List.length series) ->
  (forall d series series', astype d series = Ok series' -> astype d series' = Ok series') ->
  NoDup (map fst schema) ->
  enforce_pure astype (enforce_pure astype df schema) schema = enforce_pure astype df schema.
Proof.
  intros Hlen Hidem Hnd.
  assert (Hsh : shaped (map fst schema) (enforce_pure astype df schema)).
  { apply fold_cast_shaped; [apply incl_refl | apply shaped_reindexed]. }
  unfold enforce_pure at 1. cbv zeta.
  rewrite add_missing_id by (intros c Hc; destruct Hsh as [-> _]; exact Hc).
  rewrite (reindex_shaped_id _ _ Hnd Hsh).
  unfold enforce_pure.
  apply (fold_cast_fixpoint astype (map fst schema) Hlen Hidem schema schema);
    [apply incl_refl | exact Hnd | apply shaped_reindexed | apply incl_refl].
Qed.

Section Nulls.

Variable astype : dtype -> list value -> result (list value).

Hypothesis astype_nulls :
  forall d series series', astype d series = Ok series' ->
                           all_null series -> all_null series'.

Lemma set_cells_nulls (rs : list row) (c : string) (vs : list value) :
  all_null vs -> all_null (column_of c rs) -> all_null (column_of c (set_cells rs c vs)).
Proof.
  unfold all_null, column_of.
  revert vs; induction rs as [|r rs IH]; intros [|v vs] Hvs Hrs; cbn [set_cells map] in *;
    try assumption.
  inversion Hvs; inversion Hrs; subst. constructor.
  - now rewrite cell_set_cell_same.
  - now apply IH.
Qed.

Lemma cast_pure_nulls (df : DataFrame) (cd : string * dtype) (c : string) :
  all_null (column_of c (rows df)) ->
  all_null (column_of c (rows (cast_pure astype df cd))).
Proof.
  intros Hnull.
  destruct (string_dec c (fst cd)) as [->|Hne];
    [|now rewrite cast_pure_other_column].
  unfold cast_pure. destruct (castable (snd cd)); [|exact Hnull].
  destruct (getitem df (fst cd)) as [series|e] eqn:Hget; [|exact Hnull].
  apply getitem_Ok in Hget. fold (column_of (fst cd) (rows df)) in Hget. subst series.
  unfold astype_ignore.
  destruct (astype (snd cd) _) as [s'|e] eqn:E.
  - apply set_cells_nulls; [|exact Hnull]. exact (astype_nulls _ _ _ E Hnull).
  - destruct e; try exact Hnull; now apply set_cells_nulls.
Qed.

Lemma fold_cast_nulls (schema : list (string * dtype)) (df : DataFrame) (c : string) :
  all_null (column_of c (rows df)) ->
  all_null (column_of c (rows (fold_left (cast_pure astype) schema df))).
Proof.
  revert df; induction schema as [|cd schema IH]; intros df H; [exact H|].
  cbn [fold_left]. now apply IH, cast_pure_nulls.
Qed.

(** A schema column the input lacks is null in every row of the result. *)
Lemma enforce_pure_missing_null (schema : list (string * dtype)) (df : DataFrame) (c : string) :
  In c (map fst schema) -> mem_str c (columns df) = false ->
  all_null (column_of c (rows (enforce_pure astype df schema))).
Proof.
  intros Hc Habsent. unfold enforce_pure. cbv zeta. apply fold_cast_nulls.
  cbn [rows]. unfold all_null, column_of. rewrite map_map.
  apply Forall_forall. intros v Hv. apply in_map_iff in Hv as (r & <- & Hr).
  rewrite cell_project by exact Hc.
  assert (H : Forall (fun r => cell r c = VNone) (rows (add_missing df (map fst schema)))).
  { apply add_missing_null; [|now apply add_missing_has].
    intros Hin. apply mem_str_In in Hin. congruence. }
  rewrite Forall_forall in H. now rewrite (H r Hr).
Qed.

End Nulls.

(** C4. Whatever the input frame, empty or with missing or extra columns,
    [enforce_schema] returns a frame with exactly the fifteen canonical
    columns in canonical order, row for row; a column the input lacks is
    null in every row, a column outside the schema is gone, and enforcing
    the schema on the result returns the result. The cast [astype] of
    pandas is a parameter: it keeps the length of a series, casting twice
    is casting once, and it casts a series of nulls to nulls. *)
Theorem enforce_schema_canonical :
  forall (astype : dtype -> list value -> result (list value)),
    (forall d series series', astype d series = Ok series' ->
                              List.length series' = List.length series) ->
    (forall d series series', astype d series = Ok series' -> astype d series' = Ok series') ->
    (forall d series series', astype d series = Ok series' ->
                              all_null series -> all_null series') ->
    forall (df : DataFrame) (w : World),
    exists (df' : DataFrame) (w' : World),
      enforce_schema astype df SILVER_SCHEMA w = (Ok df', w')
      /\ columns df' = SILVER_COLUMNS
      /\ SILVER_COLUMNS =
         [ "show_id"; "title"; "original_title"; "popularity"; "vote_average";
           "vote_count"; "first_air_date"; "genre_ids"; "origin_country";
           "poster_path"; "backdrop_path"; "overview"; "original_language";
           "ingestion_date"; "data_type" ]
      /\ Forall (fun r => map fst r = SILVER_COLUMNS) (rows df')
      /\ List.length (rows df') = List.length (rows df)
      /\ (forall c, In c SILVER_COLUMNS -> mem_str c (columns df) = false ->
                    all_null (column_of c (rows df')))
      /\ (forall w2, exists w3, enforce_schema astype df' SILVER_SCHEMA w2 = (Ok df', w3))
      /\ same_stores w w'.
Proof.
  intros astype Hlen Hidem Hnull df w.
  destruct (enforce_schema_pure astype df SILVER_SCHEMA w) as (w' & Hrun & Hst).
  exists (enforce_pure astype df SILVER_SCHEMA), w'.
  assert (Hsh : shaped SILVER_COLUMNS (enforce_pure astype df SILVER_SCHEMA)).
  { apply fold_cast_shaped; [apply incl_refl | apply shaped_reindexed]. }
  split; [exact Hrun|]. split; [apply Hsh|]. split; [reflexivity|].
  split; [apply Hsh|]. split.
  { unfold enforce_pure. cbv zeta. rewrite fold_cast_length. cbn [rows].
    now rewrite length_map, add_missing_rows_length. }
  split.
  { intros c Hc Habs. now apply enforce_pure_missing_null. }
  split; [|exact Hst].
  intros w2.
  destruct (enforce_schema_pure astype (enforce_pure astype df SILVER_SCHEMA) SILVER_SCHEMA w2)
    as (w3 & Hrun2 & _).
  exists w3. rewrite Hrun2. f_equal. f_equal.
  apply enforce_pure_idempotent; try assumption.
  repeat constructor; cbn; intuition discriminate.
Qed.

(** *** The sample cast meets the three assumptions *)

Lemma map_result_length {A B : Type} (f : A -> result B) (l : list A) (m : list B) :
  map_result f l = Ok m -> List.length m = List.length l.
Proof.
  revert m; induction l as [|x l IH]; intros m H; cbn [map_result] in H.
  - now injection H as <-.
  - destruct (f x); [|discriminate]. destruct (map_result f l); [|discriminate].
    injection H as <-. cbn [List.length]. now rewrite (IH _ eq_refl).
Qed.

Lemma map_result_fixpoint {A : Type} (f : A -> result A) (l m : list A) :
  (forall x y, f x = Ok y -> f y = Ok y) ->
  map_result f l = Ok m -> map_result f m = Ok m.
Proof.
  intros Hf. revert m; induction l as [|x l IH]; intros m H; cbn [map_result] in H.
  - now injection H as <-.
  - destruct (f x) as [y|] eqn:E; [|discriminate].
    destruct (map_result f l) as [ys|]; [|discriminate].
    injection H as <-. cbn [map_result]. now rewrite (Hf _ _ E), (IH _ eq_refl).
Qed.

Lemma sample_cast_cell_idempotent (d : dtype) (v v' : value) :
  Sample.cast_cell d v = Ok v' -> Sample.cast_cell d v' = Ok v'.
Proof.
  destruct d, v as [| b | z | f | s | l | dct]; cbn; intros H;
    try (injection H as <-; reflexivity); try discriminate.
  - destruct f; try (injection H as <-; reflexivity);
      destruct (Sample.is_integral _); try discriminate; now injection H as <-.
  - destruct (int_to_float z); [|discriminate]. now injection H as <-.
  - destruct (Sample.float_of_str s); [|discriminate]. now injection H as <-.
  - destruct f; try discriminate. now injection H as <-.
Qed.

Lemma sample_cast_cell_null (d : dtype) (v v' : value) :
  Sample.cast_cell d v = Ok v' -> isna v = true -> isna v' = true.
Proof.
  destruct d, v as [| b | z | f | s | l | dct]; cbn; intros H Hna;
    try discriminate; try (injection H as <-; reflexivity);
    destruct f; try discriminate; now injection H as <-.
Qed.

Lemma sample_astype_length (d : dtype) (series series' : list value) :
  Sample.astype d series = Ok series' -> List.length series' = List.length series.
Proof. apply map_result_length. Qed.

Lemma sample_astype_idempotent (d : dtype) (series series' : list value) :
  Sample.astype d series = Ok series' -> Sample.astype d series' = Ok series'.
Proof. apply map_result_fixpoint, sample_cast_cell_idempotent. Qed.

Lemma sample_astype_nulls (d : dtype) (series series' : list value) :
  Sample.astype d series = Ok series' -> all_null series -> all_null series'.
Proof.
  unfold Sample.astype, all_null.
  revert series'; induction series as [|v series IH]; intros series' H Hnull;
    cbn [map_result] in H.
  - injection H as <-. constructor.
  - destruct (Sample.cast_cell d v) as [v'|] eqn:E; [|discriminate].
    destruct (map_result (Sample.cast_cell d) series) as [vs|]; [|discriminate].
    injection H as <-. inversion Hnull; subst. constructor.
    + now apply (sample_cast_cell_null d v).
    + now apply IH.
Qed.

(** A frame of one record with two canonical fields and one foreign
    field, and the empty frame, through the theorem. *)
Lemma enforce_schema_canonical_example :
  let df := from_records [[("title", VStr "A"); ("show_id", VInt 1); ("rating", VStr "x")]] in
  (exists df' w',
      Sample.enforce_schema df SILVER_SCHEMA Sample.empty_world = (Ok df', w')
      /\ columns df' = SILVER_COLUMNS
      /\ Forall (fun r => map fst r = SILVER_COLUMNS) (rows df')
      /\ all_null (column_of "data_type" (rows df'))
      /\ exists w3, Sample.enforce_schema df' SILVER_SCHEMA w' = (Ok df', w3))
  /\ (exists df' w',
      Sample.enforce_schema (from_records []) SILVER_SCHEMA Sample.empty_world = (Ok df', w')
      /\ columns df' = SILVER_COLUMNS /\ rows df' = []).
Proof.
  pose proof (enforce_schema_canonical Sample.astype sample_astype_length
                sample_astype_idempotent sample_astype_nulls) as H.
  cbv zeta. split.
  - destruct (H (from_records [[("title", VStr "A"); ("show_id", VInt 1); ("rating", VStr "x")]])
               Sample.empty_world)
      as (df' & w' & Hrun & Hcols & _ & Hrows & _ & Hnull & Hidem & _).
    exists df', w'. repeat split; try assumption.
    + apply Hnull; [|reflexivity]. cbn. tauto.
    + apply Hidem.
  - destruct (H (from_records []) Sample.empty_world)
      as (df' & w' & Hrun & Hcols & _ & _ & Hlen & _).
    exists df', w'. repeat split; try assumption.
    destruct (rows df'); [reflexivity | discriminate].
Defined.

(** ** What a run of the orchestrator leaves behind *)

Section Runs.

Variable clock : nat -> instant.
Variable ENVIRONMENT : string.
Variable float_of_str : string -> option spec_float.
Variable astype : dtype -> list value -> result (list value).

Let normalize := normalize_show clock float_of_str.
Let loop := normalize_loop clock float_of_str.
Let process := process_bronze_file clock ENVIRONMENT float_of_str astype.

(** The normalizer leaves [data_type] unset. *)
Lemma normalize_show_unstamped (x : value) (w : World) (r : dict) (w' : World) :
  normalize x w = (Ok r, w') -> cell r "data_type" = VNone /\ same_stores w w'.
Proof.
  unfold normalize, normalize_show. destruct x; try discriminate.
  rewrite bind_lift. destruct (py_float float_of_str _); [|discriminate].
  unfold bind, datetime_now, ret. intros [= <- <-]. repeat split.
Qed.

(** The loop keeps at most one record per raw record, every one of them
    unstamped, and touches neither the store nor the metrics. *)
Lemma normalize_loop_returns (items : list value) :
  forall (acc : list dict) (w : World) (normalized : list dict) (w' : World),
    loop items acc w = (Ok normalized, w') ->
    same_stores w w'
    /\ (List.length normalized <= List.length acc + List.length items)%nat
    /\ (Forall (fun r => cell r "data_type" = VNone) acc ->
        Forall (fun r => cell r "data_type" = VNone) normalized).
Proof.
  induction items as [|x items IH]; intros acc w normalized w' H.
  - cbn in H. injection H as <- <-. repeat split; [cbn; lia | auto].
  - unfold loop in H. cbn [normalize_loop] in H. fold loop in H. fold normalize in H.
    unfold bind at 1 in H. unfold try_except in H. unfold bind at 1 in H.
    destruct (normalize x w) as [[r|e] w1] eqn:E.
    + apply normalize_show_unstamped in E as [Hr [Hs1 Hc1]].
      cbn [ret] in H. apply IH in H as ([Hs Hc] & Hlen & Hall).
      repeat split; try congruence.
      * rewrite length_app in Hlen. cbn [List.length] in *. lia.
      * intros Hacc. apply Hall. apply Forall_app. split; [exact Hacc|]. now constructor.
    + rewrite bind_lift in H. destruct (py_get x "id") as [i|e']; [|discriminate].
      unfold bind, logger, ret in H. cbn -[loop] in H.
      assert (Hw1 : w1 = w).
      { unfold normalize, normalize_show in E. destruct x; try (now injection E).
        rewrite bind_lift in E. destruct (py_float float_of_str _); [discriminate|].
        now injection E. }
      subst w1. apply IH in H as ([Hs Hc] & Hlen & Hall). cbn in Hs, Hc.
      repeat split; try assumption. cbn [List.length]. lia.
Qed.

Lemma bind_inv {A B : Type} (m : M A) (k : A -> M B) (w : World) (b : B) (w' : World) :
  bind m k w = (Ok b, w') ->
  exists a w1, m w = (Ok a, w1) /\ k a w1 = (Ok b, w').
Proof.
  unfold bind. destruct (m w) as [[a|e] w1]; [|discriminate].
  intros H. now exists a, w1.
Qed.

Lemma lift_inv {A : Type} (r : result A) (w : World) (a : A) (w' : World) :
  lift r w = (Ok a, w') -> r = Ok a /\ w' = w.
Proof. unfold lift. now intros [= -> <-]. Qed.

Lemma extract_partition_date_runs (key : string) (w : World) :
  exists date w', extract_partition_date clock key w = (Ok date, w') /\ same_stores w w'.
Proof.
  unfold extract_partition_date. destruct (Re.search date_pattern key).
  - eexists; eexists. split; [reflexivity | split; reflexivity].
  - eexists; eexists. split; [reflexivity | split; reflexivity].
Qed.

Lemma extract_data_type_runs (key : string) (w : World) :
  exists category w', extract_data_type key w = (Ok category, w') /\ same_stores w w'.
Proof.
  unfold extract_data_type. destruct (Re.search data_type_pattern key).
  - eexists; eexists. split; [reflexivity | split; reflexivity].
  - eexists; eexists. split; [reflexivity | split; reflexivity].
Qed.

(** What a run that returns has done: either the short circuit, or the
    whole pipeline, with one object written and one set of metrics
    published. *)
Lemma process_returns (bucket key : string) (w : World) (s : summary) (w' : World) :
  process bucket key w = (Ok s, w') ->
  exists d, s3_lookup w bucket key = Some (Json (VDict d)) /\
  let shows := dict_get_default d "results" (VList []) in
  (truthy shows = false /\ s = mkSummary 0 F64.zero None /\ same_stores w w')
  \/
  (truthy shows = true /\
   exists n items normalized w1 df c w2 category date metric_data,
     py_len shows = Ok n
     /\ py_iter shows = Ok items
     /\ loop items [] (logged (InfoFound n) w) = (Ok normalized, w1)
     /\ apply_data_quality_checks (from_records normalized) n w1 = (Ok (df, c), w2)
     /\ s = mkSummary (df_len (enforce_pure astype df SILVER_SCHEMA)) (pass_rate c)
                      (Some (silver_path category date))
     /\ s3_objects w' = (bucket, silver_path category date,
                         Parquet (enforce_pure astype df SILVER_SCHEMA)) :: s3_objects w
     /\ cloudwatch_puts w' = ("Tally/DataQuality", metric_data) :: cloudwatch_puts w
     /\ map Value metric_data = [ VFloat (F64.mul (pass_rate c) F64.hundred);
                                  VInt (final_count c); VInt (failed_count c) ]).
Proof.
  unfold process, process_bronze_file. intros H.
  apply bind_inv in H as (raw & wa & Hget & H).
  unfold get_json in Hget.
  destruct (s3_lookup w bucket key) as [[v|?]|] eqn:Hobj; try discriminate.
  injection Hget as -> <-.
  apply bind_inv in H as (shows & wb & Hshows & H).
  apply lift_inv in Hshows as [Hshows ->].
  destruct raw as [| | | | | |d]; try discriminate. injection Hshows as <-.
  exists d. split; [reflexivity|]. cbv zeta.
  destruct (truthy (dict_get_default d "results" (VList []))) eqn:Ht; cbn [negb] in H.
  - right. split; [reflexivity|].
    apply bind_inv in H as (n & wc & Hn & H). apply lift_inv in Hn as [Hn ->].
    apply bind_inv in H as ([] & wd & Hlog & H). injection Hlog as <-.
    fold (logged (InfoFound n) w) in H.
    apply bind_inv in H as (items & we & Hitems & H). apply lift_inv in Hitems as [Hitems ->].
    apply bind_inv in H as (normalized & w1 & Hloop & H).
    apply bind_inv in H as ([df c] & w2 & Hgate & H).
    apply bind_inv in H as (df2 & w3 & Henf & H).
    destruct (enforce_schema_pure astype df SILVER_SCHEMA w2) as (w3' & Henf' & Hs3 & Hc3).
    rewrite Henf' in Henf. injection Henf as <- <-.
    apply bind_inv in H as (date & w4 & Hdate & H).
    destruct (extract_partition_date_runs key w3') as (date' & w4' & Hdate' & Hs4 & Hc4).
    rewrite Hdate' in Hdate. injection Hdate as <- <-.
    apply bind_inv in H as (category & w5 & Hcat & H).
    destruct (extract_data_type_runs key w4') as (cat' & w5' & Hcat' & Hs5 & Hc5).
    rewrite Hcat' in Hcat. injection Hcat as <- <-.
    fold (silver_path cat' date') in H.
    destruct (normalize_loop_returns items [] _ _ _ Hloop) as ([Hs1 Hc1] & _ & _).
    apply quality_gate_returns in Hgate as Hg. cbv zeta in Hg.
    destruct Hg as (_ & _ & _ & _ & _ & _ & _ & _ & _ & _ & _ & Hs2 & Hc2).
    cbn [logged s3_objects cloudwatch_puts] in Hs1, Hc1.
    unfold bind, write_to_silver, publish_quality_metrics, bind, upload_file, logger,
      datetime_now, put_metric_data, ret in H.
    cbn [s3_objects cloudwatch_puts log now_calls] in H.
    injection H as <- <-.
    exists n, items, normalized, w1, df, c, w2, cat', date'.
    eexists. cbn [s3_objects cloudwatch_puts].
    repeat split; try assumption; try reflexivity; try congruence.
    + rewrite Hc5, Hc4, Hc3, Hc2, Hc1. reflexivity.
    + reflexivity.
  - left. split; [reflexivity|].
    unfold bind, logger, ret in H. injection H as <- <-. repeat split.
Qed.

End Runs.

(** ** The data_type column of what is written *)

Lemma cell_project_none (cols : list string) (r : row) (c : string) :
  cell r c = VNone -> cell (project cols r) c = VNone.
Proof.
  intros H. unfold project, cell at 1, dict_get.
  induction cols as [|k cols IH]; [reflexivity|].
  cbn [map dict_lookup]. destruct (String.eqb k c) eqn:E; [|exact IH].
  apply String.eqb_eq in E. now subst.
Qed.

Lemma Forall_select {A : Type} (P : A -> Prop) (l : list A) (m : list bool) :
  Forall P l -> Forall P (select l m).
Proof.
  intros H. revert m; induction H as [|x l Hx _ IH]; intros [|b m]; cbn [select];
    try constructor.
  destruct b; [constructor; [exact Hx | apply IH] | apply IH].
Qed.

Lemma Forall_filter {A : Type} (P : A -> Prop) (f : A -> bool) (l : list A) :
  Forall P l -> Forall P (filter f l).
Proof.
  rewrite !Forall_forall. intros H x Hx. apply filter_In in Hx as [Hx _]. now apply H.
Qed.

Lemma add_missing_keeps_null (df : DataFrame) (labels : list string) (c : string) :
  Forall (fun r => cell r c = VNone) (rows df) ->
  Forall (fun r => cell r c = VNone) (rows (add_missing df labels)).
Proof.
  unfold add_missing. revert df; induction labels as [|k labels IH]; intros df H; [exact H|].
  cbn [fold_left]. apply IH. destruct (mem_str k (columns df)); [exact H|].
  unfold set_scalar. cbn [rows]. apply Forall_forall. intros r' Hr'.
  apply in_map_iff in Hr' as (r & <- & Hr). rewrite Forall_forall in H.
  destruct (string_dec c k) as [->|Hne].
  - apply cell_set_cell_same.
  - rewrite cell_set_cell_other by exact Hne. now apply H.
Qed.

(** C1, on the code: nobody stamps [data_type]. Whenever the orchestrator
    writes a Silver object, the [data_type] of every record in it is null:
    the normalizer leaves the field unset, the partition category only
    goes into the object key and the metric dimensions. The cast of pandas
    is assumed to cast nulls to nulls. *)
Theorem written_data_type_is_null :
  forall (clock : nat -> instant) (ENVIRONMENT : string)
         (float_of_str : string -> option spec_float)
         (astype : dtype -> list value -> result (list value)),
    (forall d series series', astype d series = Ok series' ->
                              all_null series -> all_null series') ->
    forall (bucket key : string) (w : World) (s : summary) (w' : World) (k : string),
      process_bronze_file clock ENVIRONMENT float_of_str astype bucket key w = (Ok s, w') ->
      silver_key s = Some k ->
      exists df,
        s3_objects w' = (bucket, k, Parquet df) :: s3_objects w
        /\ records_processed s = df_len df
        /\ all_null (column_of "data_type" (rows df)).
Proof.
  intros clock ENVIRONMENT float_of_str astype Hnull bucket key w s w' k Hrun Hk.
  apply process_returns in Hrun as (d & _ & [(_ & -> & _)|(_ & Hrun)]); [discriminate|].
  destruct Hrun as (n & items & normalized & w1 & df & c & w2 & category & date & md
                    & _ & _ & Hloop & Hgate & -> & Hs3 & _).
  cbn [silver_key] in Hk. injection Hk as <-.
  exists (enforce_pure astype df SILVER_SCHEMA). split; [exact Hs3|]. split; [reflexivity|].
  apply normalize_loop_returns in Hloop as (_ & _ & Hun). specialize (Hun (Forall_nil _)).
  apply quality_gate_returns in Hgate. cbv zeta in Hgate. destruct Hgate as (Hrows & _).
  assert (Hdf : Forall (fun r => cell r "data_type" = VNone) (rows df)).
  { rewrite Hrows. unfold dedup_first, dedup_from. apply Forall_select.
    do 3 apply Forall_filter. unfold from_records. cbn [rows].
    apply Forall_forall. intros r' Hr'. apply in_map_iff in Hr' as (r & <- & Hr).
    apply cell_project_none. rewrite Forall_forall in Hun. now apply Hun. }
  unfold enforce_pure. cbv zeta. apply fold_cast_nulls; [exact Hnull|].
  cbn [rows]. unfold all_null, column_of. rewrite map_map.
  apply Forall_forall. intros v Hv. apply in_map_iff in Hv as (r & <- & Hr).
  rewrite cell_project by (cbn; tauto).
  pose proof (add_missing_keeps_null df (map fst SILVER_SCHEMA) "data_type" Hdf) as H.
  rewrite Forall_forall in H. rewrite (H r Hr). reflexivity.
Qed.

(** One good show under [shows/trending/]: the row written has a null
    [data_type]. *)
Lemma written_data_type_example :
  let key := "bronze/shows/trending/dt=2024-03-01/x.json" in
  let w := Sample.bronze_world "tally" key
             (VDict [("results", VList [VDict [("id", VInt 1); ("name", VStr "A");
                                               ("popularity", VInt 3)]])]) in
  exists df,
    s3_objects (final (Sample.process_bronze_file "tally" key) w)
    = ("tally", "silver/shows/trending/dt=2024-03-01/data.parquet", Parquet df) :: s3_objects w
    /\ df_len df = 1
    /\ all_null (column_of "data_type" (rows df)).
Proof.
  intros key w. unfold final, Sample.process_bronze_file.
  destruct (process_bronze_file Sample.clock Sample.ENVIRONMENT Sample.float_of_str
              Sample.astype "tally" key w) as [[s|e] w'] eqn:E.
  - assert (Hs : s = mkSummary 1 F64.one
                   (Some "silver/shows/trending/dt=2024-03-01/data.parquet")).
    { apply (f_equal fst) in E. vm_compute in E. now injection E as <-. }
    pose proof (written_data_type_is_null Sample.clock Sample.ENVIRONMENT Sample.float_of_str
                  Sample.astype sample_astype_nulls "tally" key w s w'
                  "silver/shows/trending/dt=2024-03-01/data.parquet" E) as H.
    destruct H as (df & Hs3 & Hlen & Hnull); [rewrite Hs; reflexivity|].
    exists df. cbn [snd]. split; [exact Hs3|]. split; [|exact Hnull].
    rewrite <- Hlen, Hs. reflexivity.
  - exfalso. apply (f_equal fst) in E. vm_compute in E. discriminate.
Defined.

(** ** binary64 division of a count by a larger count *)

Module F64Facts.

Lemma fexp_eq (x : Z) : fexp 53 1024 x = Z.max (x - 53) (-1074).
Proof. reflexivity. Qed.

Lemma digits2_pos_spec (p : positive) :
  2 ^ (Zpos (digits2_pos p) - 1) <= Zpos p < 2 ^ Zpos (digits2_pos p).
Proof.
  induction p as [p IH|p IH|]; cbn [digits2_pos].
  - rewrite Pos2Z.inj_succ. change (Zpos p~1) with (2 * Zpos p + 1).
    replace (Z.succ (Zpos (digits2_pos p)) - 1) with (Z.succ (Zpos (digits2_pos p) - 1)) by lia.
    rewrite !Z.pow_succ_r by lia. lia.
  - rewrite Pos2Z.inj_succ. change (Zpos p~0) with (2 * Zpos p).
    replace (Z.succ (Zpos (digits2_pos p)) - 1) with (Z.succ (Zpos (digits2_pos p) - 1)) by lia.
    rewrite !Z.pow_succ_r by lia. lia.
  - cbn. lia.
Qed.

(** A number below [2^k] has at most [k] binary digits. *)
Lemma Zdigits2_le (x k : Z) : 0 <= x < 2 ^ k -> 0 <= k -> Zdigits2 x <= k.
Proof.
  intros [H0 Hk] Hk0. destruct x as [|p|p]; cbn [Zdigits2]; [exact Hk0| |lia].
  pose proof (digits2_pos_spec p) as [Hlo _].
  assert (H : 2 ^ (Zpos (digits2_pos p) - 1) < 2 ^ k) by lia.
  apply Z.pow_lt_mono_r_iff in H; lia.
Qed.

Lemma shr_1_m (mrs : shr_record) :
  0 <= shr_m mrs -> shr_m (shr_1 mrs) = shr_m mrs / 2.
Proof.
  destruct mrs as [m r s]. cbn [shr_m]. intros H.
  destruct m as [|[p|p|]|p]; cbn [shr_1 shr_m]; try reflexivity; try lia.
  - apply (Z.div_unique _ _ _ 1); lia.
  - apply (Z.div_unique _ _ _ 0); lia.
Qed.

Lemma shr_iter_m (p : positive) :
  forall mrs, 0 <= shr_m mrs ->
              shr_m (iter_pos shr_1 p mrs) = shr_m mrs / 2 ^ Zpos p.
Proof.
  induction p as [p IH|p IH|]; intros mrs H; cbn [iter_pos].
  - assert (H1 : 0 <= shr_m (shr_1 mrs)) by (rewrite shr_1_m by exact H; apply Z.div_pos; lia).
    assert (H2 : 0 <= shr_m (iter_pos shr_1 p (shr_1 mrs)))
      by (rewrite IH by exact H1; apply Z.div_pos; [exact H1 | apply Z.pow_pos_nonneg; lia]).
    rewrite IH by exact H2. rewrite IH by exact H1. rewrite shr_1_m by exact H.
    rewrite !Z.div_div by (try apply Z.pow_pos_nonneg; try apply Z.pow_nonzero; lia).
    f_equal. change (Zpos p~1) with (2 * Zpos p + 1).
    replace (2 * Zpos p + 1) with (1 + Zpos p + Zpos p) by lia.
    rewrite !Z.pow_add_r by lia. lia.
  - assert (H2 : 0 <= shr_m (iter_pos shr_1 p mrs))
      by (rewrite IH by exact H; apply Z.div_pos; [exact H | apply Z.pow_pos_nonneg; lia]).
    rewrite IH by exact H2. rewrite IH by exact H.
    rewrite Z.div_div by (try apply Z.pow_pos_nonneg; try apply Z.pow_nonzero; lia).
    f_equal. change (Zpos p~0) with (2 * Zpos p).
    replace (2 * Zpos p) with (Zpos p + Zpos p) by lia.
    rewrite Z.pow_add_r by lia. reflexivity.
  - rewrite shr_1_m by exact H. reflexivity.
Qed.

Lemma shr_record_of_loc_m (m : Z) (l : location) : shr_m (shr_record_of_loc m l) = m.
Proof. destruct l as [|[]]; reflexivity. Qed.

(** A shift to the exponent of the format either leaves the mantissa or
    divides it by a power of two. *)
Lemma shr_fexp_cases (m e : Z) (l : location) :
  0 <= m ->
  let n := fexp 53 1024 (Zdigits2 m + e) - e in
  (n <= 0 /\ shr_fexp 53 1024 m e l = (shr_record_of_loc m l, e))
  \/ (0 < n /\ exists mrs, shr_fexp 53 1024 m e l = (mrs, e + n)
                          /\ shr_m mrs = m / 2 ^ n).
Proof.
  intros Hm n. unfold shr_fexp. fold n. unfold shr.
  destruct n as [|p|p] eqn:En.
  - left. split; [lia | reflexivity].
  - right. split; [lia|]. eexists. split; [reflexivity|].
    rewrite shr_iter_m; rewrite shr_record_of_loc_m; [reflexivity | exact Hm].
  - left. split; [lia | reflexivity].
Qed.

Lemma round_nearest_even_bounds (m : Z) (l : location) :
  m <= round_nearest_even m l <= m + 1.
Proof.
  unfold round_nearest_even. destruct l as [|[]]; try destruct (Z.even m); lia.
Qed.

(** Rounding a value below one: the result is zero or a finite number
    with an exponent of at most [-52] and a mantissa of at most [2^-e]. *)
Lemma round_aux_below_one (q e : Z) (l : location) :
  0 <= q < 2 ^ (- e) -> e <= -53 ->
  binary_round_aux 53 1024 false q e l = S754_zero false
  \/ exists m3 e3, binary_round_aux 53 1024 false q e l = S754_finite false m3 e3
                   /\ e3 <= -52 /\ Zpos m3 <= 2 ^ (- e3).
Proof.
  intros [Hq0 Hq] He. unfold binary_round_aux.
  (* first shift *)
  assert (H1 : exists mrs1 e1, shr_fexp 53 1024 q e l = (mrs1, e1)
                               /\ e1 <= -53 /\ 0 <= shr_m mrs1 < 2 ^ (- e1)).
  { destruct (shr_fexp_cases q e l Hq0) as [[Hn ->]|[Hn (mrs & -> & Hm)]].
    - eexists; eexists. split; [reflexivity|]. rewrite shr_record_of_loc_m. lia.
    - eexists; eexists. split; [reflexivity|].
      assert (HD : Zdigits2 q <= - e) by (apply Zdigits2_le; lia).
      rewrite fexp_eq in *.
      set (n := Z.max (Zdigits2 q + e - 53) (-1074) - e) in *.
      assert (Hn' : e + n <= -53) by lia.
      split; [exact Hn'|]. rewrite Hm. split; [apply Z.div_pos; [lia | apply Z.pow_pos_nonneg; lia]|].
      apply Z.div_lt_upper_bound; [apply Z.pow_pos_nonneg; lia|].
      rewrite <- Z.pow_add_r by lia. now replace (n + - (e + n)) with (- e) by lia. }
  destruct H1 as (mrs1 & e1 & -> & He1 & Hm1).
  (* rounding *)
  pose proof (round_nearest_even_bounds (shr_m mrs1) (loc_of_shr_record mrs1)) as Hr.
  set (m2 := round_nearest_even (shr_m mrs1) (loc_of_shr_record mrs1)) in *.
  assert (Hm2 : 0 <= m2 <= 2 ^ (- e1)) by lia.
  (* second shift *)
  assert (H3 : exists mrs3 e3, shr_fexp 53 1024 m2 e1 loc_Exact = (mrs3, e3)
                               /\ e3 <= -52 /\ 0 <= shr_m mrs3 <= 2 ^ (- e3)).
  { destruct (shr_fexp_cases m2 e1 loc_Exact (proj1 Hm2)) as [[Hn ->]|[Hn (mrs & -> & Hm)]].
    - eexists; eexists. split; [reflexivity|]. cbn [shr_record_of_loc shr_m]. lia.
    - eexists; eexists. split; [reflexivity|].
      assert (HD : Zdigits2 m2 <= - e1 + 1).
      { apply Zdigits2_le; [|lia]. rewrite Z.pow_add_r, Z.pow_1_r by lia.
        assert (0 < 2 ^ (- e1)) by (apply Z.pow_pos_nonneg; lia). lia. }
      rewrite fexp_eq in *.
      set (n := Z.max (Zdigits2 m2 + e1 - 53) (-1074) - e1) in *.
      assert (Hn' : e1 + n <= -52) by lia.
      split; [exact Hn'|]. rewrite Hm. split; [apply Z.div_pos; [lia | apply Z.pow_pos_nonneg; lia]|].
      apply Z.div_le_upper_bound; [apply Z.pow_pos_nonneg; lia|].
      rewrite <- Z.pow_add_r by lia. now replace (n + - (e1 + n)) with (- e1) by lia. }
  destruct H3 as (mrs3 & e3 & -> & He3 & Hm3).
  destruct (shr_m mrs3) as [|m3|m3]; [now left | | lia].
  right. exists m3, e3. split; [|split; [exact He3 | apply Hm3]].
  replace (e3 <=? 1024 - 53) with true; [reflexivity|].
  symmetry. apply Z.leb_le. lia.
Qed.

Lemma div_eucl_fst_snd (a b q r : Z) :
  Z.div_eucl a b = (q, r) -> q = a / b /\ r = a mod b.
Proof. unfold Z.div, Z.modulo. now intros ->. Qed.

(** The shape of a quotient below one. *)
Lemma div_Z_below (m n : positive) :
  Zpos m < Zpos n ->
  F64.div_Z (Zpos m) (Zpos n) = S754_zero false
  \/ exists m3 e3, F64.div_Z (Zpos m) (Zpos n) = S754_finite false m3 e3
                   /\ e3 <= -52 /\ Zpos m3 <= 2 ^ (- e3).
Proof.
  intros Hmn. unfold F64.div_Z, SFdiv, SFdiv_core_binary, F64.prec, F64.emax.
  cbn [xorb].
  assert (Hd : Zdigits2 (Zpos m) <= Zdigits2 (Zpos n)).
  { apply Zdigits2_le; [|cbn; lia].
    pose proof (digits2_pos_spec n). cbn [Zdigits2]. lia. }
  rewrite fexp_eq.
  set (e' := Z.min (Z.max (Zdigits2 (Zpos m) + 0 - (Zdigits2 (Zpos n) + 0) - 53) (-1074)) (0 - 0)).
  assert (He : e' <= -53) by (subst e'; lia).
  assert (He' : -1074 <= e') by (subst e'; lia).
  destruct (0 - 0 - e') as [|s|s] eqn:Es; try lia.
  rewrite Z.shiftl_mul_pow2 by lia.
  destruct (Z.div_eucl (Zpos m * 2 ^ Zpos s) (Zpos n)) as [q r] eqn:Eq.
  apply div_eucl_fst_snd in Eq as [-> _].
  apply round_aux_below_one; [|exact He].
  replace (- e') with (Zpos s) by lia.
  assert (Hp : 0 < 2 ^ Zpos s) by (apply Z.pow_pos_nonneg; lia).
  split.
  - apply Z.div_pos; lia.
  - apply Z.div_lt_upper_bound; [lia|]. apply Z.mul_lt_mono_pos_r; assumption.
Qed.

(** A count divided by itself is one. *)
Lemma div_Z_self (m : positive) : F64.div_Z (Zpos m) (Zpos m) = F64.one.
Proof.
  unfold F64.div_Z, SFdiv, SFdiv_core_binary, F64.prec, F64.emax. cbn [xorb].
  set (d := Zdigits2 (Zpos m)). replace (d + 0 - (d + 0)) with 0 by lia.
  change (Z.min (fexp 53 1024 0) (0 - 0)) with (-53).
  change (0 - 0 - -53) with 53. cbv beta iota.
  rewrite Z.shiftl_mul_pow2 by lia.
  destruct (Z.div_eucl (Zpos m * 2 ^ 53) (Zpos m)) as [q r] eqn:Eq.
  apply div_eucl_fst_snd in Eq as [-> ->].
  rewrite (Z.mul_comm (Zpos m)), Z.div_mul, Z.mod_mul by lia.
  replace (new_location (Zpos m) 0) with loc_Exact
    by (unfold new_location; destruct (Z.even (Zpos m)); reflexivity).
  vm_compute. reflexivity.
Qed.

Lemma leb_same_exponent (m1 m2 : positive) (e : Z) :
  Zpos m1 <= Zpos m2 ->
  SFleb (S754_finite false m1 e) (S754_finite false m2 e) = true.
Proof.
  intros H. unfold SFleb, SFcompare. rewrite Z.compare_refl, Pos.compare_cont_spec.
  cbn [Pos.switch_Eq]. destruct (Pos.compare_spec m1 m2); try reflexivity. lia.
Qed.

Lemma leb_smaller_exponent (m1 m2 : positive) (e1 e2 : Z) :
  e1 < e2 -> SFleb (S754_finite false m1 e1) (S754_finite false m2 e2) = true.
Proof.
  intros H. unfold SFleb, SFcompare.
  destruct (Z.compare_spec e1 e2); try reflexivity; lia.
Qed.

(** The quotient of a count by a count that is not smaller lies in
    [[0.0, 1.0]], and is finite. *)
Lemma div_Z_unit_interval (a b : Z) :
  0 <= a <= b -> 0 < b ->
  F64.leb F64.zero (F64.div_Z a b) = true
  /\ F64.leb (F64.div_Z a b) F64.one = true
  /\ F64.is_inf (F64.div_Z a b) = false.
Proof.
  intros [Ha Hab] Hb.
  destruct a as [|m|m]; [split; [|split]; reflexivity | | lia].
  destruct b as [|n|n]; try lia.
  destruct (Z.eq_dec (Zpos m) (Zpos n)) as [E|Hne].
  - injection E as ->. rewrite div_Z_self. split; [|split]; reflexivity.
  - destruct (div_Z_below m n) as [->|(m3 & e3 & -> & He & Hm)];
      [lia | split; [|split]; reflexivity |].
    split; [reflexivity|]. split; [|reflexivity].
    unfold F64.leb, F64.one.
    destruct (Z.eq_dec e3 (-52)) as [->|Hlt].
    + apply leb_same_exponent.
      assert (Hpow : 2 ^ (- -52) = 4503599627370496) by (vm_compute; reflexivity).
      rewrite Hpow in Hm. exact Hm.
    + apply leb_smaller_exponent. lia.
Qed.

End F64Facts.

(** ** The quality report *)

Lemma length_select {A : Type} (l : list A) (m : list bool) :
  (List.length (select l m) <= List.length l)%nat.
Proof.
  revert m; induction l as [|x l IH]; intros [|b m]; cbn [select List.length]; try lia.
  specialize (IH m). destruct b; cbn [List.length]; lia.
Qed.

Lemma length_filter_le {A : Type} (f : A -> bool) (l : list A) :
  (List.length (filter f l) <= List.length l)%nat.
Proof.
  induction l as [|x l IH]; [reflexivity|].
  cbn [filter]. destruct (f x); cbn [List.length]; lia.
Qed.

Lemma length_list_ascii (s : string) :
  List.length (list_ascii_of_string s) = String.length s.
Proof. induction s as [|c s IH]; [reflexivity|]. cbn. now rewrite IH. Qed.

(** [len(x)] counts the items the loop visits, and a truthy sized object
    is not empty. *)
Lemma py_len_iter (x : value) (n : Z) (items : list value) :
  py_len x = Ok n -> py_iter x = Ok items -> n = Z.of_nat (List.length items).
Proof.
  destruct x; cbn; try discriminate; intros [= <-] [= <-];
    now rewrite ?length_map, ?length_list_ascii.
Qed.

Lemma truthy_len_pos (x : value) (n : Z) : truthy x = true -> py_len x = Ok n -> 0 < n.
Proof.
  destruct x as [| | | |s|l|d]; cbn; try discriminate; intros Ht [= <-].
  - destruct s; [discriminate | cbn; lia].
  - destruct l; [discriminate | cbn; lia].
  - destruct d; [discriminate | cbn; lia].
Qed.

(** The report of the gate, whatever count it is given. *)
Lemma gate_report (df : DataFrame) (n : Z) (w : World)
      (df' : DataFrame) (c : checks) (w' : World) :
  apply_data_quality_checks df n w = (Ok (df', c), w') ->
  initial_count c = n
  /\ failed_count c = initial_count c - final_count c
  /\ 0 <= final_count c <= df_len df
  /\ final_count c = df_len df'
  /\ (n <= 0 -> pass_rate c = F64.zero)
  /\ (0 < n -> pass_rate c = F64.div_Z (final_count c) (initial_count c))
  /\ (df_len df <= n ->
      F64.leb F64.zero (pass_rate c) = true /\ F64.leb (pass_rate c) F64.one = true).
Proof.
  intros H. apply quality_gate_returns in H. cbv zeta in H.
  destruct H as (Hrows & _ & _ & _ & _ & _ & Hfin & Hinit & Hfail & Hrate & _).
  assert (Hle : 0 <= final_count c <= df_len df).
  { rewrite Hfin, Hrows. unfold df_len, dedup_first, dedup_from. split; [lia|].
    apply Nat2Z.inj_le.
    etransitivity; [apply length_select|].
    etransitivity; [apply length_filter_le|].
    etransitivity; [apply length_filter_le|]. apply length_filter_le. }
  assert (Hpos : 0 < n -> pass_rate c = F64.div_Z (final_count c) n).
  { intros Hn. replace (n >? 0) with true in Hrate by (symmetry; apply Z.gtb_lt; lia).
    unfold py_truediv in Hrate. replace (n =? 0) with false in Hrate
      by (symmetry; apply Z.eqb_neq; lia).
    destruct (F64.is_inf _); [discriminate|]. now injection Hrate as <-. }
  assert (Hzero : n <= 0 -> pass_rate c = F64.zero).
  { intros Hn. replace (n >? 0) with false in Hrate.
    - now injection Hrate as <-.
    - symmetry. destruct (n >? 0) eqn:E; [|reflexivity]. apply Z.gtb_lt in E. lia. }
  rewrite Hinit.
  split; [reflexivity|]. split; [exact Hfail|]. split; [exact Hle|].
  split; [exact Hfin|]. split; [exact Hzero|]. split; [exact Hpos|].
  intros Hn'. destruct (Z_le_gt_dec n 0) as [Hn|Hn].
  - rewrite (Hzero Hn). split; reflexivity.
  - rewrite (Hpos ltac:(lia)).
    destruct (F64Facts.div_Z_unit_interval (final_count c) n) as (H0 & H1 & _); [lia|lia|].
    split; assumption.
Qed.

Lemma enforce_pure_length (astype : dtype -> list value -> result (list value))
      (df : DataFrame) (schema : list (string * dtype)) :
  df_len (enforce_pure astype df schema) = df_len df.
Proof.
  unfold df_len, enforce_pure. cbv zeta. rewrite fold_cast_length. cbn [rows].
  now rewrite length_map, add_missing_rows_length.
Qed.

(** C6. The report of the gate has [failed_count = initial_count -
    final_count]; [pass_rate] is [0.0] when [initial_count] is not positive
    and otherwise the binary64 quotient [final_count / initial_count]. In
    every batch the orchestrator processes, [initial_count] is the number
    of raw records, counted before normalization, [final_count] is at most
    that number, and [pass_rate] lies in [[0.0, 1.0]]; the summary and the
    published metrics carry these numbers. The short circuit reports
    [0.0]. *)
Theorem quality_report_arithmetic :
  (forall (df : DataFrame) (n : Z) (w : World) (df' : DataFrame) (c : checks) (w' : World),
      apply_data_quality_checks df n w = (Ok (df', c), w') ->
      initial_count c = n
      /\ failed_count c = initial_count c - final_count c
      /\ (n <= 0 -> pass_rate c = F64.zero)
      /\ (0 < n -> pass_rate c = F64.div_Z (final_count c) (initial_count c))
      /\ (df_len df <= n ->
          F64.leb F64.zero (pass_rate c) = true /\ F64.leb (pass_rate c) F64.one = true))
  /\
  (forall (clock : nat -> instant) (ENVIRONMENT : string)
          (float_of_str : string -> option spec_float)
          (astype : dtype -> list value -> result (list value))
          (bucket key : string) (w : World) (s : summary) (w' : World),
      process_bronze_file clock ENVIRONMENT float_of_str astype bucket key w = (Ok s, w') ->
      exists d, s3_lookup w bucket key = Some (Json (VDict d)) /\
        let shows := dict_get_default d "results" (VList []) in
        (truthy shows = false
         /\ quality_pass_rate s = F64.zero
         /\ records_processed s = 0
         /\ cloudwatch_puts w' = cloudwatch_puts w)
        \/
        (exists (n : Z) (c : checks) (metric_data : list metric_datum),
            py_len shows = Ok n
            /\ 0 < n
            /\ initial_count c = n
            /\ 0 <= final_count c <= initial_count c
            /\ failed_count c = initial_count c - final_count c
            /\ pass_rate c = F64.div_Z (final_count c) (initial_count c)
            /\ F64.leb F64.zero (pass_rate c) = true
            /\ F64.leb (pass_rate c) F64.one = true
            /\ records_processed s = final_count c
            /\ quality_pass_rate s = pass_rate c
            /\ cloudwatch_puts w' = ("Tally/DataQuality", metric_data) :: cloudwatch_puts w
            /\ map Value metric_data = [ VFloat (F64.mul (pass_rate c) F64.hundred);
                                         VInt (final_count c); VInt (failed_count c) ])).
Proof.
  split.
  - intros df n w df' c w' H. apply gate_report in H.
    destruct H as (H1 & H2 & _ & _ & H3 & H4 & H5). repeat split; try assumption; now apply H5.
  - intros clock ENVIRONMENT float_of_str astype bucket key w s w' Hrun.
    apply process_returns in Hrun as (d & Hobj & Hrun). exists d. split; [exact Hobj|].
    cbv zeta in *. destruct Hrun as [(Ht & -> & _ & Hc)|(Ht & Hrun)].
    + left. repeat split; try assumption; reflexivity.
    + right.
      destruct Hrun as (n & items & normalized & w1 & df & c & w2 & category & date & md
                        & Hn & Hitems & Hloop & Hgate & -> & _ & Hcw & Hvals).
      pose proof (truthy_len_pos _ _ Ht Hn) as Hpos.
      pose proof (py_len_iter _ _ _ Hn Hitems) as Hcount.
      apply normalize_loop_returns in Hloop as (_ & Hlen & _).
      apply gate_report in Hgate as (Hinit & Hfail & Hfin & Hfin' & _ & Hrate & Hunit).
      assert (Hdf : df_len (from_records normalized) <= n).
      { unfold df_len, from_records. cbn [rows]. rewrite length_map.
        simpl in Hlen. unfold dict, row in *. lia. }
      destruct (Hunit Hdf) as [H0 H1].
      exists n, c, md. cbn [records_processed quality_pass_rate].
      rewrite enforce_pure_length.
      split; [exact Hn|]. split; [exact Hpos|]. split; [exact Hinit|].
      split; [rewrite Hinit; lia|]. split; [exact Hfail|].
      split; [exact (Hrate Hpos)|]. split; [exact H0|]. split; [exact H1|].
      split; [symmetry; exact Hfin'|]. split; [reflexivity|].
      split; [exact Hcw | exact Hvals].
Qed.

(** The scenario's batch through the second part of the theorem: five raw
    records counted, two kept, three failed, [pass_rate = 0.4]. *)
Lemma quality_report_scenario :
  exists (s : summary) (w' : World) (c : checks) (metric_data : list metric_datum),
    Sample.process_bronze_file "tally" scenario_key scenario_world = (Ok s, w')
    /\ initial_count c = 5
    /\ failed_count c = initial_count c - final_count c
    /\ F64.leb F64.zero (pass_rate c) = true
    /\ F64.leb (pass_rate c) F64.one = true
    /\ quality_pass_rate s = pass_rate c
    /\ quality_pass_rate s = F64.decimal 4 1
    /\ cloudwatch_puts w' = [("Tally/DataQuality", metric_data)]
    /\ map Value metric_data = [ VFloat (F64.mul (pass_rate c) F64.hundred);
                                 VInt (final_count c); VInt (failed_count c) ].
Proof.
  unfold Sample.process_bronze_file.
  destruct (process_bronze_file Sample.clock Sample.ENVIRONMENT Sample.float_of_str
              Sample.astype "tally" scenario_key scenario_world)
    as [[s|e] w'] eqn:E.
  - assert (Hs : quality_pass_rate s = F64.decimal 4 1).
    { apply (f_equal fst) in E. vm_compute in E. now injection E as <-. }
    destruct (proj2 quality_report_arithmetic Sample.clock Sample.ENVIRONMENT
                Sample.float_of_str Sample.astype "tally" scenario_key scenario_world s w' E)
      as (d & Hobj & H).
    vm_compute in Hobj. injection Hobj as <-. cbv zeta in H.
    destruct H as [(Ht & _)|(n & c & md & Hn & _ & Hinit & _ & Hfail & _ & H0 & H1 & _ & Hq & Hcw & Hv)].
    { vm_compute in Ht. discriminate. }
    vm_compute in Hn. injection Hn as <-.
    exists s, w', c, md.
    split; [reflexivity|]. split; [exact Hinit|]. split; [exact Hfail|].
    split; [exact H0|]. split; [exact H1|]. split; [exact Hq|]. split; [exact Hs|].
    split; [exact Hcw | exact Hv].
  - exfalso. apply (f_equal fst) in E. vm_compute in E. discriminate.
Defined.

(** * Further properties of the handler *)

(** ** What the resolvers return, read backwards *)

(** X1. The date [extract_partition_date] returns is either a token
    [YYYY-MM-DD] that stands in the key right after a [dt=], and then the
    call has no effect; or the reading of the clock, and then the key holds
    no [dt=] followed by such a token anywhere, the call reads the clock
    once and logs one warning. *)
Theorem partition_date_from_key_or_clock :
  forall (clock : nat -> instant) (key : string) (w : World),
    (exists pre d post,
        key = (pre ++ "dt=" ++ d ++ post)%string
        /\ is_date d = true
        /\ extract_partition_date clock key w = (Ok d, w))
    \/
    ((forall pre d post, is_date d = true -> key <> (pre ++ "dt=" ++ d ++ post)%string)
     /\ extract_partition_date clock key w
        = (Ok (ymd (clock (now_calls w))),
           mkWorld (S (now_calls w)) (WarnNoDate key :: log w)
                   (s3_objects w) (cloudwatch_puts w))).
Proof.
  intros clock key w. unfold extract_partition_date, Re.search.
  destruct (Re.search_list date_pattern (list_ascii_of_string key)) as [g|] eqn:E.
  - left. apply search_list_Some in E as (pre & t & Hkey & Ht).
    apply match_here_date in Ht as (rest & -> & Hdate).
    exists (string_of_list_ascii pre), (string_of_list_ascii g), (string_of_list_ascii rest).
    split; [|split; [exact Hdate | reflexivity]].
    now apply key_of_parts.
  - right. split; [|reflexivity].
    intros pre d post Hdate ->. rewrite !list_ascii_app in E.
    apply search_list_None in E. now rewrite match_here_date_token in E.
Qed.

(** X2. The category [extract_data_type] returns is either a non-empty run
    of word characters that stands in the key between a [shows/] and a
    slash, and then the call has no effect; or ["unknown"], and then the
    key holds no such run anywhere and the call logs one warning. *)
Theorem data_type_from_key_or_unknown :
  forall (key : string) (w : World),
    (exists pre seg post,
        key = (pre ++ "shows/" ++ seg ++ "/" ++ post)%string
        /\ word_segment seg = true
        /\ extract_data_type key w = (Ok seg, w))
    \/
    ((forall pre seg post,
         word_segment seg = true -> key <> (pre ++ "shows/" ++ seg ++ "/" ++ post)%string)
     /\ extract_data_type key w = (Ok "unknown", logged (WarnNoDataType key) w)).
Proof.
  intros key w. unfold extract_data_type, Re.search.
  destruct (Re.search_list data_type_pattern (list_ascii_of_string key)) as [g|] eqn:E.
  - left. apply search_list_Some in E as (pre & t & Hkey & Ht).
    apply match_here_data_type in Ht as (rest & -> & Hseg).
    exists (string_of_list_ascii pre), (string_of_list_ascii g), (string_of_list_ascii rest).
    split; [|split; [exact Hseg | reflexivity]].
    rewrite <- (string_of_list_ascii_of_string key), Hkey.
    now rewrite !string_of_list_ascii_app.
  - right. split; [|reflexivity].
    intros pre seg post Hseg ->. rewrite !list_ascii_app in E.
    apply search_list_None in E.
    change (list_ascii_of_string "/") with ["/"%char] in E. cbn [app] in E.
    now rewrite match_here_data_type_word in E.
Qed.

(** ** The Silver key keeps the partition *)

Lemma occurs_list_needs (x : ascii) (p s : list ascii) :
  In x p -> existsb (Ascii.eqb x) s = false -> occurs_list p s = false.
Proof.
  intros Hx. induction s as [|y s IH]; intros Hs; cbn [occurs_list].
  - destruct (strip_prefix p []) eqn:E; [|reflexivity].
    apply strip_prefix_Some in E. destruct p; [contradiction | discriminate].
  - destruct (strip_prefix p (y :: s)) eqn:E.
    + apply strip_prefix_Some in E.
      assert (Hin : In x (y :: s)) by (rewrite E; apply in_or_app; now left).
      assert (Hex : existsb (Ascii.eqb x) (y :: s) = true).
      { apply existsb_exists. exists x. split; [exact Hin | apply Ascii.eqb_refl]. }
      congruence.
    + apply IH. cbn [existsb] in Hs. now apply orb_false_elim in Hs.
Qed.

Lemma class_run_excludes (p : ascii -> bool) (x : ascii) (l : list ascii) :
  forallb p l = true -> p x = false -> existsb (Ascii.eqb x) l = false.
Proof.
  intros Hl Hx. induction l as [|y l IH]; [reflexivity|].
  cbn [forallb existsb] in *. apply andb_prop in Hl as [Hy Hl].
  rewrite (IH Hl), orb_false_r. rewrite Ascii.eqb_sym. now apply (class_excludes p).
Qed.

Lemma string_append_assoc (a b c : string) :
  ((a ++ b) ++ c)%string = (a ++ b ++ c)%string.
Proof. induction a as [|x a IH]; cbn; [reflexivity | now rewrite IH]. Qed.

(** X3. The key a batch is written under resolves to the partition it was
    built from: for a category that is a run of word characters and a date
    token, both resolvers read them back from the Silver key, without
    warning and without reading the clock. *)
Theorem silver_key_keeps_partition :
  forall (clock : nat -> instant) (category date : string) (w : World),
    word_segment category = true ->
    is_date date = true ->
    extract_data_type (silver_path category date) w = (Ok category, w)
    /\ extract_partition_date clock (silver_path category date) w = (Ok date, w).
Proof.
  intros clock category date w Hcat Hdate. split.
  - unfold extract_data_type.
    change (silver_path category date)
      with ("silver/" ++ "shows/" ++ category ++ "/" ++ ("dt=" ++ date ++ "/data.parquet"))%string.
    now rewrite search_data_type_word.
  - unfold extract_partition_date.
    replace (silver_path category date)
      with (("silver/shows/" ++ category ++ "/") ++ "dt=" ++ date ++ "/data.parquet")%string
      by (unfold silver_path; now rewrite !string_append_assoc).
    rewrite search_date_token; [reflexivity | | exact Hdate].
    unfold occurs. rewrite !list_ascii_app.
    apply (occurs_list_needs "="%char); [cbn; tauto|].
    unfold word_segment in Hcat.
    assert (Hrun : forallb Re.word (list_ascii_of_string category) = true)
      by (destruct (list_ascii_of_string category); [discriminate | exact Hcat]).
    rewrite !existsb_app, (class_run_excludes Re.word "="%char _ Hrun) by reflexivity.
    reflexivity.
Qed.

(** The partition of the scenario, read back from its Silver key. *)
Lemma silver_key_keeps_partition_example :
  extract_data_type "silver/shows/trending/dt=2024-03-01/data.parquet" Sample.empty_world
  = (Ok "trending", Sample.empty_world)
  /\ extract_partition_date Sample.clock "silver/shows/trending/dt=2024-03-01/data.parquet"
       Sample.empty_world
     = (Ok "2024-03-01", Sample.empty_world).
Proof.
  apply (silver_key_keeps_partition Sample.clock "trending" "2024-03-01" Sample.empty_world);
    reflexivity.
Defined.

(** ** The loop over the raw records *)

Section Loop.

Variable clock : nat -> instant.
Variable float_of_str : string -> option spec_float.

Let normalize := normalize_show clock float_of_str.
Let loop := normalize_loop clock float_of_str.

(** One map through the normalizer: a record stamped with the reading of
    the clock, or the error of [float] and nothing else. *)
Lemma normalize_show_map (d : dict) (w : World) :
  match vote_average_of float_of_str (VDict d) with
  | Ok f =>
      exists r, normalize (VDict d) w
                = (Ok r, mkWorld (S (now_calls w)) (log w) (s3_objects w) (cloudwatch_puts w))
                /\ map fst r = NORMALIZED_KEYS
                /\ cell r "show_id" = dict_get d "id"
                /\ cell r "vote_average" = VFloat f
                /\ cell r "ingestion_date" = VStr (isoformat (clock (now_calls w)))
  | Raise e => normalize (VDict d) w = (Raise e, w)
  end.
Proof.
  unfold vote_average_of, normalize, normalize_show. rewrite bind_lift.
  destruct (py_float float_of_str _) as [f|e]; [|reflexivity].
  eexists. split; [reflexivity|]. repeat split.
Qed.

(** The loop over a list of maps: the records that normalize, in order,
    appended to what was there; one warning per record that does not; one
    reading of the clock per record kept. *)
Lemma normalize_loop_maps (items : list value) :
  Forall (fun v => is_dict v = true) items ->
  forall (acc : list dict) (w : World),
  exists (new : list dict) (warnings : list log_entry) (w' : World),
    loop items acc w = (Ok (acc ++ new), w')
    /\ map (fun r => cell r "show_id") new = map raw_id (filter (normalizes float_of_str) items)
    /\ log w' = warnings ++ log w
    /\ Forall2 (failure_logged float_of_str) (rev warnings)
               (filter (fun v => negb (normalizes float_of_str v)) items)
    /\ now_calls w' = (now_calls w + List.length new)%nat
    /\ (forall i, (i < List.length new)%nat ->
                  cell (nth i new []) "ingestion_date"
                  = VStr (isoformat (clock (now_calls w + i))))
    /\ Forall (fun r => map fst r = NORMALIZED_KEYS) new
    /\ same_stores w w'.
Proof.
  induction 1 as [|v items Hv _ IH]; intros acc w.
  - exists [], [], w. cbn. rewrite app_nil_r, Nat.add_0_r.
    repeat split; try constructor. intros i Hi. lia.
  - destruct v as [| | | | | |d]; try discriminate.
    unfold loop. cbn [normalize_loop]. fold loop. fold normalize.
    unfold bind at 1. unfold try_except. unfold bind at 1.
    pose proof (normalize_show_map d w) as Hn.
    cbn [filter].
    destruct (vote_average_of float_of_str (VDict d)) as [f|e] eqn:Ef.
    + assert (Hnz : normalizes float_of_str (VDict d) = true)
        by (unfold normalizes; now rewrite Ef).
      rewrite Hnz. cbn [negb].
      destruct Hn as (r & -> & Hkeys & Hid & _ & Hdate). cbn [ret].
      destruct (IH (acc ++ [r]) (mkWorld (S (now_calls w)) (log w) (s3_objects w)
                                         (cloudwatch_puts w)))
        as (new & warnings & w' & Hrun & Hids & Hlog & Hwarn & Hnow & Hdates & Hks & Hst).
      exists (r :: new), warnings, w'.
      rewrite Hrun, <- app_assoc. cbn [app map List.length now_calls log] in *.
      split; [reflexivity|]. split; [now rewrite Hids, Hid|]. split; [exact Hlog|].
      split; [exact Hwarn|]. split; [lia|]. split.
      { intros [|i] Hi; cbn [nth].
        - now rewrite Nat.add_0_r.
        - rewrite Hdates by lia. do 3 f_equal. lia. }
      split; [now constructor | exact Hst].
    + assert (Hnz : normalizes float_of_str (VDict d) = false)
        by (unfold normalizes; now rewrite Ef).
      rewrite Hnz. cbn [negb].
      rewrite Hn. rewrite bind_lift. cbn [py_get]. unfold bind, logger, ret.
      destruct (IH acc (mkWorld (now_calls w) (WarnNormalizeFailed (dict_get d "id") e :: log w)
                                (s3_objects w) (cloudwatch_puts w)))
        as (new & warnings & w' & Hrun & Hids & Hlog & Hwarn & Hnow & Hdates & Hks & Hst).
      exists new, (warnings ++ [WarnNormalizeFailed (dict_get d "id") e]), w'.
      cbn [now_calls log] in *.
      split; [exact Hrun|]. split; [exact Hids|].
      split; [now rewrite Hlog, <- app_assoc|].
      split.
      { rewrite rev_app_distr. cbn [rev app]. constructor; [|exact Hwarn].
        exists e. split; [exact Ef | reflexivity]. }
      split; [exact Hnow|]. split; [exact Hdates|]. split; [exact Hks | exact Hst].
Qed.

End Loop.

Lemma Forall2_length_eq {A B : Type} (R : A -> B -> Prop) (l : list A) (m : list B) :
  Forall2 R l m -> List.length l = List.length m.
Proof. induction 1; cbn [List.length]; congruence. Qed.

(** X4. Over a list of raw records that are maps the loop never raises.
    It keeps the records whose [vote_average] the builtin [float] accepts,
    in their order, each with its [id] as [show_id]; for every other record
    it logs one warning with the record's [id] and the error; so the
    records kept and the warnings logged add up to the records read. *)
Theorem normalize_loop_accounts_for_every_record :
  forall (clock : nat -> instant) (float_of_str : string -> option spec_float)
         (items : list value) (w : World),
    Forall (fun v => is_dict v = true) items ->
    exists (normalized : list dict) (warnings : list log_entry) (w' : World),
      normalize_loop clock float_of_str items [] w = (Ok normalized, w')
      /\ map (fun r => cell r "show_id") normalized
         = map raw_id (filter (normalizes float_of_str) items)
      /\ log w' = warnings ++ log w
      /\ Forall2 (failure_logged float_of_str) (rev warnings)
                 (filter (fun v => negb (normalizes float_of_str v)) items)
      /\ (List.length normalized + List.length warnings = List.length items)%nat
      /\ same_stores w w'.
Proof.
  intros clock float_of_str items w Hitems.
  destruct (normalize_loop_maps clock float_of_str items Hitems [] w)
    as (new & warnings & w' & Hrun & Hids & Hlog & Hwarn & _ & _ & _ & Hst).
  exists new, warnings, w'. cbn [app] in Hrun.
  split; [exact Hrun|]. split; [exact Hids|]. split; [exact Hlog|]. split; [exact Hwarn|].
  split; [|exact Hst].
  apply (f_equal (@List.length value)) in Hids. rewrite !length_map in Hids.
  apply Forall2_length_eq in Hwarn. rewrite length_rev in Hwarn.
  pose proof (length_filter_negb (normalizes float_of_str) items) as Hsum.
  unfold dict, row in *. lia.
Qed.

(** A show rated 8, a show rated by a list and a show without a rating:
    the first and the third are kept, the second is logged. *)
Lemma normalize_loop_accounts_example :
  exists (normalized : list dict) (warnings : list log_entry) (w' : World),
    normalize_loop Sample.clock Sample.float_of_str
      [ VDict [("id", VInt 1); ("vote_average", VInt 8)];
        VDict [("id", VInt 2); ("vote_average", VList [])];
        VDict [("id", VInt 3)] ] [] Sample.empty_world = (Ok normalized, w')
    /\ map (fun r => cell r "show_id") normalized = [VInt 1; VInt 3]
    /\ log w' = warnings ++ []
    /\ List.length warnings = 1%nat.
Proof.
  destruct (normalize_loop_accounts_for_every_record Sample.clock Sample.float_of_str
              [ VDict [("id", VInt 1); ("vote_average", VInt 8)];
                VDict [("id", VInt 2); ("vote_average", VList [])];
                VDict [("id", VInt 3)] ] Sample.empty_world)
    as (normalized & warnings & w' & Hrun & Hids & Hlog & _ & Hlen & _).
  - repeat constructor.
  - exists normalized, warnings, w'.
    split; [exact Hrun|]. split; [exact Hids|]. split; [exact Hlog|].
    apply (f_equal (@List.length value)) in Hids. rewrite length_map in Hids.
    change (List.length normalized = 2%nat) in Hids.
    change (List.length normalized + List.length warnings = 3)%nat in Hlen.
    unfold dict, row in *. lia.
Defined.

(** X5. Every record the loop keeps carries its own reading of the clock:
    over a list of maps, the loop reads the clock once per record kept, and
    the [ingestion_date] of the [i]-th record kept is the ISO form of the
    [i]-th reading. *)
Theorem ingestion_dates_are_successive_readings :
  forall (clock : nat -> instant) (float_of_str : string -> option spec_float)
         (items : list value) (w : World),
    Forall (fun v => is_dict v = true) items ->
    exists (normalized : list dict) (w' : World),
      normalize_loop clock float_of_str items [] w = (Ok normalized, w')
      /\ now_calls w' = (now_calls w + List.length normalized)%nat
      /\ forall i, (i < List.length normalized)%nat ->
                   cell (nth i normalized []) "ingestion_date"
                   = VStr (isoformat (clock (now_calls w + i)%nat)).
Proof.
  intros clock float_of_str items w Hitems.
  destruct (normalize_loop_maps clock float_of_str items Hitems [] w)
    as (new & warnings & w' & Hrun & _ & _ & _ & Hnow & Hdates & _).
  exists new, w'. cbn [app] in Hrun.
  split; [exact Hrun|]. split; [exact Hnow | exact Hdates].
Qed.

(** Two shows under a clock that ticks: the second carries the second
    reading. *)
Lemma ingestion_dates_example :
  let ticking := fun n => mkInstant (if Nat.eqb n 0 then "2024-03-02T06:00:00.000001"
                                     else "2024-03-02T06:00:00.000002") "2024-03-02" in
  exists (normalized : list dict) (w' : World),
    normalize_loop ticking Sample.float_of_str
      [VDict [("id", VInt 1)]; VDict [("id", VInt 2)]] [] Sample.empty_world
    = (Ok normalized, w')
    /\ now_calls w' = 2%nat
    /\ cell (nth 1 normalized []) "ingestion_date" = VStr "2024-03-02T06:00:00.000002".
Proof.
  intros ticking.
  destruct (ingestion_dates_are_successive_readings ticking Sample.float_of_str
              [VDict [("id", VInt 1)]; VDict [("id", VInt 2)]] Sample.empty_world)
    as (normalized & w' & Hrun & Hnow & Hdates).
  - repeat constructor.
  - assert (Hlen : List.length normalized = 2%nat).
    { apply (f_equal fst) in Hrun. cbn in Hrun. now injection Hrun as <-. }
    exists normalized, w'. split; [exact Hrun|]. split.
    + rewrite Hnow, Hlen. reflexivity.
    + rewrite Hdates by lia. reflexivity.
Defined.

(** ** The frame of the normalized records *)

(** The loop returns what it was given, followed by records of the
    normalizer. *)
Lemma normalize_loop_Forall (clock : nat -> instant)
      (float_of_str : string -> option spec_float) (P : dict -> Prop) :
  (forall x w r w', normalize_show clock float_of_str x w = (Ok r, w') -> P r) ->
  forall (items : list value) (acc : list dict) (w : World)
         (normalized : list dict) (w' : World),
    normalize_loop clock float_of_str items acc w = (Ok normalized, w') ->
    Forall P acc -> Forall P normalized.
Proof.
  intros HP. induction items as [|x items IH]; intros acc w normalized w' H Hacc.
  - cbn in H. now injection H as <- <-.
  - cbn [normalize_loop] in H. unfold bind at 1 in H. unfold try_except in H.
    unfold bind at 1 in H.
    destruct (normalize_show clock float_of_str x w) as [[r|e] w1] eqn:E.
    + cbn [ret] in H. apply IH in H; [exact H|].
      apply Forall_app. split; [exact Hacc|]. constructor; [|constructor].
      exact (HP _ _ _ _ E).
    + rewrite bind_lift in H. destruct (py_get x "id") as [i|e']; [|discriminate].
      unfold bind, logger, ret in H. apply IH in H; [exact H | exact Hacc].
Qed.

Lemma normalize_show_keys (clock : nat -> instant)
      (float_of_str : string -> option spec_float)
      (x : value) (w : World) (r : dict) (w' : World) :
  normalize_show clock float_of_str x w = (Ok r, w') -> map fst r = NORMALIZED_KEYS.
Proof.
  unfold normalize_show. destruct x; try discriminate.
  rewrite bind_lift. destruct (py_float float_of_str _); [|discriminate].
  unfold bind, datetime_now, ret. now intros [= <- <-].
Qed.

Lemma add_new_known (seen ks : list string) :
  (forall k, In k ks -> In k seen) -> add_new seen ks = seen.
Proof.
  induction ks as [|k ks IH]; intros H; [reflexivity|].
  cbn [add_new]. replace (mem_str k seen) with true.
  - apply IH. intros k' Hk'. apply H. now right.
  - symmetry. apply mem_str_In, H. now left.
Qed.

Lemma add_new_fresh (seen ks : list string) :
  NoDup (seen ++ ks) -> add_new seen ks = seen ++ ks.
Proof.
  revert seen; induction ks as [|k ks IH]; intros seen H; cbn [add_new].
  - now rewrite app_nil_r.
  - destruct (mem_str k seen) eqn:E.
    + apply mem_str_In in E. apply NoDup_remove_2 in H.
      exfalso. apply H. apply in_or_app. now left.
    + replace (seen ++ k :: ks) with ((seen ++ [k]) ++ ks) in * by now rewrite <- app_assoc.
      now apply IH.
Qed.

(** Records that all bind the same keys, laid out as a frame. *)
Lemma from_records_uniform (labels : list string) (recs : list dict) :
  NoDup labels -> recs <> [] ->
  Forall (fun r => map fst r = labels) recs ->
  from_records recs = mkDF labels recs.
Proof.
  intros Hnd Hne Hall.
  assert (Hcols : union_keys recs = labels).
  { unfold union_keys. destruct recs as [|r recs]; [congruence|].
    pose proof (Forall_inv Hall) as Hr. pose proof (Forall_inv_tail Hall) as Hrest.
    cbn beta in Hr. cbn [fold_left].
    rewrite add_new_fresh by (cbn [app]; now rewrite Hr).
    cbn [app]. rewrite Hr. clear Hr Hne Hall.
    induction Hrest as [|r' recs Hr' _ IH]; [reflexivity|].
    cbn [fold_left]. rewrite add_new_known; [exact IH|].
    intros k Hk. now rewrite Hr' in Hk. }
  unfold from_records. rewrite Hcols. f_equal.
  rewrite <- (map_id recs) at 2. apply map_ext_in. intros r Hr.
  rewrite Forall_forall in Hall. specialize (Hall r Hr).
  rewrite <- Hall at 1. apply project_id. now rewrite Hall.
Qed.

Lemma NORMALIZED_KEYS_NoDup : NoDup NORMALIZED_KEYS.
Proof. repeat constructor; cbn; intuition discriminate. Qed.

(** X6. The normalizer and the schema agree on the columns: every record
    the loop keeps binds the fifteen keys of the normalizer, in the order of
    its literal, and no other; so the frame built from at least one such
    record is labelled by these keys. They are the columns of
    [SILVER_SCHEMA] in another order: every column of the schema, the three
    the gate reads among them, is a column of the frame. *)
Theorem normalized_frame_has_silver_columns :
  forall (clock : nat -> instant) (float_of_str : string -> option spec_float)
         (items : list value) (w : World) (normalized : list dict) (w' : World),
    normalize_loop clock float_of_str items [] w = (Ok normalized, w') ->
    normalized <> [] ->
    Forall (fun r => map fst r = NORMALIZED_KEYS) normalized
    /\ columns (from_records normalized) = NORMALIZED_KEYS
    /\ NoDup NORMALIZED_KEYS
    /\ (forall c, In c NORMALIZED_KEYS <-> In c SILVER_COLUMNS)
    /\ (forall c, In c SILVER_COLUMNS ->
                  mem_str c (columns (from_records normalized)) = true).
Proof.
  intros clock float_of_str items w normalized w' Hrun Hne.
  assert (Hkeys : Forall (fun r => map fst r = NORMALIZED_KEYS) normalized).
  { apply (normalize_loop_Forall clock float_of_str _
             (normalize_show_keys clock float_of_str) items [] w normalized w' Hrun).
    constructor. }
  assert (Hdf : from_records normalized = mkDF NORMALIZED_KEYS normalized)
    by (apply from_records_uniform; [exact NORMALIZED_KEYS_NoDup | exact Hne | exact Hkeys]).
  assert (Hsame : forall c, In c NORMALIZED_KEYS <-> In c SILVER_COLUMNS)
    by (intros c; cbn; tauto).
  split; [exact Hkeys|]. split; [now rewrite Hdf|]. split; [exact NORMALIZED_KEYS_NoDup|].
  split; [exact Hsame|].
  intros c Hc. rewrite Hdf. cbn [columns]. apply mem_str_In. now apply Hsame.
Qed.

(** One show through the loop: the frame is labelled by the normalizer's
    keys and [popularity] is one of its columns. *)
Lemma normalized_frame_example :
  exists (normalized : list dict) (w' : World),
    normalize_loop Sample.clock Sample.float_of_str
      [VDict [("id", VInt 1); ("name", VStr "A"); ("popularity", VInt 3)]] []
      Sample.empty_world = (Ok normalized, w')
    /\ columns (from_records normalized) = NORMALIZED_KEYS
    /\ mem_str "popularity" (columns (from_records normalized)) = true.
Proof.
  destruct (normalize_loop Sample.clock Sample.float_of_str
              [VDict [("id", VInt 1); ("name", VStr "A"); ("popularity", VInt 3)]] []
              Sample.empty_world) as [[normalized|e] w'] eqn:E; [|discriminate].
  assert (Hne : normalized <> []) by (cbn in E; injection E as <- _; discriminate).
  destruct (normalized_frame_has_silver_columns Sample.clock Sample.float_of_str _ _ _ _ E Hne)
    as (_ & Hcols & _ & _ & Hmem).
  exists normalized, w'. split; [reflexivity|]. split; [exact Hcols|].
  apply Hmem. cbn. tauto.
Defined.

(** ** A batch in which no record normalizes *)

Lemma filter_none {A : Type} (f : A -> bool) (l : list A) :
  Forall (fun x => f x = false) l -> filter f l = [].
Proof.
  induction 1 as [|x l Hx _ IH]; [reflexivity|]. cbn [filter]. now rewrite Hx.
Qed.

Lemma filter_all {A : Type} (f : A -> bool) (l : list A) :
  Forall (fun x => f x = true) l -> filter f l = l.
Proof.
  induction 1 as [|x l Hx _ IH]; [reflexivity|]. cbn [filter]. now rewrite Hx, IH.
Qed.

Lemma Forall2_left {A B : Type} (R : A -> B -> Prop) (P : A -> Prop)
      (l : list A) (m : list B) :
  Forall2 R l m -> (forall a b, R a b -> P a) -> Forall P l.
Proof. induction 1 as [|a b l m Hab _ IH]; intros H; constructor; eauto. Qed.

(** X7. A non-empty batch of maps none of which normalizes does not end in
    an empty Silver file: every record is logged and skipped, the frame of
    no record has no column, and the quality gate raises [KeyError] on
    [df['show_id']]. Nothing is written and nothing is published. *)
Theorem batch_of_rejects_raises_key_error :
  forall (clock : nat -> instant) (ENVIRONMENT : string)
         (float_of_str : string -> option spec_float)
         (astype : dtype -> list value -> result (list value))
         (bucket key : string) (d : dict) (shows : list value) (w : World),
    s3_lookup w bucket key = Some (Json (VDict d)) ->
    dict_lookup d "results" = Some (VList shows) ->
    shows <> [] ->
    Forall (fun v => is_dict v = true) shows ->
    Forall (fun v => normalizes float_of_str v = false) shows ->
    let run := process_bronze_file clock ENVIRONMENT float_of_str astype bucket key in
    outcome run w = Raise KeyError
    /\ same_stores w (final run w)
    /\ exists warnings,
         log (final run w)
         = warnings ++ InfoFound (Z.of_nat (List.length shows)) :: log w
         /\ List.length warnings = List.length shows
         /\ Forall (fun l => is_warning l = true) warnings.
Proof.
  intros clock ENVIRONMENT float_of_str astype bucket key d shows w Hobj Hres Hne Hmaps Hrej.
  cbv zeta.
  destruct (normalize_loop_maps clock float_of_str shows Hmaps []
              (logged (InfoFound (Z.of_nat (List.length shows))) w))
    as (new & warnings & w' & Hloop & Hids & Hlog & Hwarn & _ & _ & _ & Hs & Hc).
  rewrite (filter_none _ _ Hrej) in Hids.
  assert (Hnew : new = []) by (destruct new; [reflexivity | discriminate]).
  subst new. cbn [app] in Hloop.
  assert (Hrun : process_bronze_file clock ENVIRONMENT float_of_str astype bucket key w
                 = (Raise KeyError, w')).
  { unfold process_bronze_file. unfold bind at 1. unfold get_json. rewrite Hobj.
    rewrite bind_lift. unfold dict_get_default. rewrite Hres.
    assert (Ht : truthy (VList shows) = true) by (destruct shows; [congruence | reflexivity]).
    rewrite Ht. cbn [negb py_len py_iter]. rewrite bind_lift.
    unfold bind at 1. unfold logger at 1.
    fold (logged (InfoFound (Z.of_nat (List.length shows))) w).
    rewrite bind_lift. unfold bind at 1. rewrite Hloop.
    unfold bind at 1. unfold apply_data_quality_checks. rewrite bind_lift.
    reflexivity. }
  unfold outcome, final. rewrite Hrun. cbn [fst snd].
  cbn [logged s3_objects cloudwatch_puts log] in Hs, Hc, Hlog.
  split; [reflexivity|]. split; [split; assumption|].
  exists warnings. split; [exact Hlog|].
  apply Forall2_length_eq in Hwarn as Hlen. rewrite length_rev in Hlen.
  assert (Hall : filter (fun v => negb (normalizes float_of_str v)) shows = shows).
  { apply filter_all. apply Forall_forall. intros v Hv.
    rewrite Forall_forall in Hrej. now rewrite (Hrej v Hv). }
  rewrite Hall in Hlen, Hwarn. split; [exact Hlen|].
  rewrite <- (rev_involutive warnings). apply Forall_rev.
  apply (Forall2_left _ _ _ _ Hwarn). now intros l v (e & _ & ->).
Qed.

(** A batch of one show whose rating is the text [n/a]. *)
Lemma batch_of_rejects_example :
  let key := "bronze/shows/trending/dt=2024-03-01/x.json" in
  let shows := [VDict [("id", VInt 1); ("name", VStr "A"); ("vote_average", VStr "n/a")]] in
  let w := Sample.bronze_world "tally" key (VDict [("results", VList shows)]) in
  let run := process_bronze_file Sample.clock Sample.ENVIRONMENT Sample.float_of_str
               Sample.astype "tally" key in
  outcome run w = Raise KeyError
  /\ s3_objects (final run w) = s3_objects w
  /\ cloudwatch_puts (final run w) = cloudwatch_puts w.
Proof.
  intros key shows w run.
  destruct (batch_of_rejects_raises_key_error Sample.clock Sample.ENVIRONMENT
              Sample.float_of_str Sample.astype "tally" key
              [("results", VList shows)] shows w) as (Hraise & [Hs Hc] & _).
  - reflexivity.
  - reflexivity.
  - discriminate.
  - repeat constructor.
  - repeat constructor.
  - split; [exact Hraise|]. split; [exact Hs | exact Hc].
Defined.

(** ** When the quality gate raises and when it returns *)

Lemma map_result_raises {A B : Type} (f : A -> result B) (l : list A) (e0 : exn) :
  (exists x, In x l /\ f x = Raise e0) ->
  (forall x e, f x = Raise e -> e = e0) ->
  map_result f l = Raise e0.
Proof.
  intros (x & Hx & Hfx) Hall. induction l as [|y l IH]; [contradiction|].
  cbn [map_result]. destruct (f y) as [b|e] eqn:E.
  - destruct Hx as [->|Hx]; [congruence|]. now rewrite (IH Hx).
  - now rewrite (Hall _ _ E).
Qed.

Lemma map_result_total {A B : Type} (f : A -> result B) (g : A -> B) (l : list A) :
  Forall (fun x => f x = Ok (g x)) l -> map_result f l = Ok (map g l).
Proof.
  induction 1 as [|x l Hx _ IH]; [reflexivity|].
  cbn [map_result map]. now rewrite Hx, IH.
Qed.

Lemma lt_zero_orderable (v : value) :
  orderable v = true ->
  lt_zero v = Ok (match lt_zero v with Ok b => b | Raise _ => false end).
Proof. destruct v; (discriminate || reflexivity). Qed.

Lemma ge_zero_orderable (v : value) :
  orderable v = true ->
  ge_zero v = Ok (match ge_zero v with Ok b => b | Raise _ => false end).
Proof. destruct v; (discriminate || reflexivity). Qed.

Lemma lt_zero_unordered (v : value) (e : exn) : lt_zero v = Raise e -> e = TypeError.
Proof. destruct v; cbn; congruence. Qed.

(** The gate returns on a frame with the three columns whose popularity
    cells can be compared and whose [show_id] cells can be hashed, as long
    as the pass rate is a float. *)
Lemma quality_gate_runs (df : DataFrame) (n : Z) (w : World) (rate : spec_float) :
  mem_str "show_id" (columns df) = true ->
  mem_str "title" (columns df) = true ->
  mem_str "popularity" (columns df) = true ->
  Forall (fun r => orderable (cell r "popularity") = true) (identified (rows df)) ->
  forallb hashable (map show_id_of (eligible (rows df))) = true ->
  (if n >? 0
   then py_truediv (Z.of_nat (List.length (dedup_first (eligible (rows df))))) n
   else Ok F64.zero) = Ok rate ->
  exists c, apply_data_quality_checks df n w
            = (Ok (mkDF (columns df) (dedup_first (eligible (rows df))), c),
               logged (InfoDataQuality
                         (Z.of_nat (List.length (dedup_first (eligible (rows df))))) n rate) w).
Proof.
  intros H1 H2 H3 Hord Hhash Hrate.
  unfold apply_data_quality_checks, drop_duplicates, df_len, filter_rows, getitem.
  cbn [rows columns]. rewrite H1, H2, H3.
  rewrite !bind_lift, !map_map, !select_map_filter.
  change (fun x : row => notna (cell x "show_id")) with has_show_id.
  rewrite ?map_map, ?select_map_filter.
  change (fun x : row => notna (cell x "title")) with has_title.
  fold (identified (rows df)).
  rewrite (map_result_total lt_zero
             (fun v => match lt_zero v with Ok b => b | Raise _ => false end)).
  2:{ apply Forall_forall. intros v Hv. apply in_map_iff in Hv as (r & <- & Hr).
      rewrite Forall_forall in Hord. now apply lt_zero_orderable, Hord. }
  rewrite bind_lift.
  rewrite (map_result_total ge_zero
             (fun v => match ge_zero v with Ok b => b | Raise _ => false end)).
  2:{ apply Forall_forall. intros v Hv. apply in_map_iff in Hv as (r & <- & Hr).
      rewrite Forall_forall in Hord. now apply ge_zero_orderable, Hord. }
  rewrite bind_lift, !map_map.
  change (fun x : row => match ge_zero (cell x "popularity") with
                         | Ok b => b | Raise _ => false end)
    with popularity_valid.
  rewrite !select_map_filter. fold (eligible (rows df)).
  change (map (fun x : row => cell x "show_id") (eligible (rows df)))
    with (map show_id_of (eligible (rows df))).
  rewrite Hhash. cbn [rows]. fold (dedup_from [] (eligible (rows df))).
  fold (dedup_first (eligible (rows df))).
  rewrite bind_lift, Hrate. unfold bind, logger, ret, logged.
  eexists. reflexivity.
Qed.

Lemma valid_not_negative (r : row) :
  popularity_valid r = true -> popularity_negative r = false.
Proof.
  unfold popularity_valid, popularity_negative.
  destruct (cell r "popularity") as [| b | z | f | s | l | d]; cbn; try congruence.
  - intros H. apply Z.leb_le in H. apply Z.ltb_ge. exact H.
  - destruct f as [[]|[]| |[] m e]; cbn; congruence.
Qed.

(** On a cell that is a number, [< 0] and [>= 0] are complementary. *)
Lemma negative_or_valid (r : row) :
  orderable (cell r "popularity") = true -> isna (cell r "popularity") = false ->
  popularity_negative r = negb (popularity_valid r).
Proof.
  unfold popularity_valid, popularity_negative.
  destruct (cell r "popularity") as [| b | z | f | s | l | d]; cbn; try congruence.
  - intros _ _. destruct (Z.ltb_spec z 0), (Z.leb_spec 0 z); try reflexivity; lia.
  - destruct f as [[]|[]| |[] m e]; cbn; congruence.
Qed.

(** X8. The gate cannot compare a popularity that is a string, a list or a
    map with zero: when such a cell stands in a row that has a [show_id] and
    a [title], [df['popularity'] < 0] raises [TypeError] and the gate
    returns nothing and logs nothing. *)
Theorem quality_gate_rejects_unordered_popularity :
  forall (df : DataFrame) (n : Z) (w : World) (r : row),
    mem_str "show_id" (columns df) = true ->
    mem_str "title" (columns df) = true ->
    mem_str "popularity" (columns df) = true ->
    In r (rows df) ->
    has_show_id r = true ->
    has_title r = true ->
    orderable (cell r "popularity") = false ->
    apply_data_quality_checks df n w = (Raise TypeError, w).
Proof.
  intros df n w r H1 H2 H3 Hr Hid Htitle Hpop.
  unfold apply_data_quality_checks, filter_rows, getitem.
  cbn [rows columns]. rewrite H1, H2, H3.
  rewrite !bind_lift, !map_map, !select_map_filter.
  change (fun x : row => notna (cell x "show_id")) with has_show_id.
  rewrite ?map_map, ?select_map_filter.
  change (fun x : row => notna (cell x "title")) with has_title.
  rewrite (map_result_raises lt_zero _ TypeError); [reflexivity | | exact lt_zero_unordered].
  exists (cell r "popularity"). split.
  - apply in_map_iff. exists r. split; [reflexivity|].
    apply filter_In. split; [|exact Htitle]. apply filter_In. now split.
  - destruct (cell r "popularity"); (discriminate || reflexivity).
Qed.

(** A show whose popularity is the text [high], as the normalizer passes
    it on. *)
Lemma quality_gate_rejects_text_popularity :
  apply_data_quality_checks
    (from_records [[("show_id", VInt 1); ("title", VStr "A"); ("popularity", VStr "high")]])
    1 Sample.empty_world
  = (Raise TypeError, Sample.empty_world).
Proof.
  apply (quality_gate_rejects_unordered_popularity _ 1 Sample.empty_world
           [("show_id", VInt 1); ("title", VStr "A"); ("popularity", VStr "high")]);
    try reflexivity.
  left. reflexivity.
Defined.

(** ** What the quality gate lets through *)

Lemma select_select {A : Type} (l : list A) (m1 m2 : list bool) :
  exists m, select (select l m1) m2 = select l m.
Proof.
  revert m1 m2; induction l as [|x l IH]; intros m1 m2.
  - exists []. now destruct m1.
  - destruct m1 as [|b m1]; [exists []; reflexivity|].
    cbn [select]. destruct b.
    + destruct m2 as [|b2 m2]; [exists []; reflexivity|].
      cbn [select]. destruct (IH m1 m2) as (m & Hm).
      exists (b2 :: m). cbn [select]. now rewrite Hm.
    + destruct (IH m1 m2) as (m & Hm). exists (false :: m). exact Hm.
Qed.

Lemma eligible_clean (rs : list row) : Forall clean (eligible rs).
Proof.
  apply Forall_forall. intros r Hr. unfold eligible, identified in Hr.
  apply filter_In in Hr as [Hr Hp]. apply filter_In in Hr as [Hr Ht].
  apply filter_In in Hr as [_ Hi]. now repeat split.
Qed.

(** Every row the deduplication keeps is new to the keys seen. *)
Lemma dedup_from_fresh (l : list row) :
  forall seen,
    Forall (fun b => existsb (key_eqb (show_id_of b)) seen = false) (dedup_from seen l).
Proof.
  induction l as [|a l IH]; intros seen; [constructor|].
  destruct (existsb (key_eqb (show_id_of a)) seen) eqn:E.
  - rewrite dedup_from_cons_seen by exact E. apply IH.
  - rewrite dedup_from_cons_fresh by exact E. constructor; [exact E|].
    eapply Forall_impl; [|apply IH]. cbn beta. intros b Hb.
    cbn [existsb] in Hb. now apply orb_false_elim in Hb.
Qed.

Lemma dedup_from_unique (l : list row) :
  forall seen, unique_show_ids (dedup_from seen l).
Proof.
  induction l as [|a l IH]; intros seen; [constructor|].
  destruct (existsb (key_eqb (show_id_of a)) seen) eqn:E.
  - rewrite dedup_from_cons_seen by exact E. apply IH.
  - rewrite dedup_from_cons_fresh by exact E. constructor; [|apply IH].
    eapply Forall_impl; [|apply dedup_from_fresh]. cbn beta. intros b Hb.
    cbn [existsb] in Hb. now apply orb_false_elim in Hb.
Qed.

Lemma dedup_from_idempotent (l : list row) :
  forall seen, dedup_from seen (dedup_from seen l) = dedup_from seen l.
Proof.
  induction l as [|a l IH]; intros seen; [reflexivity|].
  destruct (existsb (key_eqb (show_id_of a)) seen) eqn:E.
  - rewrite dedup_from_cons_seen by exact E. apply IH.
  - rewrite dedup_from_cons_fresh by exact E.
    rewrite dedup_from_cons_fresh by exact E. now rewrite IH.
Qed.

(** X9. What the gate returns is clean: every row has a [show_id] and a
    [title] that are not null and a popularity that is [>= 0], no row
    repeats the [show_id] of an earlier row, and the rows are rows of the
    input, in their order and unchanged, under the same columns. *)
Theorem quality_gate_output_is_clean :
  forall (df : DataFrame) (n : Z) (w : World) (df' : DataFrame) (c : checks) (w' : World),
    apply_data_quality_checks df n w = (Ok (df', c), w') ->
    Forall clean (rows df')
    /\ unique_show_ids (rows df')
    /\ (exists mask, rows df' = select (rows df) mask)
    /\ columns df' = columns df.
Proof.
  intros df n w df' c w' H. apply quality_gate_returns in H. cbv zeta in H.
  destruct H as (Hrows & Hcols & _).
  fold (identified (rows df)) in Hrows. fold (eligible (rows df)) in Hrows.
  split; [|split; [|split; [|exact Hcols]]].
  - rewrite Hrows. unfold dedup_first, dedup_from. apply Forall_select, eligible_clean.
  - rewrite Hrows. apply dedup_from_unique.
  - rewrite Hrows. unfold dedup_first, dedup_from, eligible, identified.
    rewrite <- !select_map_filter.
    destruct (select_select (rows df) (map has_show_id (rows df))
                (map has_title (select (rows df) (map has_show_id (rows df))))) as (m1 & ->).
    match goal with |- context [select (select (rows df) m1) ?m2] =>
      destruct (select_select (rows df) m1 m2) as (m2' & Hm2) end.
    rewrite Hm2.
    match goal with |- context [select (select (rows df) m2') ?m3] =>
      destruct (select_select (rows df) m2' m3) as (m3' & Hm3) end.
    exists m3'. exact Hm3.
Qed.

(** The scenario's frame: the two rows that come out are clean and differ
    in their [show_id]. *)
Lemma quality_gate_output_scenario :
  exists (df' : DataFrame) (c : checks) (w' : World),
    apply_data_quality_checks (from_records scenario_normalized) 5 Sample.empty_world
    = (Ok (df', c), w')
    /\ List.length (rows df') = 2%nat
    /\ Forall clean (rows df')
    /\ unique_show_ids (rows df').
Proof.
  destruct (apply_data_quality_checks (from_records scenario_normalized) 5 Sample.empty_world)
    as [[[df' c]|e] w'] eqn:E.
  - destruct (quality_gate_output_is_clean _ _ _ _ _ _ E) as (Hclean & Huniq & _).
    exists df', c, w'. split; [reflexivity|]. split; [|split; assumption].
    apply (f_equal fst) in E. vm_compute in E. now injection E as <- _.
  - exfalso. vm_compute in E. discriminate.
Defined.

Lemma In_select {A : Type} (x : A) (l : list A) (m : list bool) :
  In x (select l m) -> In x l.
Proof.
  revert m; induction l as [|y l IH]; intros [|b m] H; cbn [select] in H; try contradiction.
  destruct b; [destruct H as [->|H]; [now left | right; eauto] | right; eauto].
Qed.

Lemma Forall_clean_fixed (rs : list row) :
  Forall clean rs -> identified rs = rs /\ eligible rs = rs.
Proof.
  intros H. unfold eligible, identified.
  assert (H1 : filter has_show_id rs = rs)
    by (apply filter_all; eapply Forall_impl; [|exact H]; now intros r (Hr & _)).
  assert (H2 : filter has_title rs = rs)
    by (apply filter_all; eapply Forall_impl; [|exact H]; now intros r (_ & Hr & _)).
  assert (H3 : filter popularity_valid rs = rs)
    by (apply filter_all; eapply Forall_impl; [|exact H]; now intros r (_ & _ & Hr)).
  now rewrite H1, H2, H3.
Qed.

(** X10. The gate is idempotent: run again on the frame it returned, with
    the same [initial_count], it returns that frame, finds nothing to
    remove under any of its four rules, and reports the same [final_count]
    and [pass_rate]. *)
Theorem quality_gate_is_idempotent :
  forall (df : DataFrame) (n : Z) (w : World) (df' : DataFrame) (c : checks) (w' : World),
    apply_data_quality_checks df n w = (Ok (df', c), w') ->
    forall w2, exists c2 w3,
      apply_data_quality_checks df' n w2 = (Ok (df', c2), w3)
      /\ missing_show_id c2 = 0
      /\ missing_title c2 = 0
      /\ invalid_popularity c2 = 0
      /\ duplicates c2 = 0
      /\ final_count c2 = final_count c
      /\ failed_count c2 = failed_count c
      /\ pass_rate c2 = pass_rate c.
Proof.
  intros df n w df' c w' H w2.
  destruct (quality_gate_inputs _ _ _ _ _ _ H) as (H1 & H2 & H3 & Hord & Hhash).
  apply quality_gate_returns in H. cbv zeta in H.
  destruct H as (Hrows & Hcols & _ & _ & _ & _ & Hfin & _ & Hfail & Hrate & _).
  fold (identified (rows df)) in Hrows. fold (eligible (rows df)) in Hrows.
  assert (Hclean : Forall clean (rows df')).
  { rewrite Hrows. unfold dedup_first, dedup_from. apply Forall_select, eligible_clean. }
  destruct (Forall_clean_fixed _ Hclean) as [Hid Hel].
  assert (Hdedup : dedup_first (rows df') = rows df').
  { rewrite Hrows. apply dedup_from_idempotent. }
  assert (Hsub : forall r, In r (rows df') -> In r (eligible (rows df))).
  { intros r Hr. rewrite Hrows in Hr. unfold dedup_first, dedup_from in Hr.
    now apply In_select in Hr. }
  destruct (quality_gate_runs df' n w2 (pass_rate c)) as (c2 & Hrun).
  - now rewrite Hcols.
  - now rewrite Hcols.
  - now rewrite Hcols.
  - rewrite Hid. apply Forall_forall. intros r Hr. rewrite Forall_forall in Hord.
    apply Hord. apply Hsub in Hr. unfold eligible in Hr. now apply filter_In in Hr.
  - rewrite Hel. apply forallb_forall. intros k Hk.
    apply in_map_iff in Hk as (r & <- & Hr).
    rewrite forallb_forall in Hhash. apply Hhash. apply in_map_iff. exists r. split; auto.
  - rewrite Hel, Hdedup, <- Hfin. exact Hrate.
  - rewrite Hel, Hdedup in Hrun.
    replace (mkDF (columns df') (rows df')) with df' in Hrun by now destruct df'.
    exists c2. eexists. split; [exact Hrun|].
    apply quality_gate_returns in Hrun. cbv zeta in Hrun.
    destruct Hrun as (_ & _ & G1 & G2 & G3 & G4 & G5 & _ & G6 & G7 & _).
    assert (F1 : filter has_show_id (rows df') = rows df').
    { apply filter_all. eapply Forall_impl; [|exact Hclean]. now intros r (Hr & _). }
    assert (F2 : filter has_title (rows df') = rows df').
    { apply filter_all. eapply Forall_impl; [|exact Hclean]. now intros r (_ & Hr & _). }
    assert (F3 : filter popularity_valid (rows df') = rows df').
    { apply filter_all. eapply Forall_impl; [|exact Hclean]. now intros r (_ & _ & Hr). }
    assert (F4 : filter popularity_negative (rows df') = []).
    { apply filter_none. eapply Forall_impl; [|exact Hclean].
      intros r (_ & _ & Hr). now apply valid_not_negative. }
    rewrite F1 in G1, G2, G3, G4. rewrite F2 in G2, G3, G4.
    rewrite F4 in G3. rewrite F3 in G4. cbn [List.length] in G3.
    assert (Hfc : final_count c2 = final_count c) by congruence.
    split; [lia|]. split; [lia|]. split; [exact G3|]. split; [lia|].
    split; [exact Hfc|]. split; [lia|].
    rewrite Hfc, Hrate in G7. now injection G7.
Qed.

(** The scenario's frame through the gate twice. *)
Lemma quality_gate_idempotent_scenario :
  exists (df' : DataFrame) (c c2 : checks) (w' w3 : World),
    apply_data_quality_checks (from_records scenario_normalized) 5 Sample.empty_world
    = (Ok (df', c), w')
    /\ apply_data_quality_checks df' 5 w' = (Ok (df', c2), w3)
    /\ duplicates c = 1 /\ duplicates c2 = 0
    /\ final_count c2 = 2.
Proof.
  destruct (apply_data_quality_checks (from_records scenario_normalized) 5 Sample.empty_world)
    as [[[df' c]|e] w'] eqn:E.
  - destruct (quality_gate_is_idempotent _ _ _ _ _ _ E w')
      as (c2 & w3 & Hrun & _ & _ & _ & Hdup & Hfin & _).
    exists df', c, c2, w', w3. split; [reflexivity|]. split; [exact Hrun|].
    apply (f_equal fst) in E. vm_compute in E. injection E as <- <-.
    split; [reflexivity|]. split; [exact Hdup|]. rewrite Hfin. reflexivity.
  - exfalso. vm_compute in E. discriminate.
Defined.

(** X11. When no popularity of the frame is null, the report accounts for
    every row: the four rule counters and [final_count] add up to the
    number of rows passed in. *)
Theorem quality_gate_accounts_for_every_row :
  forall (df : DataFrame) (n : Z) (w : World) (df' : DataFrame) (c : checks) (w' : World),
    apply_data_quality_checks df n w = (Ok (df', c), w') ->
    Forall (fun r => isna (cell r "popularity") = false) (rows df) ->
    missing_show_id c + missing_title c + invalid_popularity c + duplicates c + final_count c
    = df_len df.
Proof.
  intros df n w df' c w' H Hnull.
  destruct (quality_gate_inputs _ _ _ _ _ _ H) as (_ & _ & _ & Hord & _).
  apply (gate_counters_sum _ _ _ _ _ _ H).
  intros r Hr. fold (identified (rows df)) in Hr.
  apply negative_or_valid.
  - rewrite Forall_forall in Hord. now apply Hord.
  - rewrite Forall_forall in Hnull. apply Hnull.
    unfold identified in Hr. apply filter_In in Hr as [Hr _]. now apply filter_In in Hr.
Qed.

(** The scenario's frame: one row without [show_id], one with a negative
    popularity, one duplicate and two survivors make five. *)
Lemma quality_gate_accounts_scenario :
  exists (df' : DataFrame) (c : checks) (w' : World),
    apply_data_quality_checks (from_records scenario_normalized) 5 Sample.empty_world
    = (Ok (df', c), w')
    /\ missing_show_id c + missing_title c + invalid_popularity c + duplicates c + final_count c
       = 5.
Proof.
  destruct (apply_data_quality_checks (from_records scenario_normalized) 5 Sample.empty_world)
    as [[[df' c]|e] w'] eqn:E.
  - exists df', c, w'. split; [reflexivity|].
    rewrite (quality_gate_accounts_for_every_row _ _ _ _ _ _ E); [reflexivity|].
    repeat constructor.
  - exfalso. vm_compute in E. discriminate.
Defined.

(** X12. The gate returns on every frame of typed records: when the frame
    has the three columns the gate reads and at most [initial_count] rows,
    every popularity is a null or a number and no [show_id] is a list or a
    map, the gate raises nothing; it returns the eligible rows,
    deduplicated, and logs one line. *)
Theorem quality_gate_total_on_typed_frames :
  forall (df : DataFrame) (n : Z) (w : World),
    mem_str "show_id" (columns df) = true ->
    mem_str "title" (columns df) = true ->
    mem_str "popularity" (columns df) = true ->
    Forall (fun r => orderable (cell r "popularity") = true) (rows df) ->
    Forall (fun r => hashable (show_id_of r) = true) (rows df) ->
    df_len df <= n ->
    exists (c : checks) (w' : World),
      apply_data_quality_checks df n w
      = (Ok (mkDF (columns df) (dedup_first (eligible (rows df))), c), w')
      /\ log w' = InfoDataQuality (final_count c) n (pass_rate c) :: log w
      /\ same_stores w w'.
Proof.
  intros df n w H1 H2 H3 Hord Hhash Hlen.
  set (final := Z.of_nat (List.length (dedup_first (eligible (rows df))))).
  assert (Hfinal : 0 <= final <= df_len df).
  { unfold final, df_len, dedup_first, dedup_from, eligible, identified. split; [lia|].
    apply inj_le. etransitivity; [apply length_select|].
    etransitivity; [apply length_filter_le|].
    etransitivity; [apply length_filter_le|]. apply length_filter_le. }
  assert (Hrate : exists rate,
             (if n >? 0 then py_truediv final n else Ok F64.zero) = Ok rate).
  { destruct (Z.gtb_spec n 0) as [Hn|Hn]; [|now exists F64.zero].
    unfold py_truediv. replace (n =? 0) with false by (symmetry; apply Z.eqb_neq; lia).
    destruct (F64Facts.div_Z_unit_interval final n) as (_ & _ & Hinf); [lia | lia |].
    rewrite Hinf. eexists; reflexivity. }
  destruct Hrate as (rate & Hrate).
  destruct (quality_gate_runs df n w rate H1 H2 H3) as (c & Hrun).
  - apply Forall_forall. intros r Hr. rewrite Forall_forall in Hord. apply Hord.
    unfold identified in Hr. apply filter_In in Hr as [Hr _]. now apply filter_In in Hr.
  - apply forallb_forall. intros k Hk. apply in_map_iff in Hk as (r & <- & Hr).
    rewrite Forall_forall in Hhash. apply Hhash.
    unfold eligible, identified in Hr.
    apply filter_In in Hr as [Hr _]. apply filter_In in Hr as [Hr _].
    now apply filter_In in Hr.
  - exact Hrate.
  - exists c. eexists. split; [exact Hrun|].
    apply quality_gate_returns in Hrun. cbv zeta in Hrun.
    destruct Hrun as (_ & _ & _ & _ & _ & _ & _ & _ & _ & _ & Hlog & Hs & Hc).
    split; [exact Hlog | split; assumption].
Qed.

(** A frame of two typed records, one of them without a title. *)
Lemma quality_gate_total_example :
  let df := from_records [ [("show_id", VInt 1); ("title", VStr "A"); ("popularity", VInt 3)];
                           [("show_id", VInt 2); ("title", VNone); ("popularity", VNone)] ] in
  exists (c : checks) (w' : World),
    apply_data_quality_checks df 2 Sample.empty_world
    = (Ok (mkDF (columns df) [[("show_id", VInt 1); ("title", VStr "A"); ("popularity", VInt 3)]],
           c), w')
    /\ log w' = [InfoDataQuality (final_count c) 2 (pass_rate c)].
Proof.
  intros df.
  destruct (quality_gate_total_on_typed_frames df 2 Sample.empty_world)
    as (c & w' & Hrun & Hlog & _);
    [reflexivity | reflexivity | reflexivity | repeat constructor | repeat constructor
    | subst df; vm_compute; discriminate |].
  exists c, w'. split; [exact Hrun | exact Hlog].
Defined.

(** ** The schema enforcer, column by column *)

Lemma add_missing_keeps_column (df : DataFrame) (labels : list string) (c : string) :
  In c (columns df) ->
  column_of c (rows (add_missing df labels)) = column_of c (rows df).
Proof.
  unfold add_missing. revert df; induction labels as [|k labels IH]; intros df Hc;
    [reflexivity|].
  cbn [fold_left]. destruct (mem_str k (columns df)) eqn:E; [now apply IH|].
  rewrite IH.
  - unfold set_scalar, column_of. cbn [rows]. rewrite map_map.
    apply map_ext. intros r. apply cell_set_cell_other.
    intros ->. apply mem_str_In in Hc. congruence.
  - unfold set_scalar. cbn [columns]. rewrite E. apply in_or_app. now left.
Qed.

Lemma column_of_project (labels : list string) (rs : list row) (c : string) :
  In c labels -> column_of c (map (project labels) rs) = column_of c rs.
Proof.
  intros Hc. unfold column_of. rewrite map_map. apply map_ext.
  intros r. now apply cell_project.
Qed.

Lemma column_of_nulls (rs : list row) (c : string) :
  Forall (fun r => cell r c = VNone) rs -> column_of c rs = repeat VNone (List.length rs).
Proof.
  induction 1 as [|r rs Hr _ IH]; [reflexivity|].
  cbn [column_of map List.length repeat]. rewrite Hr. f_equal. exact IH.
Qed.

Lemma column_before_reindexed (df : DataFrame) (labels : list string) (c : string) :
  In c labels ->
  column_of c (map (project labels) (rows (add_missing df labels))) = column_before df c.
Proof.
  intros Hc. rewrite column_of_project by exact Hc. unfold column_before.
  destruct (mem_str c (columns df)) eqn:E.
  - apply add_missing_keeps_column. now apply mem_str_In.
  - rewrite column_of_nulls, add_missing_rows_length; [reflexivity|].
    apply add_missing_null; [|now apply add_missing_has].
    intros Hin. apply mem_str_In in Hin. congruence.
Qed.

Section ColumnCast.

Variable astype : dtype -> list value -> result (list value).
Variable labels : list string.

(** One turn of the cast loop on its own column. *)
Lemma cast_pure_own_column (df : DataFrame) (c : string) (d : dtype) :
  shaped labels df -> In c labels ->
  let before := column_of c (rows df) in
  let after := column_of c (rows (cast_pure astype df (c, d))) in
  (castable d = false -> after = before)
  /\ (forall e, astype d before = Raise e -> after = before)
  /\ (castable d = true ->
      forall s, astype d before = Ok s -> List.length s = List.length before -> after = s).
Proof.
  intros Hdf Hc. cbv zeta. unfold cast_pure. cbn [fst snd].
  rewrite (getitem_shaped labels df c Hdf Hc). unfold astype_ignore.
  split; [now intros ->|]. split.
  - intros e He. destruct (castable d); [|reflexivity]. rewrite He.
    destruct e; try reflexivity; unfold set_series; cbn [rows];
      rewrite (set_cells_same labels) by (assumption || apply Hdf); reflexivity.
  - intros -> s Hs Hlen.
    rewrite Hs. unfold set_series. cbn [rows]. apply column_set_cells_same.
    rewrite Hlen. unfold column_of. apply length_map.
Qed.

(** The cast loop over a schema without repeated labels: each column is
    cast once, by its own turn. *)
Lemma fold_cast_own_column (schema : list (string * dtype)) (df : DataFrame)
      (c : string) (d : dtype) :
  incl (map fst schema) labels -> NoDup (map fst schema) -> shaped labels df ->
  In (c, d) schema ->
  let before := column_of c (rows df) in
  let after := column_of c (rows (fold_left (cast_pure astype) schema df)) in
  (castable d = false -> after = before)
  /\ (forall e, astype d before = Raise e -> after = before)
  /\ (castable d = true ->
      forall s, astype d before = Ok s -> List.length s = List.length before -> after = s).
Proof.
  revert df; induction schema as [|[c0 d0] schema IH]; intros df Hin Hnd Hdf Hcd;
    [contradiction|].
  cbn [map fst] in Hnd. inversion Hnd as [|? ? Hfresh Hnd']; subst.
  assert (Hc0 : In c0 labels) by (apply Hin; now left).
  assert (Hin' : incl (map fst schema) labels) by (intros x Hx; apply Hin; now right).
  cbn [fold_left]. cbv zeta. destruct Hcd as [[= -> ->]|Hcd].
  - rewrite fold_cast_other_column by exact Hfresh.
    now apply cast_pure_own_column.
  - assert (Hne : c <> c0).
    { intros ->. apply Hfresh. apply in_map_iff. now exists (c0, d). }
    pose proof (IH (cast_pure astype df (c0, d0)) Hin' Hnd'
                   (cast_pure_shaped astype labels df (c0, d0) Hc0 Hdf) Hcd) as H.
    cbv zeta in H. rewrite (cast_pure_other_column astype df (c0, d0) c Hne) in H.
    exact H.
Qed.

End ColumnCast.

(** X13. [enforce_schema] never raises, whatever the cast of pandas does,
    and treats each column of the schema on its own. The column it starts
    from is the input's, or nulls when the input lacks it. A column of
    dtype [object] comes out as it went in; a column whose cast raises,
    whether [errors='ignore'] swallows the error or the handler logs it,
    comes out as it went in; a column whose cast succeeds comes out cast.
    A failing cast on one column changes no other column. *)
Theorem enforce_schema_casts_each_column :
  forall (astype : dtype -> list value -> result (list value)) (df : DataFrame) (w : World),
  exists (df' : DataFrame) (w' : World),
    enforce_schema astype df SILVER_SCHEMA w = (Ok df', w')
    /\ same_stores w w'
    /\ (forall c d, In (c, d) SILVER_SCHEMA ->
          let before := column_before df c in
          let after := column_of c (rows df') in
          (castable d = false -> after = before)
          /\ (forall e, astype d before = Raise e -> after = before)
          /\ (castable d = true ->
              forall s, astype d before = Ok s ->
                        List.length s = List.length before -> after = s))
    /\ column_of "genre_ids" (rows df') = column_before df "genre_ids"
    /\ column_of "origin_country" (rows df') = column_before df "origin_country".
Proof.
  intros astype df w.
  destruct (enforce_schema_pure astype df SILVER_SCHEMA w) as (w' & Hrun & Hst).
  exists (enforce_pure astype df SILVER_SCHEMA), w'.
  split; [exact Hrun|]. split; [exact Hst|].
  assert (Hcol : forall c d, In (c, d) SILVER_SCHEMA ->
            let before := column_before df c in
            let after := column_of c (rows (enforce_pure astype df SILVER_SCHEMA)) in
            (castable d = false -> after = before)
            /\ (forall e, astype d before = Raise e -> after = before)
            /\ (castable d = true ->
                forall s, astype d before = Ok s ->
                          List.length s = List.length before -> after = s)).
  { intros c d Hcd. cbv zeta. unfold enforce_pure. cbv zeta.
    assert (Hc : In c (map fst SILVER_SCHEMA)) by (apply in_map_iff; now exists (c, d)).
    rewrite <- (column_before_reindexed df (map fst SILVER_SCHEMA) c Hc).
    remember (mkDF (map fst SILVER_SCHEMA)
                   (map (project (map fst SILVER_SCHEMA))
                        (rows (add_missing df (map fst SILVER_SCHEMA))))) as df0 eqn:Edf0.
    assert (Hsh : shaped (map fst SILVER_SCHEMA) df0)
      by (rewrite Edf0; apply shaped_reindexed).
    replace (map (project (map fst SILVER_SCHEMA))
                 (rows (add_missing df (map fst SILVER_SCHEMA))))
      with (rows df0) by (rewrite Edf0; reflexivity).
    clear Edf0.
    assert (Hnd : NoDup (map fst SILVER_SCHEMA))
      by (repeat constructor; cbn; intuition discriminate).
    exact (fold_cast_own_column astype (map fst SILVER_SCHEMA) SILVER_SCHEMA df0 c d
             (incl_refl _) Hnd Hsh Hcd). }
  split; [exact Hcol|]. split.
  - destruct (Hcol "genre_ids" object_dtype) as (H & _);
      [do 7 right; left; reflexivity | exact (H eq_refl)].
  - destruct (Hcol "origin_country" object_dtype) as (H & _);
      [do 8 right; left; reflexivity | exact (H eq_refl)].
Qed.

(** ** The loop and the stores *)

(** The loop, however it ends: it touches neither the store nor the
    metrics, it raises nothing but the [AttributeError] of its own failure
    handler, and it keeps at most one record per raw record. *)
Lemma normalize_loop_any (clock : nat -> instant)
      (float_of_str : string -> option spec_float) (items : list value) :
  forall (acc : list dict) (w : World) (r : result (list dict)) (w' : World),
    normalize_loop clock float_of_str items acc w = (r, w') ->
    same_stores w w'
    /\ match r with
       | Ok normalized =>
           (List.length normalized <= List.length acc + List.length items)%nat
       | Raise e => e = AttributeError
       end.
Proof.
  induction items as [|x items IH]; intros acc w r w' H.
  - cbn in H. injection H as <- <-. split; [split; reflexivity | cbn; lia].
  - cbn [normalize_loop] in H. unfold bind at 1 in H. unfold try_except in H.
    unfold bind at 1 in H.
    destruct (normalize_show clock float_of_str x w) as [[rec|e] w1] eqn:E.
    + destruct (normalize_show_unstamped clock float_of_str x w rec w1 E) as [_ [Hs1 Hc1]].
      cbn [ret] in H. apply IH in H as ([Hs Hc] & Hr).
      split; [split; congruence|].
      destruct r; [|exact Hr]. rewrite length_app in Hr. cbn [List.length] in *. lia.
    + assert (Hw1 : w1 = w).
      { unfold normalize_show in E. destruct x; try (now injection E).
        rewrite bind_lift in E. destruct (py_float float_of_str _); [discriminate|].
        now injection E. }
      subst w1. rewrite bind_lift in H. destruct (py_get x "id") as [i|e'] eqn:Eg.
      * unfold bind, logger, ret in H. apply IH in H as ([Hs Hc] & Hr).
        cbn [s3_objects cloudwatch_puts] in Hs, Hc.
        split; [split; assumption|].
        destruct r; [|exact Hr]. cbn [List.length]. lia.
      * injection H as <- <-. split; [split; reflexivity|].
        destruct x; cbn in Eg; congruence.
Qed.

(** ** Reading the store after a run *)

Lemma s3_lookup_written (w w' : World) (bucket key : string) (body : s3_body) :
  s3_objects w' = (bucket, key, body) :: s3_objects w ->
  s3_lookup w' bucket key = Some body
  /\ (forall b k, (b, k) <> (bucket, key) -> s3_lookup w' b k = s3_lookup w b k).
Proof.
  intros H. unfold s3_lookup. rewrite H. cbn [find fst snd]. split.
  - now rewrite !String.eqb_refl.
  - intros b k Hne.
    destruct (String.eqb bucket b) eqn:Eb; [|reflexivity].
    destruct (String.eqb key k) eqn:Ek; [|reflexivity].
    apply String.eqb_eq in Eb, Ek. congruence.
Qed.

(** X15. After a run that wrote, the Silver key reads back as the frame of
    this run, with [records_processed] rows: whatever stood under that key
    before, the batch of an earlier file of the same partition included, is
    replaced, not extended. Every other object reads as before. *)
Theorem silver_object_is_the_latest_batch :
  forall (clock : nat -> instant) (ENVIRONMENT : string)
         (float_of_str : string -> option spec_float)
         (astype : dtype -> list value -> result (list value))
         (bucket key : string) (w : World) (s : summary) (w' : World) (k : string),
    process_bronze_file clock ENVIRONMENT float_of_str astype bucket key w = (Ok s, w') ->
    silver_key s = Some k ->
    exists df,
      s3_lookup w' bucket k = Some (Parquet df)
      /\ records_processed s = df_len df
      /\ (forall b k', (b, k') <> (bucket, k) -> s3_lookup w' b k' = s3_lookup w b k').
Proof.
  intros clock ENVIRONMENT float_of_str astype bucket key w s w' k Hrun Hk.
  apply process_returns in Hrun as (d & _ & [(_ & -> & _)|(_ & Hrun)]); [discriminate|].
  destruct Hrun as (n & items & normalized & w1 & df & c & w2 & category & date & md
                    & _ & _ & _ & _ & -> & Hs3 & _).
  cbn [silver_key] in Hk. injection Hk as <-.
  exists (enforce_pure astype df SILVER_SCHEMA).
  destruct (s3_lookup_written _ _ _ _ _ Hs3) as [Hnew Hold].
  split; [exact Hnew|]. split; [reflexivity | exact Hold].
Qed.

(** Two Bronze files of one partition, processed one after the other: the
    Silver object holds the one show of the second file, not the two of
    the first. *)
Lemma silver_object_overwritten_example :
  let k1 := "bronze/shows/trending/dt=2024-03-01/a.json" in
  let k2 := "bronze/shows/trending/dt=2024-03-01/b.json" in
  let p := "silver/shows/trending/dt=2024-03-01/data.parquet" in
  let doc1 := VDict [("results", VList [VDict [("id", VInt 1); ("name", VStr "A")];
                                        VDict [("id", VInt 2); ("name", VStr "B")]])] in
  let doc2 := VDict [("results", VList [VDict [("id", VInt 3); ("name", VStr "C")]])] in
  let w := mkWorld 0 [] [("tally", k1, Json doc1); ("tally", k2, Json doc2)] [] in
  let run k := process_bronze_file Sample.clock Sample.ENVIRONMENT Sample.float_of_str
                 Sample.astype "tally" k in
  outcome (run k1) w = Ok (mkSummary 2 F64.one (Some p))
  /\ exists s2 w2 df,
       run k2 (final (run k1) w) = (Ok s2, w2)
       /\ silver_key s2 = Some p
       /\ s3_lookup w2 "tally" p = Some (Parquet df)
       /\ df_len df = 1.
Proof.
  intros k1 k2 p doc1 doc2 w run.
  split; [vm_compute; reflexivity|].
  destruct (run k2 (final (run k1) w)) as [[s2|e] w2] eqn:E2.
  - assert (Hs2 : s2 = mkSummary 1 F64.one (Some p)).
    { apply (f_equal fst) in E2. vm_compute in E2. now injection E2 as <-. }
    assert (Hk : silver_key s2 = Some p) by (rewrite Hs2; reflexivity).
    destruct (silver_object_is_the_latest_batch Sample.clock Sample.ENVIRONMENT
                Sample.float_of_str Sample.astype "tally" k2 (final (run k1) w) s2 w2 p
                E2 Hk) as (df & Hread & Hlen & _).
    exists s2, w2, df. split; [reflexivity|]. split; [exact Hk|]. split; [exact Hread|].
    rewrite <- Hlen, Hs2. reflexivity.
  - exfalso. apply (f_equal fst) in E2. vm_compute in E2. discriminate.
Defined.

(** ** A document whose results are not a list *)

(** X16. [results] has to be a list. When the document holds something
    else there that is not falsy, the run raises and writes nothing: a
    number or [True] has no [len] ([TypeError]); a string or a map is
    iterated, character by character or key by key, and the first item,
    a string, has no [get] ([AttributeError], raised by the failure handler
    of the loop itself). *)
Theorem results_must_be_a_list :
  forall (clock : nat -> instant) (ENVIRONMENT : string)
         (float_of_str : string -> option spec_float)
         (astype : dtype -> list value -> result (list value))
         (bucket key : string) (d : dict) (v : value) (w : World),
    s3_lookup w bucket key = Some (Json (VDict d)) ->
    dict_lookup d "results" = Some v ->
    truthy v = true ->
    (forall l, v <> VList l) ->
    let run := process_bronze_file clock ENVIRONMENT float_of_str astype bucket key in
    outcome run w = Raise (match v with
                           | VStr _ | VDict _ => AttributeError
                           | _ => TypeError
                           end)
    /\ same_stores w (final run w).
Proof.
  intros clock ENVIRONMENT float_of_str astype bucket key d v w Hobj Hres Ht Hlist.
  cbv zeta.
  assert (H : exists w',
             process_bronze_file clock ENVIRONMENT float_of_str astype bucket key w
             = (Raise (match v with
                       | VStr _ | VDict _ => AttributeError
                       | _ => TypeError
                       end), w')
             /\ same_stores w w').
  { unfold process_bronze_file. unfold bind at 1. unfold get_json. rewrite Hobj.
    rewrite bind_lift. unfold dict_get_default. rewrite Hres, Ht. cbn [negb].
    destruct v as [| b | z | f | s | l | d'].
    - discriminate.
    - exists w. split; [reflexivity | split; reflexivity].
    - exists w. split; [reflexivity | split; reflexivity].
    - exists w. split; [reflexivity | split; reflexivity].
    - destruct s as [|c s]; [discriminate|].
      rewrite bind_lift. cbn [py_len py_iter list_ascii_of_string map].
      unfold bind at 1. unfold logger at 1. rewrite bind_lift. unfold bind at 1.
      match goal with |- context [normalize_loop _ _ (?x :: ?post) [] ?w0] =>
        destruct (normalize_loop_stops_at_non_map clock float_of_str [] x post
                    (Forall_nil _) eq_refl [] w0) as (w' & Hloop & Hs & Hc) end.
      cbn [app] in Hloop. rewrite Hloop. cbn [s3_objects cloudwatch_puts] in Hs, Hc.
      exists w'. split; [reflexivity | split; assumption].
    - exfalso. now apply (Hlist l).
    - destruct d' as [|[k x] d']; [discriminate|].
      rewrite bind_lift. cbn [py_len py_iter map fst].
      unfold bind at 1. unfold logger at 1. rewrite bind_lift. unfold bind at 1.
      match goal with |- context [normalize_loop _ _ (?x :: ?post) [] ?w0] =>
        destruct (normalize_loop_stops_at_non_map clock float_of_str [] x post
                    (Forall_nil _) eq_refl [] w0) as (w' & Hloop & Hs & Hc) end.
      cbn [app] in Hloop. rewrite Hloop. cbn [s3_objects cloudwatch_puts] in Hs, Hc.
      exists w'. split; [reflexivity | split; assumption]. }
  destruct H as (w' & Hrun & Hst). unfold outcome, final. rewrite Hrun.
  split; [reflexivity | exact Hst].
Qed.

(** A document whose [results] are the text of a list, not a list. *)
Lemma results_must_be_a_list_example :
  let key := "bronze/shows/trending/dt=2024-03-01/x.json" in
  let w := Sample.bronze_world "tally" key (VDict [("results", VStr "[]")]) in
  let run := process_bronze_file Sample.clock Sample.ENVIRONMENT Sample.float_of_str
               Sample.astype "tally" key in
  outcome run w = Raise AttributeError /\ same_stores w (final run w).
Proof.
  intros key w.
  apply (results_must_be_a_list Sample.clock Sample.ENVIRONMENT Sample.float_of_str
           Sample.astype "tally" key [("results", VStr "[]")] (VStr "[]") w);
    try reflexivity.
  discriminate.
Defined.

(** ** The Lambda entry point *)

Section EntryFacts.

Variable clock : nat -> instant.
Variable ENVIRONMENT : string.
Variable float_of_str : string -> option spec_float.
Variable astype : dtype -> list value -> result (list value).
Variable unquote_plus : string -> string.

Let process := process_bronze_file clock ENVIRONMENT float_of_str astype.
Let record_turn := process_record clock ENVIRONMENT float_of_str astype unquote_plus.
Let turns := records_loop clock ENVIRONMENT float_of_str astype unquote_plus.

Lemma entry_bind_lift {A B : Type} (r : result A) (k : A -> Entry B) (i : Invocation) :
  entry_bind (entry_lift r) k i
  = match r with Ok a => k a i | Raise e => (Failed (Raised e), i) end.
Proof. destruct r; reflexivity. Qed.

(** One turn on a record of an S3 event: the object is processed under
    its decoded key, between two log lines of the handler. *)
Lemma process_record_s3 (object : string * string) (acc : list summary) (i : Invocation) :
  record_turn (s3_record object) acc i
  = match process (fst object) (unquote_plus (snd object)) (world i) with
    | (Ok s, w') =>
        (Returned (acc ++ [s]),
         noted (InfoProcessed (records_processed s) (quality_pass_rate s))
               (mkInvocation w'
                  (handler_log
                     (noted (InfoProcessing (VStr (fst object)) (unquote_plus (snd object))) i))))
    | (Raise e, w') =>
        (Failed (Raised e),
         mkInvocation w'
           (handler_log
              (noted (InfoProcessing (VStr (fst object)) (unquote_plus (snd object))) i)))
    end.
Proof.
  destruct object as [b k]. unfold record_turn, process_record, s3_record.
  repeat (rewrite entry_bind_lift;
          cbn [py_subscript py_unquote_plus dict_lookup String.eqb Ascii.eqb Bool.eqb fst snd]).
  unfold entry_bind at 1. unfold handler_logger at 1.
  unfold entry_bind at 1. unfold call_process_bronze_file, in_pipeline. cbn [world handler_log].
  fold process.
  destruct (process b (unquote_plus k) (world i)) as [[s|e] w']; reflexivity.
Qed.

(** One turn, however the record looks: when it returns it has appended
    one result and logged two lines; when it fails it has logged no error
    line. *)
Lemma process_record_outcome (record : value) (acc : list summary) (i : Invocation)
      (r : handler_result (list summary)) (i' : Invocation) :
  record_turn record acc i = (r, i') ->
  match r with
  | Returned results =>
      exists s n1 n2 b k,
        results = acc ++ [s]
        /\ handler_log i'
           = (n2, InfoProcessed (records_processed s) (quality_pass_rate s))
               :: (n1, InfoProcessing b k) :: handler_log i
  | Failed e =>
      handler_log i' = handler_log i
      \/ exists n b k, handler_log i' = (n, InfoProcessing b k) :: handler_log i
  end.
Proof.
  unfold record_turn, process_record.
  assert (Hfail : forall e : exn,
             (@Failed (list summary) (Raised e), i) = (r, i') ->
             match r with
             | Returned results =>
                 exists s n1 n2 b k,
                   results = acc ++ [s]
                   /\ handler_log i'
                      = (n2, InfoProcessed (records_processed s) (quality_pass_rate s))
                          :: (n1, InfoProcessing b k) :: handler_log i
             | Failed e =>
                 handler_log i' = handler_log i
                 \/ exists n b k, handler_log i' = (n, InfoProcessing b k) :: handler_log i
             end).
  { intros e [= <- <-]. left; reflexivity. }
  rewrite entry_bind_lift.
  destruct (py_subscript record "s3") as [s3_part|e0]; [|apply Hfail].
  rewrite entry_bind_lift.
  destruct (py_subscript s3_part "bucket") as [bucket_part|e0]; [|apply Hfail].
  rewrite entry_bind_lift.
  destruct (py_subscript bucket_part "name") as [bucket|e0]; [|apply Hfail].
  rewrite entry_bind_lift. rewrite entry_bind_lift.
  destruct (py_subscript s3_part "object") as [object_part|e0]; [|apply Hfail].
  rewrite entry_bind_lift.
  destruct (py_subscript object_part "key") as [raw_key|e0]; [|apply Hfail].
  rewrite entry_bind_lift.
  destruct (py_unquote_plus unquote_plus raw_key) as [key|e0]; [|apply Hfail].
  clear Hfail.
  unfold entry_bind at 1. unfold handler_logger at 1.
  unfold entry_bind at 1. unfold call_process_bronze_file.
  destruct bucket as [| | | | b | |];
    try (unfold entry_raise; intros [= <- <-]; cbn [world handler_log]; right; eauto).
  unfold in_pipeline. cbn [world handler_log]. fold process.
  destruct (process b key (world i)) as [[s|e] w'] eqn:E.
  - unfold entry_bind, handler_logger, entry_ret. cbn [world handler_log].
    intros [= <- <-]. cbn [handler_log]. eauto 10.
  - intros [= <- <-]. cbn [world handler_log]. right; eauto.
Qed.

(** The loop, however it ends: when it returns it has appended one result
    per record and logged two lines per record; it never logs an error. *)
Lemma records_loop_outcome (records : list value) :
  forall (acc : list summary) (i : Invocation)
         (r : handler_result (list summary)) (i' : Invocation),
    turns records acc i = (r, i') ->
    (exists lines, handler_log i' = lines ++ handler_log i
                   /\ Forall (fun l => forall e, snd l <> ErrorEtl e) lines
                   /\ match r with
                      | Returned _ => List.length lines = (2 * List.length records)%nat
                      | Failed _ => True
                      end)
    /\ match r with
       | Returned results =>
           List.length results = (List.length acc + List.length records)%nat
       | Failed _ => True
       end.
Proof.
  induction records as [|record rest IH]; intros acc i r i' H.
  - cbn in H. injection H as <- <-. split; [|cbn; lia].
    exists []. split; [reflexivity|]. split; [constructor | reflexivity].
  - unfold turns in H. cbn [records_loop] in H. fold turns in H. fold record_turn in H.
    unfold entry_bind in H.
    destruct (record_turn record acc i) as [[results|e] i1] eqn:E.
    + apply process_record_outcome in E as (s & n1 & n2 & b & k & -> & Hlog1).
      apply IH in H as ((lines & Hlog & Hall & Hlen) & Hres).
      split.
      * exists (lines ++ [(n2, InfoProcessed (records_processed s) (quality_pass_rate s));
                          (n1, InfoProcessing b k)]).
        rewrite Hlog, Hlog1, <- app_assoc. split; [reflexivity|]. split.
        -- apply Forall_app. split; [exact Hall|].
           repeat constructor; cbn; discriminate.
        -- destruct r; [|exact I]. rewrite length_app. cbn [List.length]. lia.
      * destruct r; [|exact I]. rewrite length_app in Hres. cbn [List.length] in *. lia.
    + injection H as <- <-. apply process_record_outcome in E as Hlog.
      split; [|exact I].
      destruct Hlog as [Hlog|(n & b & k & Hlog)].
      * exists []. split; [exact Hlog|]. split; [constructor | exact I].
      * exists [(n, InfoProcessing b k)]. split; [exact Hlog|].
        split; [|exact I]. repeat constructor; cbn; discriminate.
Qed.

End EntryFacts.

Lemma records_loop_app (clock : nat -> instant) (ENVIRONMENT : string)
      (float_of_str : string -> option spec_float)
      (astype : dtype -> list value -> result (list value))
      (unquote_plus : string -> string) (l1 l2 : list value) :
  forall (acc : list summary) (i : Invocation),
    records_loop clock ENVIRONMENT float_of_str astype unquote_plus (l1 ++ l2) acc i
    = match records_loop clock ENVIRONMENT float_of_str astype unquote_plus l1 acc i with
      | (Returned results, i1) =>
          records_loop clock ENVIRONMENT float_of_str astype unquote_plus l2 results i1
      | (Failed e, i1) => (Failed e, i1)
      end.
Proof.
  induction l1 as [|x l1 IH]; intros acc i; [reflexivity|].
  cbn [app records_loop]. unfold entry_bind.
  destruct (process_record clock ENVIRONMENT float_of_str astype unquote_plus x acc i)
    as [[results|e] i1]; [apply IH | reflexivity].
Qed.

(** X17. The contract of [lambda_handler]. When it returns, the status is
    200, [files_processed] is the number of records of the event, there is
    one result per record, and the handler has logged its opening line and
    two lines per record, none of them an error. When it raises, the last
    line it logged is the error line of the very exception it raises, and
    it is the only error line. *)
Theorem lambda_handler_contract :
  forall (clock : nat -> instant) (ENVIRONMENT : string)
         (float_of_str : string -> option spec_float)
         (astype : dtype -> list value -> result (list value))
         (unquote_plus : string -> string)
         (event context : value) (i : Invocation),
    exists (lines : list (nat * handler_log_entry)),
      Forall (fun l => forall e, snd l <> ErrorEtl e) lines
      /\ match lambda_handler clock ENVIRONMENT float_of_str astype unquote_plus
                 event context i with
         | (Returned resp, i') =>
             exists records items results,
               py_subscript event "Records" = Ok records
               /\ py_iter records = Ok items
               /\ List.length results = List.length items
               /\ resp = mkResponse 200
                           (Dumps (VDict [ ("message", VStr "ETL completed successfully");
                                           ("files_processed",
                                            VInt (Z.of_nat (List.length items)));
                                           ("results", VList (map summary_dict results)) ]))
               /\ List.length lines = (2 * List.length items)%nat
               /\ handler_log i' = lines ++ handler_log (noted InfoStarting i)
         | (Failed e, i') =>
             exists n, handler_log i'
                       = (n, ErrorEtl e) :: lines ++ handler_log (noted InfoStarting i)
         end.
Proof.
  intros clock ENVIRONMENT float_of_str astype unquote_plus event context i.
  unfold lambda_handler. unfold entry_bind at 1. unfold handler_logger at 1.
  fold (noted InfoStarting i). unfold try_log_raise.
  rewrite entry_bind_lift.
  destruct (py_subscript event "Records") as [records|e0] eqn:Hrecords.
  2:{ exists []. split; [constructor|]. eexists. reflexivity. }
  rewrite entry_bind_lift.
  destruct (py_iter records) as [items|e0] eqn:Hitems.
  2:{ exists []. split; [constructor|]. eexists. reflexivity. }
  unfold entry_bind.
  destruct (records_loop clock ENVIRONMENT float_of_str astype unquote_plus items []
              (noted InfoStarting i)) as [[results|e] i1] eqn:E;
    apply records_loop_outcome in E as ((lines & Hlog & Hall & Hlen) & Hres);
    exists lines; (split; [exact Hall|]).
  - unfold entry_ret. exists records, items, results. cbn [List.length] in Hres.
    split; [reflexivity|]. split; [exact Hitems|]. split; [exact Hres|].
    split; [now rewrite Hres|]. split; [exact Hlen | exact Hlog].
  - eexists. cbn [handler_log]. now rewrite Hlog.
Qed.

(** X18. The handler stops at the first record that fails and undoes
    nothing. When the records up to some point have been processed and the
    next one fails, whether it is malformed or its file cannot be
    processed, [lambda_handler] raises that very error and logs it once
    more; the invocation ends in the state in which the failing record left
    it, which holds whatever the records before it wrote; the records after
    it are not looked at. *)
Theorem earlier_records_stay_processed :
  forall (clock : nat -> instant) (ENVIRONMENT : string)
         (float_of_str : string -> option spec_float)
         (astype : dtype -> list value -> result (list value))
         (unquote_plus : string -> string)
         (done : list value) (bad : value) (rest : list value) (context : value)
         (i : Invocation) (results : list summary) (i1 : Invocation)
         (e : handler_exn) (i2 : Invocation),
    records_loop clock ENVIRONMENT float_of_str astype unquote_plus done []
                 (noted InfoStarting i) = (Returned results, i1) ->
    process_record clock ENVIRONMENT float_of_str astype unquote_plus bad results i1
    = (Failed e, i2) ->
    lambda_handler clock ENVIRONMENT float_of_str astype unquote_plus
                   (VDict [("Records", VList (done ++ bad :: rest))]) context i
    = (Failed e, noted (ErrorEtl e) i2).
Proof.
  intros clock ENVIRONMENT float_of_str astype unquote_plus done bad rest context
         i results i1 e i2 Hdone Hbad.
  unfold lambda_handler. unfold entry_bind at 1. unfold handler_logger at 1.
  fold (noted InfoStarting i). unfold try_log_raise.
  rewrite entry_bind_lift. cbn [py_subscript dict_lookup String.eqb Ascii.eqb Bool.eqb].
  rewrite entry_bind_lift. cbn [py_iter].
  unfold entry_bind at 1. rewrite records_loop_app, Hdone.
  cbn [records_loop]. unfold entry_bind at 1. rewrite Hbad. reflexivity.
Qed.

(** An event of two objects, the second of which is not in the bucket:
    the invocation fails with the error of the read, and the Silver object
    of the first is in the store. *)
Lemma earlier_records_example :
  let k1 := "bronze/shows/trending/dt=2024-03-01/a.json" in
  let k2 := "bronze/shows/trending/dt=2024-03-01/gone.json" in
  let w := Sample.bronze_world "tally" k1
             (VDict [("results", VList [VDict [("id", VInt 1); ("name", VStr "A")]])]) in
  exists i',
    lambda_handler Sample.clock Sample.ENVIRONMENT Sample.float_of_str Sample.astype
      SampleEntry.unquote_plus
      (VDict [("Records", VList ([s3_record ("tally", k1)] ++ s3_record ("tally", k2) :: []))])
      VNone (SampleEntry.start w)
    = (Failed (Raised ClientError), i')
    /\ exists df,
         s3_lookup (world i') "tally" "silver/shows/trending/dt=2024-03-01/data.parquet"
         = Some (Parquet df).
Proof.
  intros k1 k2 w.
  set (r1 := records_loop Sample.clock Sample.ENVIRONMENT Sample.float_of_str Sample.astype
               SampleEntry.unquote_plus [s3_record ("tally", k1)] []
               (noted InfoStarting (SampleEntry.start w))).
  set (results := match fst r1 with Returned l => l | Failed _ => [] end).
  set (r2 := process_record Sample.clock Sample.ENVIRONMENT Sample.float_of_str Sample.astype
               SampleEntry.unquote_plus (s3_record ("tally", k2)) results (snd r1)).
  assert (Hdone : r1 = (Returned results, snd r1)) by (vm_compute; reflexivity).
  assert (Hbad : r2 = (Failed (Raised ClientError), snd r2)) by (vm_compute; reflexivity).
  pose proof (earlier_records_stay_processed Sample.clock Sample.ENVIRONMENT
                Sample.float_of_str Sample.astype SampleEntry.unquote_plus
                [s3_record ("tally", k1)] (s3_record ("tally", k2)) [] VNone
                (SampleEntry.start w) results (snd r1) (Raised ClientError) (snd r2)
                Hdone Hbad) as Hrun.
  exists (noted (ErrorEtl (Raised ClientError)) (snd r2)).
  split; [exact Hrun|].
  vm_compute. eexists. reflexivity.
Defined.

(** ** What a run publishes *)

Lemma extract_data_type_outcome (key : string) (w w0 : World) (category : string) (w' : World) :
  extract_data_type key w = (Ok category, w') ->
  outcome (extract_data_type key) w0 = Ok category.
Proof.
  unfold outcome, extract_data_type. destruct (Re.search data_type_pattern key).
  - now intros [= <- _].
  - now intros [= <- _].
Qed.

(** A run that wrote, laid out: the partition it resolved, the object it
    wrote and the metrics it published. *)
Lemma process_wrote (clock : nat -> instant) (ENVIRONMENT : string)
      (float_of_str : string -> option spec_float)
      (astype : dtype -> list value -> result (list value))
      (bucket key : string) (w : World) (s : summary) (w' : World) (k : string) :
  process_bronze_file clock ENVIRONMENT float_of_str astype bucket key w = (Ok s, w') ->
  silver_key s = Some k ->
  exists (category date : string) (df : DataFrame) (failed : Z) (t1 t2 t3 : instant)
         (wa wb wc : World),
    extract_partition_date clock key wa = (Ok date, wb)
    /\ extract_data_type key wb = (Ok category, wc)
    /\ k = silver_path category date
    /\ s3_objects w' = (bucket, k, Parquet df) :: s3_objects w
    /\ df_len df = records_processed s
    /\ cloudwatch_puts w'
       = ("Tally/DataQuality",
          [ mkMetric "DataQualityPassRate"
                     (VFloat (F64.mul (quality_pass_rate s) F64.hundred)) "Percent" t1
                     [("Environment", ENVIRONMENT); ("DataType", category)];
            mkMetric "RecordsProcessed" (VInt (records_processed s)) "Count" t2
                     [("Environment", ENVIRONMENT); ("DataType", category)];
            mkMetric "RecordsFailed" (VInt failed) "Count" t3
                     [("Environment", ENVIRONMENT); ("DataType", category)] ])
         :: cloudwatch_puts w.
Proof.
  intros H Hk.
  unfold process_bronze_file in H.
  apply bind_inv in H as (raw & wa & Hget & H).
  unfold get_json in Hget.
  destruct (s3_lookup w bucket key) as [[v|?]|] eqn:Hobj; try discriminate.
  injection Hget as -> <-.
  apply bind_inv in H as (shows & wb & Hshows & H).
  apply lift_inv in Hshows as [Hshows ->].
  destruct raw as [| | | | | |d]; try discriminate. injection Hshows as <-.
  destruct (truthy (dict_get_default d "results" (VList []))) eqn:Ht; cbn [negb] in H.
  2:{ unfold bind, logger, ret in H. injection H as <- <-. discriminate. }
  apply bind_inv in H as (n & wc & Hn & H). apply lift_inv in Hn as [Hn ->].
  apply bind_inv in H as ([] & wd & Hlog & H). injection Hlog as <-.
  apply bind_inv in H as (items & we & Hitems & H). apply lift_inv in Hitems as [Hitems ->].
  apply bind_inv in H as (normalized & w1 & Hloop & H).
  apply bind_inv in H as ([df c] & w2 & Hgate & H).
  apply bind_inv in H as (df2 & w3 & Henf & H).
  destruct (enforce_schema_pure astype df SILVER_SCHEMA w2) as (w3' & Henf' & Hs3 & Hc3).
  rewrite Henf' in Henf. injection Henf as <- <-.
  apply bind_inv in H as (date & w4 & Hdate & H).
  destruct (extract_partition_date_runs clock key w3') as (date' & w4' & Hdate' & Hs4 & Hc4).
  rewrite Hdate' in Hdate. injection Hdate as <- <-.
  apply bind_inv in H as (category & w5 & Hcat & H).
  destruct (extract_data_type_runs key w4') as (cat' & w5' & Hcat' & Hs5 & Hc5).
  rewrite Hcat' in Hcat. injection Hcat as <- <-.
  fold (silver_path cat' date') in H.
  apply normalize_loop_any in Hloop as ([Hs1 Hc1] & _).
  apply quality_gate_returns in Hgate as Hg. cbv zeta in Hg.
  destruct Hg as (_ & _ & _ & _ & _ & _ & Hfin & _ & _ & _ & _ & Hs2 & Hc2).
  cbn [s3_objects cloudwatch_puts] in Hs1, Hc1.
  unfold bind, write_to_silver, publish_quality_metrics, bind, upload_file, logger,
    datetime_now, put_metric_data, ret in H.
  cbn [s3_objects cloudwatch_puts log now_calls] in H.
  injection H as <- <-.
  cbn [silver_key] in Hk. injection Hk as <-.
  exists cat', date', (enforce_pure astype df SILVER_SCHEMA), (failed_count c).
  do 3 eexists. exists w3', w4', w5'.
  cbn [s3_objects cloudwatch_puts records_processed quality_pass_rate].
  split; [exact Hdate'|]. split; [exact Hcat'|].
  split; [reflexivity|].
  split; [rewrite Hs5, Hs4, Hs3, Hs2, Hs1; reflexivity|].
  split; [reflexivity|].
  rewrite Hc5, Hc4, Hc3, Hc2, Hc1.
  rewrite enforce_pure_length. unfold df_len. rewrite <- Hfin. reflexivity.
Qed.

(** X19. What a run that wrote publishes matches what it wrote and what it
    returns: one call to CloudWatch under [Tally/DataQuality] with the
    three metrics [DataQualityPassRate] (percent), [RecordsProcessed] and
    [RecordsFailed] (counts), each tagged with the environment and with the
    very category of the Silver key; [RecordsProcessed] is the
    [records_processed] of the result and the number of rows written,
    [DataQualityPassRate] is a hundred times its [quality_pass_rate]. *)
Theorem published_metrics_match_written_batch :
  forall (clock : nat -> instant) (ENVIRONMENT : string)
         (float_of_str : string -> option spec_float)
         (astype : dtype -> list value -> result (list value))
         (bucket key : string) (w : World) (s : summary) (w' : World) (k : string),
    process_bronze_file clock ENVIRONMENT float_of_str astype bucket key w = (Ok s, w') ->
    silver_key s = Some k ->
    exists (category date : string) (df : DataFrame) (failed : Z) (t1 t2 t3 : instant),
      (forall w0, outcome (extract_data_type key) w0 = Ok category)
      /\ k = silver_path category date
      /\ s3_objects w' = (bucket, k, Parquet df) :: s3_objects w
      /\ df_len df = records_processed s
      /\ cloudwatch_puts w'
         = ("Tally/DataQuality",
            [ mkMetric "DataQualityPassRate"
                       (VFloat (F64.mul (quality_pass_rate s) F64.hundred)) "Percent" t1
                       [("Environment", ENVIRONMENT); ("DataType", category)];
              mkMetric "RecordsProcessed" (VInt (records_processed s)) "Count" t2
                       [("Environment", ENVIRONMENT); ("DataType", category)];
              mkMetric "RecordsFailed" (VInt failed) "Count" t3
                       [("Environment", ENVIRONMENT); ("DataType", category)] ])
           :: cloudwatch_puts w.
Proof.
  intros clock ENVIRONMENT float_of_str astype bucket key w s w' k H Hk.
  destruct (process_wrote _ _ _ _ _ _ _ _ _ _ H Hk)
    as (category & date & df & failed & t1 & t2 & t3 & wa & wb & wc
        & _ & Hcat & Hpath & Hs3 & Hlen & Hcw).
  exists category, date, df, failed, t1, t2, t3.
  split; [intros w0; exact (extract_data_type_outcome key wb w0 category wc Hcat)|].
  split; [exact Hpath|]. split; [exact Hs3|]. split; [exact Hlen | exact Hcw].
Qed.

(** The scenario's batch: the three metrics carry the category
    [trending] of the Silver key and the counts of the result. *)
Lemma published_metrics_scenario :
  exists (s : summary) (w' : World) (failed : Z) (t1 t2 t3 : instant),
    process_bronze_file Sample.clock Sample.ENVIRONMENT Sample.float_of_str Sample.astype
      "tally" scenario_key scenario_world = (Ok s, w')
    /\ silver_key s = Some "silver/shows/trending/dt=2024-03-01/data.parquet"
    /\ cloudwatch_puts w'
       = [ ("Tally/DataQuality",
            [ mkMetric "DataQualityPassRate"
                       (VFloat (F64.mul (F64.decimal 4 1) F64.hundred)) "Percent" t1
                       [("Environment", "dev"); ("DataType", "trending")];
              mkMetric "RecordsProcessed" (VInt 2) "Count" t2
                       [("Environment", "dev"); ("DataType", "trending")];
              mkMetric "RecordsFailed" (VInt failed) "Count" t3
                       [("Environment", "dev"); ("DataType", "trending")] ]) ].
Proof.
  destruct (process_bronze_file Sample.clock Sample.ENVIRONMENT Sample.float_of_str
              Sample.astype "tally" scenario_key scenario_world) as [[s|e] w'] eqn:E.
  - assert (Hs : s = mkSummary 2 (F64.decimal 4 1)
                       (Some "silver/shows/trending/dt=2024-03-01/data.parquet")).
    { apply (f_equal fst) in E. vm_compute in E. now injection E as <-. }
    assert (Hk : silver_key s = Some "silver/shows/trending/dt=2024-03-01/data.parquet")
      by (rewrite Hs; reflexivity).
    destruct (published_metrics_match_written_batch Sample.clock Sample.ENVIRONMENT
                Sample.float_of_str Sample.astype "tally" scenario_key scenario_world s w'
                "silver/shows/trending/dt=2024-03-01/data.parquet" E Hk)
      as (category & date & df & failed & t1 & t2 & t3 & Hcat & _ & _ & _ & Hcw).
    specialize (Hcat Sample.empty_world). vm_compute in Hcat. injection Hcat as <-.
    exists s, w', failed, t1, t2, t3. split; [reflexivity|]. split; [exact Hk|].
    rewrite Hcw, Hs. reflexivity.
  - exfalso. apply (f_equal fst) in E. vm_compute in E. discriminate.
Defined.

(** ** From the Bronze key to the Silver key *)

(** X20. The Silver key is a function of the partition of the Bronze key:
    a run that wrote, on a key whose first [shows/] is followed by a
    category of word characters and whose first [dt=] is followed by a date
    token, wrote under [silver/shows/<category>/dt=<date>/data.parquet],
    whatever precedes the partition and whatever file name follows it. So
    all Bronze files of a partition are written to one Silver key. *)
Theorem silver_key_of_bronze_key :
  forall (clock : nat -> instant) (ENVIRONMENT : string)
         (float_of_str : string -> option spec_float)
         (astype : dtype -> list value -> result (list value))
         (bucket pre seg date post : string) (w : World) (s : summary) (w' : World)
         (k : string),
    occurs "shows/" (pre ++ "shows")%string = false ->
    word_segment seg = true ->
    occurs "dt=" ((pre ++ "shows/" ++ seg ++ "/") ++ "dt")%string = false ->
    is_date date = true ->
    process_bronze_file clock ENVIRONMENT float_of_str astype bucket
      (pre ++ "shows/" ++ seg ++ "/dt=" ++ date ++ post)%string w = (Ok s, w') ->
    silver_key s = Some k ->
    k = ("silver/shows/" ++ seg ++ "/dt=" ++ date ++ "/data.parquet")%string.
Proof.
  intros clock ENVIRONMENT float_of_str astype bucket pre seg date post w s w' k
         Hpre Hseg Hdt Hdate Hrun Hk.
  destruct (process_wrote _ _ _ _ _ _ _ _ _ _ Hrun Hk)
    as (category & date' & df & failed & t1 & t2 & t3 & wa & wb & wc
        & Hd & Hc & -> & _).
  assert (Hcat : category = seg).
  { unfold extract_data_type in Hc.
    change (pre ++ "shows/" ++ seg ++ "/dt=" ++ date ++ post)%string
      with (pre ++ "shows/" ++ seg ++ "/" ++ ("dt=" ++ date ++ post))%string in Hc.
    rewrite search_data_type_word in Hc by assumption. now injection Hc as <-. }
  assert (Hdat : date' = date).
  { unfold extract_partition_date in Hd.
    replace (pre ++ "shows/" ++ seg ++ "/dt=" ++ date ++ post)%string
      with ((pre ++ "shows/" ++ seg ++ "/") ++ "dt=" ++ date ++ post)%string in Hd
      by (now rewrite !string_append_assoc).
    rewrite search_date_token in Hd by assumption. now injection Hd as <-. }
  now rewrite Hcat, Hdat.
Qed.

(** The scenario's key. *)
Lemma silver_key_of_bronze_key_scenario :
  exists (s : summary) (w' : World),
    process_bronze_file Sample.clock Sample.ENVIRONMENT Sample.float_of_str Sample.astype
      "tally" scenario_key scenario_world = (Ok s, w')
    /\ silver_key s = Some "silver/shows/trending/dt=2024-03-01/data.parquet".
Proof.
  destruct (process_bronze_file Sample.clock Sample.ENVIRONMENT Sample.float_of_str
              Sample.astype "tally" scenario_key scenario_world) as [[s|e] w'] eqn:E.
  - exists s, w'. split; [reflexivity|].
    destruct (silver_key s) as [k|] eqn:Hk.
    + f_equal.
      apply (silver_key_of_bronze_key Sample.clock Sample.ENVIRONMENT Sample.float_of_str
               Sample.astype "tally" "bronze/" "trending" "2024-03-01" "/x.json"
               scenario_world s w' k); try reflexivity; assumption.
    + exfalso. apply (f_equal fst) in E. vm_compute in E. injection E as <-. discriminate.
  - exfalso. apply (f_equal fst) in E. vm_compute in E. discriminate.
Defined.

(** ** From the daily sync to the Silver layer *)

Lemma dict_lookup_set_cell_other (r : row) (c c' : string) (v : value) :
  c' <> c -> dict_lookup (set_cell r c v) c' = dict_lookup r c'.
Proof.
  intros Hne.
  assert (Hc : String.eqb c c' = false) by (apply String.eqb_neq; congruence).
  induction r as [|[k x] r IH]; cbn [set_cell dict_lookup].
  - now rewrite Hc.
  - destruct (String.eqb k c) eqn:E; cbn [dict_lookup].
    + apply String.eqb_eq in E. subst k. now rewrite Hc.
    + destruct (String.eqb k c'); [reflexivity | exact IH].
Qed.


(** The key [store_to_bronze] builds, read by the resolvers of the ETL. *)
Lemma bronze_key_resolves (clock : nat -> instant)
      (data_type date_partition execution_id : string) (w : World) :
  word_segment data_type = true ->
  is_date date_partition = true ->
  let key := ("bronze/tmdb/shows/" ++ data_type ++ "/dt=" ++ date_partition ++ "/"
              ++ execution_id ++ ".json")%string in
  extract_data_type key w = (Ok data_type, w)
  /\ extract_partition_date clock key w = (Ok date_partition, w).
Proof.
  intros Htype Hdate key. subst key. split.
  - unfold extract_data_type.
    change ("bronze/tmdb/shows/" ++ data_type ++ "/dt=" ++ date_partition ++ "/"
            ++ execution_id ++ ".json")%string
      with ("bronze/tmdb/" ++ "shows/" ++ data_type ++ "/"
            ++ ("dt=" ++ date_partition ++ "/" ++ execution_id ++ ".json"))%string.
    now rewrite search_data_type_word.
  - unfold extract_partition_date.
    replace ("bronze/tmdb/shows/" ++ data_type ++ "/dt=" ++ date_partition ++ "/"
             ++ execution_id ++ ".json")%string
      with (("bronze/tmdb/shows/" ++ data_type ++ "/") ++ "dt=" ++ date_partition
            ++ ("/" ++ execution_id ++ ".json"))%string
      by (now rewrite !string_append_assoc).
    rewrite search_date_token; [reflexivity | | exact Hdate].
    unfold occurs. rewrite !list_ascii_app.
    apply (occurs_list_needs "="%char); [cbn; tauto|].
    unfold word_segment in Htype.
    assert (Hrun : forallb Re.word (list_ascii_of_string data_type) = true)
      by (destruct (list_ascii_of_string data_type); [discriminate | exact Htype]).
    rewrite !existsb_app, (class_run_excludes Re.word "="%char _ Hrun) by reflexivity.
    reflexivity.
Qed.



(** What [store_to_bronze] leaves in the store when it returns. *)
Lemma store_to_bronze_stores (clock : nat -> instant) (S3_BUCKET ENVIRONMENT : string)
      (d : dict) (data_type date_partition execution_id : string)
      (w : World) (key : string) (w1 : World) :
  store_to_bronze clock S3_BUCKET ENVIRONMENT (VDict d)
                  data_type date_partition execution_id w = (Ok key, w1) ->
  exists doc,
    key = ("bronze/tmdb/shows/" ++ data_type ++ "/dt=" ++ date_partition ++ "/"
           ++ execution_id ++ ".json")%string
    /\ s3_lookup w1 S3_BUCKET key = Some (Json (VDict doc))
    /\ dict_lookup doc "results" = dict_lookup d "results".
Proof.
  unfold store_to_bronze. rewrite bind_lift.
  unfold bind, datetime_now, put_object, upload_file, ret.
  intros [= <- <-]. eexists. split; [reflexivity|]. split.
  - unfold s3_lookup. cbn [s3_objects find fst snd]. now rewrite !String.eqb_refl.
  - apply dict_lookup_set_cell_other. discriminate.
Qed.

(** X22. The two lambdas agree on the layout. When the sync has stored a
    payload for a data type and a date, and the ETL processes the object
    under the key the sync returned: with no shows in the payload the ETL
    returns the empty result and writes nothing; otherwise it writes the
    batch under [silver/shows/<data_type>/dt=<date>/data.parquet], the
    partition the sync stored it under. *)
Theorem synced_file_lands_in_its_partition :
  forall (clock : nat -> instant) (S3_BUCKET ENVIRONMENT : string)
         (float_of_str : string -> option spec_float)
         (astype : dtype -> list value -> result (list value))
         (d : dict) (data_type date_partition execution_id : string)
         (w : World) (key : string) (w1 : World) (s : summary) (w2 : World),
    word_segment data_type = true ->
    is_date date_partition = true ->
    store_to_bronze clock S3_BUCKET ENVIRONMENT (VDict d)
                    data_type date_partition execution_id w = (Ok key, w1) ->
    process_bronze_file clock ENVIRONMENT float_of_str astype S3_BUCKET key w1 = (Ok s, w2) ->
    let shows := dict_get_default d "results" (VList []) in
    (truthy shows = false /\ s = mkSummary 0 F64.zero None /\ same_stores w1 w2)
    \/
    (truthy shows = true
     /\ silver_key s = Some (silver_path data_type date_partition)
     /\ exists df,
          s3_lookup w2 S3_BUCKET (silver_path data_type date_partition) = Some (Parquet df)
          /\ df_len df = records_processed s).
Proof.
  intros clock S3_BUCKET ENVIRONMENT float_of_str astype d data_type date_partition
         execution_id w key w1 s w2 Htype Hdate Hstore Hrun.
  destruct (store_to_bronze_stores clock S3_BUCKET ENVIRONMENT d data_type date_partition
              execution_id w key w1 Hstore) as (doc & -> & Hread & Hres).
  cbv zeta.
  assert (Hshows : dict_get_default doc "results" (VList [])
                   = dict_get_default d "results" (VList []))
    by (unfold dict_get_default; now rewrite Hres).
  pose proof (process_returns clock ENVIRONMENT float_of_str astype _ _ _ _ _ Hrun)
    as (d0 & Hobj & Hcases).
  rewrite Hread in Hobj. injection Hobj as <-. cbv zeta in Hcases. rewrite Hshows in Hcases.
  destruct Hcases as [(Ht & Hs & Hst)
                     |(Ht & (n & items & normalized & w3 & df0 & c & w4 & category0 & date0
                             & md & _ & _ & _ & _ & Hs & _))];
    [left; split; [exact Ht | split; [exact Hs | exact Hst]]|].
  right. split; [exact Ht|].
  assert (Hk : silver_key s = Some (silver_path category0 date0))
    by (rewrite Hs; reflexivity).
  destruct (process_wrote _ _ _ _ _ _ _ _ _ _ Hrun Hk)
    as (category & date' & df & failed & t1 & t2 & t3 & wa & wb & wc
        & Hd & Hc & Hpath & Hs3 & Hlen & _).
  destruct (bronze_key_resolves clock data_type date_partition execution_id wa Htype Hdate)
    as [_ Hd'].
  destruct (bronze_key_resolves clock data_type date_partition execution_id wb Htype Hdate)
    as [Hc' _].
  cbv zeta in Hd', Hc'. rewrite Hd' in Hd. rewrite Hc' in Hc.
  injection Hd as <- _. injection Hc as <- _.
  rewrite Hpath in Hk, Hs3.
  split; [exact Hk|]. exists df.
  destruct (s3_lookup_written _ _ _ _ _ Hs3) as [Hnew _]. split; [exact Hnew | exact Hlen].
Qed.

(** One trending show, stored by the sync and processed by the ETL. *)
Lemma synced_file_example :
  let payload := [("page", VInt 1);
                  ("results", VList [VDict [("id", VInt 1); ("name", VStr "A")]])] in
  let stored := store_to_bronze Sample.clock "tally" "dev" (VDict payload)
                  "trending_shows" "2024-03-01" "run-1" in
  exists (s : summary) (w2 : World) (df : DataFrame),
    process_bronze_file Sample.clock "dev" Sample.float_of_str Sample.astype "tally"
      "bronze/tmdb/shows/trending_shows/dt=2024-03-01/run-1.json"
      (final stored Sample.empty_world) = (Ok s, w2)
    /\ silver_key s = Some "silver/shows/trending_shows/dt=2024-03-01/data.parquet"
    /\ s3_lookup w2 "tally" "silver/shows/trending_shows/dt=2024-03-01/data.parquet"
       = Some (Parquet df)
    /\ df_len df = 1.
Proof.
  intros payload stored.
  assert (Hstore : stored Sample.empty_world
                   = (Ok "bronze/tmdb/shows/trending_shows/dt=2024-03-01/run-1.json",
                      final stored Sample.empty_world)) by reflexivity.
  destruct (process_bronze_file Sample.clock "dev" Sample.float_of_str Sample.astype "tally"
              "bronze/tmdb/shows/trending_shows/dt=2024-03-01/run-1.json"
              (final stored Sample.empty_world)) as [[s|e] w2] eqn:E.
  - assert (Hs : records_processed s = 1).
    { apply (f_equal fst) in E. vm_compute in E. now injection E as <-. }
    destruct (synced_file_lands_in_its_partition Sample.clock "tally" "dev"
                Sample.float_of_str Sample.astype payload "trending_shows" "2024-03-01"
                "run-1" Sample.empty_world _ _ s w2 eq_refl eq_refl Hstore E)
      as [(Ht & _)|(_ & Hk & df & Hread & Hlen)]; [discriminate|].
    exists s, w2, df. split; [reflexivity|]. split; [exact Hk|]. split; [exact Hread|].
    now rewrite Hlen.
  - exfalso. apply (f_equal fst) in E. vm_compute in E. discriminate.
Defined.

(** ** An event of one object *)

(** X23. On an event of one object the entry point adds nothing to
    [process_bronze_file] but the decoding of the key, its log lines and the
    envelope: the file is read under the bucket of the record and the
    decoded key; when the run returns, the body holds [files_processed = 1]
    and that very result; when it raises, the handler logs and raises that
    very exception. *)
Theorem single_object_event :
  forall (clock : nat -> instant) (ENVIRONMENT : string)
         (float_of_str : string -> option spec_float)
         (astype : dtype -> list value -> result (list value))
         (unquote_plus : string -> string)
         (bucket key : string) (context : value) (i : Invocation),
    lambda_handler clock ENVIRONMENT float_of_str astype unquote_plus
                   (s3_event [(bucket, key)]) context i
    = let started := noted InfoStarting i in
      let announced := noted (InfoProcessing (VStr bucket) (unquote_plus key)) started in
      match process_bronze_file clock ENVIRONMENT float_of_str astype
              bucket (unquote_plus key) (world i) with
      | (Ok s, w') =>
          (Returned
             (mkResponse 200
                (Dumps (VDict [ ("message", VStr "ETL completed successfully");
                                ("files_processed", VInt 1);
                                ("results", VList [summary_dict s]) ]))),
           noted (InfoProcessed (records_processed s) (quality_pass_rate s))
                 (mkInvocation w' (handler_log announced)))
      | (Raise e, w') =>
          (Failed (Raised e),
           noted (ErrorEtl (Raised e)) (mkInvocation w' (handler_log announced)))
      end.
Proof.
  intros clock ENVIRONMENT float_of_str astype unquote_plus bucket key context i.
  cbv zeta. unfold lambda_handler. unfold entry_bind at 1. unfold handler_logger at 1.
  fold (noted InfoStarting i). unfold try_log_raise.
  rewrite entry_bind_lift. unfold s3_event.
  cbn [py_subscript dict_lookup String.eqb Ascii.eqb Bool.eqb].
  rewrite entry_bind_lift. cbn [py_iter map].
  unfold entry_bind at 1. cbn [records_loop]. unfold entry_bind at 1.
  rewrite (process_record_s3 clock ENVIRONMENT float_of_str astype unquote_plus
             (bucket, key) [] (noted InfoStarting i)).
  cbn [fst snd world noted].
  destruct (process_bronze_file clock ENVIRONMENT float_of_str astype bucket
              (unquote_plus key) (world i)) as [[s|e] w']; reflexivity.
Qed.
